(** * Vema24: domain calculators of the stokvel platform

    A shallow embedding of the calculation and state-transition code in the
    model, repository and service classes (Loan.model.js, Stokvel.model.js,
    FuneralCover.model.js, Product.model.js, User.model.js,
    LoanRepository.js, UserRepository.js, ProductRepository.js,
    StokvelRepository.js, StokvelService.js and the funeral, loan and store
    services of FuneralService.js), with the properties the specification
    states about them and further properties read off the code.

    Modelling conventions.
    - A JavaScript number that carries money is an exact rational ([Qc],
      canonical rationals, so that equal amounts are equal terms).  IEEE
      rounding, overflow to Infinity and NaN operands are outside the model;
      NaN appears only where the code itself produces it from
      [undefined] (see [JsNumber]).  The statements about money give what
      one call computes by the formula the code evaluates, or compare
      amounts; a property that exact numbers have only because sums can be
      regrouped, such as a run of payments against one payment of their
      total, is not stated.
    - A [Date] is its time value: milliseconds since the epoch, as [Z].
      The range limit of time values (8.64e15 ms) is outside the model.
      Local time is UTC plus a fixed offset ([tzOffset]); daylight saving
      is not modelled.
    - [new Date()] reads the clock; every function that reads it takes the
      reading as an explicit argument, one argument per read.
    - Object literals used as lookup tables are finite maps keyed by
      strings; a bracket lookup also sees the properties inherited from
      [Object.prototype] (see [js_get]).
    - A collection of the database is a finite map from document ids to
      documents.  A method that writes takes the collection and returns it
      changed; the id the client assigns to a new document is an argument.
      Calls are taken one at a time.  The one failure of the client that is
      modelled is the rejected update of a document that does not exist (or
      of a [null] or empty id); timestamps the base repository adds are left
      out.
    - Texts are strings of bytes. *)

From Stdlib Require Import ZArith QArith Qcanon Qround Lia Lqa List Ascii String.
From stdpp Require Import base strings pretty gmap.

Local Open Scope Z_scope.

(** ** JavaScript numbers *)

Module Js.

(** Decimal literal [n / d] of the source as a canonical rational. *)
Definition lit (n : Z) (d : positive) : Qc := Q2Qc (n # d).

Definition ofZ (n : Z) : Qc := Q2Qc (inject_Z n).

(** The larger of two numbers. *)
Definition max (a b : Qc) : Qc := if Qclt_le_dec a b then b else a.

(** [a >= b] on numbers, as a boolean. *)
Definition geb (a b : Qc) : bool := if Qclt_le_dec a b then false else true.

(** [a <= b] on numbers, as a boolean. *)
Definition leb (a b : Qc) : bool := if Qclt_le_dec b a then false else true.

(** [Math.ceil] of a rational. *)
Definition ceil (q : Qc) : Z := Qceiling q.

End Js.

(** ** User.model.js: store discount *)

Module User.

(** The two fields [calculateDiscount] reads. *)
Record t := mk {
  savingsTotal : Qc;
  funeralCover : bool
}.

(** [User.calculateDiscount]. *)
Definition calculateDiscount (u : t) : Qc :=
  if negb (funeralCover u) then
    if Js.geb (savingsTotal u) (Js.ofZ 10000) then Js.ofZ 25
    else if Js.geb (savingsTotal u) (Js.ofZ 5000) then Js.ofZ 10
    else Js.ofZ 0
  else
    if Js.geb (savingsTotal u) (Js.ofZ 10000) then Js.ofZ 30
    else if Js.geb (savingsTotal u) (Js.ofZ 5000) then Js.ofZ 20
    else Js.ofZ 0.

End User.

(** ** Product.model.js: cart items and order totals *)

Module Product.

(** The fields of the constructor. *)
Record t := mk {
  id : option string;
  name : string;
  description : string;
  price : Qc;
  category : string;
  image : string;
  stock : Qc;
  featured : bool
}.

(** [Product.isInStock]. *)
Definition isInStock (p : t) : bool := negb (Js.leb (stock p) 0%Qc).

End Product.

Module CartItem.

Record t := mk {
  id : option string;
  name : string;
  price : Qc;
  image : string;
  quantity : Qc
}.

(** [CartItem.getTotal]. *)
Definition getTotal (i : t) : Qc := (price i * quantity i)%Qc.

(** [new CartItem(data)]: the constructor's [||] defaults.  An empty [id]
    becomes [null] and a quantity of 0 becomes 1. *)
Definition construct (data : t) : t :=
  mk (match id data with Some "" => None | x => x end)
     (name data) (price data) (image data)
     (if Qc_eq_dec (quantity data) 0%Qc then 1%Qc else quantity data).

(** [toObject]: the same five fields as a plain object. *)
Definition toObject (i : t) : t := i.

(** [CartItem.fromObject]. *)
Definition fromObject (obj : t) : t := construct obj.

End CartItem.

Module Order.

Record totals := mkTotals {
  subtotal : Qc;
  discount : Qc;
  total : Qc
}.

(** [Order.calculateTotals]: [items.reduce] is a left fold from 0. *)
Definition calculateTotals (items : list CartItem.t) (discountPercent : Qc) : totals :=
  let subtotal := fold_left (fun sum item => (sum + CartItem.getTotal item)%Qc) items 0%Qc in
  let discount := (subtotal * (discountPercent / Js.ofZ 100))%Qc in
  let total := (subtotal - discount)%Qc in
  {| subtotal := subtotal; discount := discount; total := total |}.

(** The default parameter [discountPercent = 0]. *)
Definition calculateTotals_default (items : list CartItem.t) : totals :=
  calculateTotals items 0%Qc.

(** The fields of an order; the three amounts carry a prefix to keep them
    apart from those of [totals]. *)
Record t := mk {
  id : option string;
  userId : string;
  items : list CartItem.t;
  o_subtotal : Qc;
  o_discount : Qc;
  o_total : Qc;
  shippingAddress : string;
  paymentMethod : string;
  status : string
}.

(** [new Order(data)]: the constructor's [||] defaults. *)
Definition construct (data : t) : t :=
  mk (match id data with Some "" => None | x => x end)
     (userId data) (items data) (o_subtotal data) (o_discount data) (o_total data)
     (shippingAddress data) (paymentMethod data)
     (if decide (status data = "") then "processing" else status data).

(** [toFirestore]: every field but the id, the items as plain objects. *)
Definition toFirestore (o : t) : t :=
  mk None (userId o) (map CartItem.toObject (items o)) (o_subtotal o) (o_discount o)
     (o_total o) (shippingAddress o) (paymentMethod o) (status o).

(** [Order.fromFirestore]. *)
Definition fromFirestore (docId : string) (data : t) : t :=
  construct
    (mk (Some docId) (userId data) (map CartItem.fromObject (items data)) (o_subtotal data)
       (o_discount data) (o_total data) (shippingAddress data) (paymentMethod data)
       (status data)).

End Order.

(** ** Loan.model.js *)

Module Loan.

Record t := mk {
  id : option string;
  userId : string;
  amount : Qc;
  term : Qc;
  purpose : string;
  status : string;
  applicationDate : Z;
  approvalDate : option Z;
  disbursementDate : option Z;
  interestRate : Qc;
  initiationFee : Qc;
  serviceFee : Qc;
  totalRepayment : Qc;
  monthlyRepayment : Qc;
  amountPaid : Qc;
  remainingBalance : Qc
}.

Record details := mkDetails {
  d_capital : Qc;
  d_interest : Qc;
  d_serviceFee : Qc;
  d_initiationFee : Qc;
  d_totalRepayment : Qc;
  d_monthlyRepayment : Qc;
  d_term : Qc
}.

(** [Loan.calculateLoanDetails]. *)
Definition calculateLoanDetails (amount term : Qc) : details :=
  let interest := (amount * Js.lit 45 1000)%Qc in
  let serviceFee := Js.lit 5226 100 in
  let initiationFee := (amount * Js.lit 15 100)%Qc in
  let totalRepayment := (amount + interest + serviceFee + initiationFee)%Qc in
  let monthlyRepayment := (totalRepayment / term)%Qc in
  {| d_capital := amount;
     d_interest := interest;
     d_serviceFee := serviceFee;
     d_initiationFee := initiationFee;
     d_totalRepayment := totalRepayment;
     d_monthlyRepayment := monthlyRepayment;
     d_term := term |}.

(** The default parameter [term = 3]. *)
Definition calculateLoanDetails_default (amount : Qc) : details :=
  calculateLoanDetails amount (Js.ofZ 3).

(** [Loan.isApproved]. *)
Definition isApproved (l : t) : bool := bool_decide (status l = "approved").

(** [Loan.calculateRemainingBalance]. *)
Definition calculateRemainingBalance (l : t) : Qc :=
  (totalRepayment l - amountPaid l)%Qc.

Definition set_amountPaid (v : Qc) (l : t) : t :=
  mk (id l) (userId l) (amount l) (term l) (purpose l) (status l)
     (applicationDate l) (approvalDate l) (disbursementDate l) (interestRate l)
     (initiationFee l) (serviceFee l) (totalRepayment l) (monthlyRepayment l)
     v (remainingBalance l).

Definition set_remainingBalance (v : Qc) (l : t) : t :=
  mk (id l) (userId l) (amount l) (term l) (purpose l) (status l)
     (applicationDate l) (approvalDate l) (disbursementDate l) (interestRate l)
     (initiationFee l) (serviceFee l) (totalRepayment l) (monthlyRepayment l)
     (amountPaid l) v.

Definition set_status (v : string) (l : t) : t :=
  mk (id l) (userId l) (amount l) (term l) (purpose l) v
     (applicationDate l) (approvalDate l) (disbursementDate l) (interestRate l)
     (initiationFee l) (serviceFee l) (totalRepayment l) (monthlyRepayment l)
     (amountPaid l) (remainingBalance l).

(** [Loan.recordPayment]: the method mutates [this] and returns it; the
    three assignments are threaded through in source order. *)
Definition recordPayment (l : t) (amount : Qc) : t :=
  let l1 := set_amountPaid (amountPaid l + amount)%Qc l in
  let l2 := set_remainingBalance (calculateRemainingBalance l1) l1 in
  if Js.leb (remainingBalance l2) 0%Qc then
    set_remainingBalance 0%Qc (set_status "paid" l2)
  else l2.

(** Two loans agree on every field that [recordPayment] never assigns. *)
Definition same_other_fields (a b : t) : Prop :=
  id a = id b /\ userId a = userId b /\ amount a = amount b /\ term a = term b /\
  purpose a = purpose b /\ applicationDate a = applicationDate b /\
  approvalDate a = approvalDate b /\ disbursementDate a = disbursementDate b /\
  interestRate a = interestRate b /\ initiationFee a = initiationFee b /\
  serviceFee a = serviceFee b /\ totalRepayment a = totalRepayment b /\
  monthlyRepayment a = monthlyRepayment b.

(** [Loan.isActive]. *)
Definition isActive (l : t) : bool :=
  bool_decide (status l = "approved") && negb (Js.leb (remainingBalance l) 0%Qc).

End Loan.

(** ** LoanRepository.js *)

(** What an [async] method settles to: the returned value or the thrown
    [Error]'s message. *)
Inductive outcome (A : Type) : Type :=
  | Returned (a : A)
  | Threw (message : string).
Arguments Returned {A} a.
Arguments Threw {A} message.

(** What a rejected promise carries: an [Error] thrown by this code, with
    its message, or the error of the database client.  The client rejects an
    [update] of a document that does not exist, and a document reference
    made from [null]. *)
Inductive thrown : Type :=
  | Error (message : string)
  | ClientError.

(** What an [async] repository method settles to. *)
Inductive settled (A : Type) : Type :=
  | Resolved (a : A)
  | Rejected (e : thrown).
Arguments Resolved {A} a.
Arguments Rejected {A} e.

(** What a service method returns: [{success: true, ...}] with its payload,
    or [{success: false, error}].  For an error of the client the text is
    the client's own. *)
Inductive reply (A : Type) : Type :=
  | Success (a : A)
  | Failure (error : thrown).
Arguments Success {A} a.
Arguments Failure {A} error.

(** [error.message || fallback] in the [catch] block of a service method. *)
Definition caught (e : thrown) (fallback : string) : thrown :=
  match e with
  | Error message => Error (if decide (message = "") then fallback else message)
  | ClientError => ClientError
  end.

Module LoanRepository.

(** The [loans] collection: documents by id.  A document carries the fields
    [Loan.toFirestore] writes (its [id] field is not stored). *)
Abbreviation store := (gmap string Loan.t).

(** [x || d] on a number: 0 is falsy. *)
Definition or_num (x d : Qc) : Qc := if Qc_eq_dec x 0%Qc then d else x.

(** [x || d] on a string: the empty string is falsy. *)
Definition or_str (x d : string) : string := if decide (x = "") then d else x.

(** [Loan.fromFirestore]: [new Loan({id: doc.id, ...data})], with the
    constructor's [||] defaults. *)
Definition fromFirestore (docId : string) (data : Loan.t) : Loan.t :=
  Loan.mk (if decide (docId = "") then None else Some docId)
          (Loan.userId data)
          (Loan.amount data)
          (or_num (Loan.term data) (Js.ofZ 3))
          (Loan.purpose data)
          (or_str (Loan.status data) "pending")
          (Loan.applicationDate data)
          (Loan.approvalDate data)
          (Loan.disbursementDate data)
          (or_num (Loan.interestRate data) (Js.ofZ 5))
          (Loan.initiationFee data)
          (or_num (Loan.serviceFee data) (Js.lit 5226 100))
          (Loan.totalRepayment data)
          (Loan.monthlyRepayment data)
          (Loan.amountPaid data)
          (Loan.remainingBalance data).

(** [getLoanById]: [null] when the document does not exist. *)
Definition getLoanById (db : store) (loanId : string) : option Loan.t :=
  fromFirestore loanId <$> db !! loanId.

(** [update(loanId, {amountPaid, remainingBalance, status})] on an existing
    document. *)
Definition update_payment (loan : Loan.t) (data : Loan.t) : Loan.t :=
  Loan.set_status (Loan.status loan)
    (Loan.set_remainingBalance (Loan.remainingBalance loan)
       (Loan.set_amountPaid (Loan.amountPaid loan) data)).

(** [LoanRepository.recordPayment]: the settled outcome and the collection
    afterwards. *)
Definition recordPayment (db : store) (loanId : string) (amount : Qc)
  : outcome Loan.t * store :=
  match getLoanById db loanId with
  | None => (Threw "Loan not found", db)
  | Some loan0 =>
      let loan := Loan.recordPayment loan0 amount in
      (Returned loan, alter (update_payment loan) loanId db)
  end.

(** The behaviour the specification words for [applyPayment]: a payment with
    [amount <= 0], or on a loan whose status is not [approved], is rejected
    and leaves the stored loan as it was. *)
Definition rejects_invalid_payments : Prop :=
  forall (db : store) (loanId : string) (data : Loan.t) (amount : Qc),
    db !! loanId = Some data ->
    (amount <= 0)%Qc \/ Loan.status data <> "approved" ->
    exists message, recordPayment db loanId amount = (Threw message, db).

Definition set_approval (approval disbursement : option Z) (l : Loan.t) : Loan.t :=
  Loan.mk (Loan.id l) (Loan.userId l) (Loan.amount l) (Loan.term l) (Loan.purpose l)
     (Loan.status l) (Loan.applicationDate l) approval disbursement (Loan.interestRate l)
     (Loan.initiationFee l) (Loan.serviceFee l) (Loan.totalRepayment l)
     (Loan.monthlyRepayment l) (Loan.amountPaid l) (Loan.remainingBalance l).

(** [new Loan({...loanData, ...details, status: 'pending', applicationDate})]
    in [createLoan].  The quote brings [term], [serviceFee], [initiationFee],
    [totalRepayment] and [monthlyRepayment]; it has no [interestRate],
    [amountPaid] or [remainingBalance], so the constructor's defaults stand
    for these. *)
Definition application (userId : string) (amount term : Qc) (purpose : string)
    (now : Z) : Loan.t :=
  let details := Loan.calculateLoanDetails amount term in
  Loan.mk None
          userId
          (or_num amount 0%Qc)
          (or_num (Loan.d_term details) (Js.ofZ 3))
          purpose
          "pending"
          now
          None
          None
          (Js.ofZ 5)
          (or_num (Loan.d_initiationFee details) 0%Qc)
          (or_num (Loan.d_serviceFee details) (Js.lit 5226 100))
          (or_num (Loan.d_totalRepayment details) 0%Qc)
          (or_num (Loan.d_monthlyRepayment details) 0%Qc)
          0%Qc
          0%Qc.

(** [createLoan]: the document is stored under the id [newId] the client
    assigns; the loan returned carries that id. *)
Definition createLoan (db : store) (newId userId : string) (amount term : Qc)
    (purpose : string) (now : Z) : Loan.t * store :=
  let loan := application userId amount term purpose now in
  (Loan.mk (Some newId) (Loan.userId loan) (Loan.amount loan) (Loan.term loan)
     (Loan.purpose loan) (Loan.status loan) (Loan.applicationDate loan)
     (Loan.approvalDate loan) (Loan.disbursementDate loan) (Loan.interestRate loan)
     (Loan.initiationFee loan) (Loan.serviceFee loan) (Loan.totalRepayment loan)
     (Loan.monthlyRepayment loan) (Loan.amountPaid loan) (Loan.remainingBalance loan),
   <[newId := loan]> db).

(** [approveLoan], with the two clock readings of its [new Date()]s. *)
Definition approveLoan (db : store) (loanId : string) (now1 now2 : Z)
  : settled bool * store :=
  match db !! loanId with
  | None => (Rejected ClientError, db)
  | Some _ =>
      (Resolved true,
       alter (fun data => set_approval (Some now1) (Some now2)
                            (Loan.set_status "approved" data)) loanId db)
  end.

(** [rejectLoan]; the [rejectionReason] it also writes is a field the model
    never reads. *)
Definition rejectLoan (db : store) (loanId : string) : settled bool * store :=
  match db !! loanId with
  | None => (Rejected ClientError, db)
  | Some _ => (Resolved true, alter (Loan.set_status "rejected") loanId db)
  end.

End LoanRepository.

(** ** LoanService.js *)

Module LoanService.

(** [{valid: true}] or [{valid: false, error}]. *)
Inductive validation : Type :=
  | Valid
  | Invalid (error : string).

Definition validAmounts : list Qc := [Js.ofZ 500; Js.ofZ 1000; Js.ofZ 2000; Js.ofZ 3000].

Definition validTerms : list Qc := [Js.ofZ 1; Js.ofZ 2; Js.ofZ 3].

(** [Array.prototype.includes] on numbers. *)
Definition includes (xs : list Qc) (x : Qc) : bool :=
  existsb (fun y => bool_decide (y = x)) xs.

(** [validateLoanApplication]. *)
Definition validateLoanApplication (amount term : Qc) : validation :=
  if negb (includes validAmounts amount) then
    Invalid "Invalid loan amount. Choose from R500, R1000, R2000, or R3000"
  else if negb (includes validTerms term) then
    Invalid "Invalid loan term. Choose 1, 2, or 3 months"
  else Valid.

(** [applyForLoan]: the reply and the [loans] collection afterwards. *)
Definition applyForLoan (db : LoanRepository.store) (newId userId : string)
    (amount term : Qc) (purpose : string) (now : Z)
  : reply Loan.t * LoanRepository.store :=
  match validateLoanApplication amount term with
  | Invalid error => (Failure (Error error), db)
  | Valid =>
      let '(loan, db') := LoanRepository.createLoan db newId userId amount term purpose now in
      (Success loan, db')
  end.

(** [makeLoanPayment]. *)
Definition makeLoanPayment (db : LoanRepository.store) (loanId : string) (amount : Qc)
  : reply Loan.t * LoanRepository.store :=
  match LoanRepository.recordPayment db loanId amount with
  | (Returned loan, db') => (Success loan, db')
  | (Threw message, db') => (Failure (caught (Error message) "Failed to record payment"), db')
  end.

End LoanService.

(** ** FuneralCover.model.js *)

(** A bracket lookup [obj[key]] on an object literal: an own property, else
    a property inherited from [Object.prototype], else [undefined]. *)
Inductive lookup_result (A : Type) : Type :=
  | Own (a : A)
  | Inherited (key : string)
  | Undefined.
Arguments Own {A} a.
Arguments Inherited {A} key.
Arguments Undefined {A}.

(** The property names of [Object.prototype]. *)
Definition Object_prototype_keys : list string :=
  [ "constructor"; "hasOwnProperty"; "isPrototypeOf"; "propertyIsEnumerable";
    "toLocaleString"; "toString"; "valueOf"; "__proto__";
    "__defineGetter__"; "__defineSetter__"; "__lookupGetter__"; "__lookupSetter__" ].

Definition js_get {A : Type} (obj : gmap string A) (key : string) : lookup_result A :=
  match obj !! key with
  | Some a => Own a
  | None => if bool_decide (key ∈ Object_prototype_keys) then Inherited key else Undefined
  end.

(** A number that may be NaN. *)
Inductive JsNumber : Type :=
  | Num (q : Qc)
  | NaN.

Module FuneralCoverPlan.

Record coverage := mkCoverage {
  mainMember : Qc;
  spouse : Qc;
  children : Qc;
  extended : Qc
}.

Record plan := mkPlan {
  id : string;
  name : string;
  price : Qc;
  cover : coverage;
  maxChildren : Z;
  maxExtended : Z
}.

Definition BASIC : plan :=
  mkPlan "basic" "Basic Plan" (Js.ofZ 99)
    (mkCoverage (Js.ofZ 25000) (Js.ofZ 0) (Js.ofZ 0) (Js.ofZ 0)) 0 0.

Definition FAMILY : plan :=
  mkPlan "family" "Family Plan" (Js.ofZ 199)
    (mkCoverage (Js.ofZ 50000) (Js.ofZ 50000) (Js.ofZ 15000) (Js.ofZ 0)) 5 0.

Definition EXTENDED : plan :=
  mkPlan "extended" "Extended Family Plan" (Js.ofZ 299)
    (mkCoverage (Js.ofZ 75000) (Js.ofZ 75000) (Js.ofZ 20000) (Js.ofZ 30000)) 5 4.

(** [Object.values(PLANS)], in insertion order. *)
Definition PLANS_values : list plan := [BASIC; FAMILY; EXTENDED].

(** [WAITING_PERIODS], in months. *)
Definition WAITING_PERIODS : gmap string Z :=
  <["NATURAL_DEATH" := 6]> (<["ACCIDENTAL_DEATH" := 0]> (<["SUICIDE" := 24]> ∅)).

Record benefit := mkBenefit {
  b_name : string;
  b_price : Qc
}.

Definition ADDITIONAL_BENEFITS : gmap string benefit :=
  <["CHAIRS" := mkBenefit "100 Chairs" (Js.ofZ 25)]>
  (<["TOILET" := mkBenefit "Mobile Toilet" (Js.ofZ 30)]>
  (<["FRIDGE" := mkBenefit "Mobile Fridge" (Js.ofZ 35)]>
  (<["DECORATION" := mkBenefit "Decoration" (Js.ofZ 65)]>
  (<["CATERING" := mkBenefit "Catering" (Js.ofZ 75)]> ∅)))).

(** [FuneralCoverPlan.getPlan]: [Array.prototype.find], [undefined] as [None]. *)
Definition getPlan (planId : string) : option plan :=
  List.find (fun p => bool_decide (id p = planId)) PLANS_values.

(** [total += x] where [x] may be [undefined]. *)
Definition add_price (total : JsNumber) (x : option Qc) : JsNumber :=
  match total, x with
  | Num t, Some p => Num (t + p)%Qc
  | _, _ => NaN
  end.

(** One step of the [forEach] in [calculatePremium].  An inherited property
    is a function or object, truthy, with no [price] of its own. *)
Definition add_benefit (total : JsNumber) (benefitKey : string) : JsNumber :=
  match js_get ADDITIONAL_BENEFITS benefitKey with
  | Own b => add_price total (Some (b_price b))
  | Inherited _ => add_price total None
  | Undefined => total
  end.

(** [FuneralCoverPlan.calculatePremium]. *)
Definition calculatePremium (planId : string) (additionalBenefits : list string) : JsNumber :=
  match getPlan planId with
  | None => Num 0%Qc
  | Some plan => fold_left add_benefit additionalBenefits (Num (price plan))
  end.

(** The default parameter [additionalBenefits = []]. *)
Definition calculatePremium_default (planId : string) : JsNumber :=
  calculatePremium planId [].

End FuneralCoverPlan.

Module FuneralCoverMembership.

(** The fields of the constructor; [familyDetails], which no method reads,
    is left out. *)
Record t := mk {
  userId : string;
  planId : string;
  active : bool;
  startDate : Z;
  paymentMethod : string;
  additionalBenefits : list string;
  monthlyPremium : Qc
}.

(** Milliseconds in the 30-day month of the source:
    [1000 * 60 * 60 * 24 * 30]. *)
Definition msPerMonth : Z := 1000 * 60 * 60 * 24 * 30.

(** [getMonthsSinceStart], with the clock reading [now]. *)
Definition getMonthsSinceStart (m : t) (now : Z) : Z :=
  let start := startDate m in
  let diffTime := Z.abs (now - start) in
  let diffMonths := Js.ceil (Js.ofZ diffTime / Js.ofZ msPerMonth)%Qc in
  diffMonths.

(** [WAITING_PERIODS[deathType] || 6]: a number, or [None] for the function
    or object found through the prototype. *)
Definition waitingPeriod (deathType : string) : option Z :=
  match js_get FuneralCoverPlan.WAITING_PERIODS deathType with
  | Own n => Some (if decide (n = 0) then 6 else n)
  | Inherited _ => None
  | Undefined => Some 6
  end.

(** [hasWaitingPeriodPassed].  Comparing a number with a function or a plain
    object converts the latter to NaN, and [>=] is then false. *)
Definition hasWaitingPeriodPassed (m : t) (deathType : string) (now : Z) : bool :=
  let monthsSinceStart := getMonthsSinceStart m now in
  match waitingPeriod deathType with
  | Some w => bool_decide (w <= monthsSinceStart)
  | None => false
  end.

(** The waiting-period table as the specification words it: natural death 6
    months, accidental death 0, suicide 24, any other cause 6.  The causes are
    named by the keys of [WAITING_PERIODS]. *)
Definition spec_waitingPeriod (deathType : string) : Z :=
  if decide (deathType = "NATURAL_DEATH") then 6
  else if decide (deathType = "ACCIDENTAL_DEATH") then 0
  else if decide (deathType = "SUICIDE") then 24
  else 6.

End FuneralCoverMembership.

(** ** The built-in [Date]

    The abstract operations of the ECMAScript specification on time values.
    Year, month and day of a day number are computed with the usual
    era-based civil-calendar algorithm (a 400-year era has 146097 days and
    starts on 1 March); months are 0-based as in JavaScript. *)

Module JsDate.

Definition msPerDay : Z := 86400000.

Definition Day (t : Z) : Z := t / msPerDay.

Definition TimeWithinDay (t : Z) : Z := t mod msPerDay.

(** Leap years of the proleptic Gregorian calendar. *)
Definition isLeapYear (y : Z) : bool :=
  ((y mod 4 =? 0) && negb (y mod 100 =? 0)) || (y mod 400 =? 0).

(** Days of month [m] (0-based) in year [y]. *)
Definition daysInMonth (y m : Z) : Z :=
  if m =? 1 then (if isLeapYear y then 29 else 28)
  else if (m =? 3) || (m =? 5) || (m =? 8) || (m =? 10) then 30
  else 31.

(** Day of era of day [d] of month [mp] (0 = March) in year-of-era [yoe]. *)
Definition doe_of (yoe mp d : Z) : Z :=
  yoe * 365 + yoe / 4 - yoe / 100 + (153 * mp + 2) / 5 + d - 1.

(** Year-of-era, month (0 = March) and day of a day of era. *)
Definition civil_of_doe (doe : Z) : Z * Z * Z :=
  let yoe := (doe - doe / 1460 + doe / 36524 - doe / 146096) / 365 in
  let doy := doe - (365 * yoe + yoe / 4 - yoe / 100) in
  let mp := (5 * doy + 2) / 153 in
  let d := doy - (153 * mp + 2) / 5 + 1 in
  (yoe, mp, d).

(** Day number (days since 1 January 1970) of a civil date. *)
Definition days_from_civil (y m d : Z) : Z :=
  let y' := if m <=? 1 then y - 1 else y in
  let era := y' / 400 in
  let yoe := y' mod 400 in
  let mp := (m + 10) mod 12 in
  era * 146097 + doe_of yoe mp d - 719468.

(** Civil date (year, 0-based month, day of month) of a day number. *)
Definition civil_from_days (z : Z) : Z * Z * Z :=
  let z' := z + 719468 in
  let era := z' / 146097 in
  let doe := z' mod 146097 in
  let '(yoe, mp, d) := civil_of_doe doe in
  let m := if mp <? 10 then mp + 2 else mp - 10 in
  let y := yoe + era * 400 + (if m <=? 1 then 1 else 0) in
  (y, m, d).

Definition YearFromTime (t : Z) : Z := fst (fst (civil_from_days (Day t))).
Definition MonthFromTime (t : Z) : Z := snd (fst (civil_from_days (Day t))).
Definition DateFromTime (t : Z) : Z := snd (civil_from_days (Day t)).

Definition HourFromTime (t : Z) : Z := (t / 3600000) mod 24.
Definition MinFromTime (t : Z) : Z := (t / 60000) mod 60.
Definition SecFromTime (t : Z) : Z := (t / 1000) mod 60.
Definition msFromTime (t : Z) : Z := t mod 1000.

(** [MakeDay]: the month may lie outside 0..11 and the date outside the
    month; both carry over. *)
Definition MakeDay (year month date : Z) : Z :=
  let ym := year + month / 12 in
  let mn := month mod 12 in
  days_from_civil ym mn 1 + date - 1.

Definition MakeTime (hour min sec ms : Z) : Z :=
  hour * 3600000 + min * 60000 + sec * 1000 + ms.

Definition MakeDate (day time : Z) : Z := day * msPerDay + time.

Section LocalTime.

(** Offset of local time from UTC, in milliseconds. *)
Variable tzOffset : Z.

Definition LocalTime (t : Z) : Z := t + tzOffset.
Definition UTC (t : Z) : Z := t - tzOffset.

(** [new Date(year, month, date)]: local midnight; a year in 0..99 means
    1900 + year. *)
Definition construct (year month date : Z) : Z :=
  let yr := if (0 <=? year) && (year <=? 99) then 1900 + year else year in
  UTC (MakeDate (MakeDay yr month date) (MakeTime 0 0 0 0)).

Definition getFullYear (t : Z) : Z := YearFromTime (LocalTime t).
Definition getMonth (t : Z) : Z := MonthFromTime (LocalTime t).
Definition getDate (t : Z) : Z := DateFromTime (LocalTime t).

(** [setMonth(month)]: the new time value. *)
Definition setMonth (t : Z) (month : Z) : Z :=
  let lt := LocalTime t in
  UTC (MakeDate (MakeDay (YearFromTime lt) month (DateFromTime lt)) (TimeWithinDay lt)).

End LocalTime.

(** Decimal digit. *)
Definition digit (n : Z) : ascii := ascii_of_N (48 + Z.to_N n).

(** [n] in decimal, zero-padded to [width] digits. *)
Fixpoint pad (width : nat) (n : Z) : string :=
  match width with
  | O => EmptyString
  | S w => pad w (n / 10) +:+ String (digit (n mod 10)) EmptyString
  end.

(** The year of an ISO string: four digits, or a sign and six digits outside
    0..9999. *)
Definition isoYear (y : Z) : string :=
  if (0 <=? y) && (y <=? 9999) then pad 4 y
  else (if y <? 0 then "-" else "+") +:+ pad 6 (Z.abs y).

(** The date part [YYYY-MM-DD] of an ISO string, in UTC. *)
Definition isoDate (t : Z) : string :=
  isoYear (YearFromTime t) +:+ "-" +:+ pad 2 (MonthFromTime t + 1) +:+ "-" +:+
  pad 2 (DateFromTime t).

(** The time part [HH:mm:ss.sssZ]. *)
Definition isoTime (t : Z) : string :=
  pad 2 (HourFromTime (TimeWithinDay t)) +:+ ":" +:+
  pad 2 (MinFromTime (TimeWithinDay t)) +:+ ":" +:+
  pad 2 (SecFromTime (TimeWithinDay t)) +:+ "." +:+
  pad 3 (msFromTime (TimeWithinDay t)) +:+ "Z".

(** [toISOString]. *)
Definition toISOString (t : Z) : string := isoDate t +:+ "T" +:+ isoTime t.

(** [s.split('T')[0]]: the text before the first ['T']. *)
Fixpoint split_T_head (s : string) : string :=
  match s with
  | EmptyString => EmptyString
  | String c rest => if Ascii.eqb c "T"%char then EmptyString else String c (split_T_head rest)
  end.

(** The value of a decimal digit character. *)
Definition digit_value (c : ascii) : option Z :=
  let n := Z.of_N (N_of_ascii c) in
  if (48 <=? n) && (n <=? 57) then Some (n - 48) else None.

(** Read [n] decimal digits off the front of a string, most significant
    first, onto the number [acc] read so far. *)
Fixpoint read_digits (n : nat) (acc : Z) (s : string) : option (Z * string) :=
  match n with
  | O => Some (acc, s)
  | S n' =>
      match s with
      | String c rest =>
          match digit_value c with
          | Some d => read_digits n' (10 * acc + d) rest
          | None => None
          end
      | EmptyString => None
      end
  end.

(** Read the character [c] off the front of a string. *)
Definition expect (c : ascii) (s : string) : option string :=
  match s with
  | String c' rest => if Ascii.eqb c c' then Some rest else None
  | EmptyString => None
  end.

(** The year of a date-time string: four digits, or a sign and six digits;
    minus zero is not a year. *)
Definition read_year (s : string) : option (Z * string) :=
  match read_digits 4 0 s with
  | Some r => Some r
  | None =>
      match s with
      | String "+" rest => read_digits 6 0 rest
      | String "-" rest =>
          '(y, rest') ← read_digits 6 0 rest;
          if y =? 0 then None else Some (- y, rest')
      | _ => None
      end
  end.

(** The time [HH:mm:ss.sssZ] of a date-time string, to the end of the
    string. *)
Definition read_time (s : string) : option Z :=
  '(h, s) ← read_digits 2 0 s;
  s ← expect ":" s;
  '(mi, s) ← read_digits 2 0 s;
  s ← expect ":" s;
  '(sec, s) ← read_digits 2 0 s;
  s ← expect "." s;
  '(ms, s) ← read_digits 3 0 s;
  s ← expect "Z" s;
  match s with
  | EmptyString =>
      if (h <=? 23) && (mi <=? 59) && (sec <=? 59) then Some (MakeTime h mi sec ms) else None
  | _ => None
  end.

(** [Date.parse] on the two shapes of text this code stores: the date
    [YYYY-MM-DD], which means midnight UTC, and the full
    [YYYY-MM-DDTHH:mm:ss.sssZ] of [toISOString].  [None] stands for the
    invalid date of a text of another shape or with a field out of range;
    the other shapes that engines accept are not covered.  A day of month
    up to 31 that the month does not have counts on into the next month, as
    V8 reads it: [2025-02-30] is 2 March 2025. *)
Definition parse (s : string) : option Z :=
  '(y, s) ← read_year s;
  s ← expect "-" s;
  '(m, s) ← read_digits 2 0 s;
  s ← expect "-" s;
  '(d, s) ← read_digits 2 0 s;
  if (1 <=? m) && (m <=? 12) && (1 <=? d) && (d <=? 31) then
    let day := MakeDay y (m - 1) d in
    match s with
    | EmptyString => Some (MakeDate day 0)
    | String "T" rest => time ← read_time rest; Some (MakeDate day time)
    | _ => None
    end
  else None.

End JsDate.

(** ** Stokvel.model.js: memberships *)

Module StokvelMembership.

Record t := mk {
  id : option string;
  name : string;
  type : string;
  balance : Qc;
  monthlyContribution : Qc;
  nextContributionDate : option string;
  contributionsCount : Z;
  status : string;
  projectedPayout : Qc;
  joinedAt : Z
}.

(** [recordContribution], with the offset of local time and the clock
    reading [now] of its one [new Date()]. *)
Definition recordContribution (tzOffset : Z) (m : t) (amount : Qc) (now : Z) : t :=
  let balance' := (balance m + amount)%Qc in
  let contributionsCount' := contributionsCount m + 1 in
  let nextDate := now in
  let nextDate := JsDate.setMonth tzOffset nextDate (JsDate.getMonth tzOffset nextDate + 1) in
  let nextContributionDate' := JsDate.split_T_head (JsDate.toISOString nextDate) in
  mk (id m) (name m) (type m) balance' (monthlyContribution m)
     (Some nextContributionDate') contributionsCount' (status m)
     (projectedPayout m) (joinedAt m).

(** [new StokvelMembership(data)] on a membership object: the constructor's
    [||] defaults.  Of the typed fields only an empty [id], an empty
    [nextContributionDate] and an empty [status] are replaced. *)
Definition construct (data : t) : t :=
  mk (match id data with Some "" => None | x => x end)
     (name data) (type data) (balance data) (monthlyContribution data)
     (match nextContributionDate data with Some "" => None | x => x end)
     (contributionsCount data)
     (if decide (status data = "") then "pending" else status data)
     (projectedPayout data) (joinedAt data).

(** [toObject]: the same ten fields as a plain object. *)
Definition toObject (m : t) : t := m.

(** Memberships can be compared field by field. *)
#[global] Instance eq_dec : EqDecision t.
Proof. solve_decision. Defined.

(** [isContributionDue], with the clock reading [now].  A date that does
    not parse is an invalid date, and comparing with it is false. *)
Definition isContributionDue (m : t) (now : Z) : bool :=
  match nextContributionDate m with
  | None => false
  | Some "" => false
  | Some text =>
      match JsDate.parse text with
      | Some dueDate => bool_decide (dueDate <= now)
      | None => false
      end
  end.

End StokvelMembership.

(** ** UserRepository.js

    The [users] collection.  Calls are taken one at a time: between the
    reads and writes of one method no other client writes. *)

Module UserRepository.

(** A user document: the fields the services read or write.  The family
    details are carried as an opaque text. *)
Record doc := mkDoc {
  stokvels : list StokvelMembership.t;
  savingsTotal : Qc;
  storeDiscount : Qc;
  funeralCover : bool;
  funeralCoverType : option string;
  funeralCoverSince : option string;
  funeralCoverPaymentMethod : option string;
  funeralFamilyDetails : option string;
  funeralCoverCanceledAt : option string;
  funeralCoverCancelReason : option string
}.

Abbreviation store := (gmap string doc).

(** The [User] a document is read into: the fields of the model that the
    services use. *)
Record user := mkUser {
  u_stokvels : list StokvelMembership.t;
  u_savingsTotal : Qc;
  u_storeDiscount : Qc;
  u_funeralCover : bool;
  u_funeralCoverType : option string;
  u_funeralCoverSince : option string;
  u_funeralFamilyDetails : option string
}.

(** [x || null] on a text that may be missing. *)
Definition or_null (x : option string) : option string :=
  match x with
  | Some "" => None
  | _ => x
  end.

(** [User.fromFirestore]: the constructor's defaults leave a list, a number
    and a boolean as they are. *)
Definition fromFirestore (data : doc) : user :=
  mkUser (stokvels data) (savingsTotal data) (storeDiscount data) (funeralCover data)
    (or_null (funeralCoverType data)) (or_null (funeralCoverSince data))
    (or_null (funeralFamilyDetails data)).

(** [user.calculateDiscount()]. *)
Definition calculateDiscount (u : user) : Qc :=
  User.calculateDiscount (User.mk (u_savingsTotal u) (u_funeralCover u)).

(** [User.hasActiveStokvel]. *)
Definition hasActiveStokvel (u : user) : bool :=
  existsb (fun s => bool_decide (StokvelMembership.status s = "active")) (u_stokvels u).

(** [User.getTotalContributions]. *)
Definition getTotalContributions (u : user) : Qc :=
  fold_left (fun total s => (total + LoanRepository.or_num (StokvelMembership.balance s) 0)%Qc)
    (u_stokvels u) 0%Qc.

(** [getUserById]: [null] when the document does not exist. *)
Definition getUserById (db : store) (userId : string) : option user :=
  fromFirestore <$> db !! userId.

(** [update(userId, data)]: [change] overwrites the fields of [data]. *)
Definition update (db : store) (userId : string) (change : doc -> doc)
  : settled bool * store :=
  match db !! userId with
  | None => (Rejected ClientError, db)
  | Some _ => (Resolved true, alter change userId db)
  end.

Definition set_stokvels (v : list StokvelMembership.t) (d : doc) : doc :=
  mkDoc v (savingsTotal d) (storeDiscount d) (funeralCover d) (funeralCoverType d)
    (funeralCoverSince d) (funeralCoverPaymentMethod d) (funeralFamilyDetails d)
    (funeralCoverCanceledAt d) (funeralCoverCancelReason d).

Definition set_savingsTotal (v : Qc) (d : doc) : doc :=
  mkDoc (stokvels d) v (storeDiscount d) (funeralCover d) (funeralCoverType d)
    (funeralCoverSince d) (funeralCoverPaymentMethod d) (funeralFamilyDetails d)
    (funeralCoverCanceledAt d) (funeralCoverCancelReason d).

Definition set_storeDiscount (v : Qc) (d : doc) : doc :=
  mkDoc (stokvels d) (savingsTotal d) v (funeralCover d) (funeralCoverType d)
    (funeralCoverSince d) (funeralCoverPaymentMethod d) (funeralFamilyDetails d)
    (funeralCoverCanceledAt d) (funeralCoverCancelReason d).

(** The five fields [updateFuneralCover] writes first. *)
Definition set_cover (type since method family : option string) (d : doc) : doc :=
  mkDoc (stokvels d) (savingsTotal d) (storeDiscount d) true type since method family
    (funeralCoverCanceledAt d) (funeralCoverCancelReason d).

(** The three fields [cancelCover] writes first. *)
Definition set_canceled (canceledAt reason : option string) (d : doc) : doc :=
  mkDoc (stokvels d) (savingsTotal d) (storeDiscount d) false (funeralCoverType d)
    (funeralCoverSince d) (funeralCoverPaymentMethod d) (funeralFamilyDetails d)
    canceledAt reason.

(** [updateUserStokvels]. *)
Definition updateUserStokvels (db : store) (userId : string)
    (stokvels : list StokvelMembership.t) : settled bool * store :=
  update db userId (set_stokvels stokvels).

(** [FieldValue.arrayUnion(x)]: [x] is appended unless the array holds it. *)
Definition arrayUnion (xs : list StokvelMembership.t) (x : StokvelMembership.t)
  : list StokvelMembership.t :=
  if bool_decide (x ∈ xs) then xs else xs ++ [x].

(** [addStokvelToUser]. *)
Definition addStokvelToUser (db : store) (userId : string)
    (stokvelMembership : StokvelMembership.t) : settled bool * store :=
  update db userId
    (fun d => set_stokvels (arrayUnion (stokvels d) (StokvelMembership.toObject stokvelMembership)) d).

(** [updateSavingsTotal]: the new total and the discount it stores. *)
Definition updateSavingsTotal (db : store) (userId : string) (amount : Qc)
  : settled (Qc * Qc) * store :=
  match getUserById db userId with
  | None => (Rejected (Error "User not found"), db)
  | Some user =>
      let newSavingsTotal := (u_savingsTotal user + amount)%Qc in
      let newDiscount := calculateDiscount user in
      match update db userId
              (fun d => set_storeDiscount newDiscount (set_savingsTotal newSavingsTotal d)) with
      | (Rejected e, db') => (Rejected e, db')
      | (Resolved _, db') => (Resolved (newSavingsTotal, newDiscount), db')
      end
  end.

(** [updateFuneralCover], with the clock reading of its [new Date()]. *)
Definition updateFuneralCover (db : store) (userId planId paymentMethod : string)
    (familyDetails : option string) (now : Z) : settled bool * store :=
  match update db userId
          (set_cover (Some planId) (Some (JsDate.toISOString now)) (Some paymentMethod)
             (or_null familyDetails)) with
  | (Rejected e, db1) => (Rejected e, db1)
  | (Resolved _, db1) =>
      match getUserById db1 userId with
      | Some user =>
          match update db1 userId (set_storeDiscount (calculateDiscount user)) with
          | (Rejected e, db2) => (Rejected e, db2)
          | (Resolved _, db2) => (Resolved true, db2)
          end
      | None => (Resolved true, db1)
      end
  end.

End UserRepository.

(** ** StokvelRepository.js: contribution records *)

Module ContributionRepository.

Record t := mk {
  userId : string;
  stokvelId : string;
  amount : Qc;
  method : string;
  date : string;
  status : string
}.

Abbreviation store := (gmap string t).

(** [recordContribution]: the record is stored under the id [newId] the
    client assigns. *)
Definition recordContribution (db : store) (newId : string) (userId stokvelId : string)
    (amount : Qc) (method : string) (now : Z) : string * store :=
  (newId, <[newId := mk userId stokvelId amount method (JsDate.toISOString now) "completed"]> db).

End ContributionRepository.

(** ** FuneralService.js *)

Module FuneralService.

(** [!familyDetails]. *)
Definition missing (familyDetails : option string) : bool :=
  match UserRepository.or_null familyDetails with
  | None => true
  | Some _ => false
  end.

(** [activateCover]: the reply, with the plan and the monthly premium, and
    the [users] collection afterwards. *)
Definition activateCover (db : UserRepository.store) (userId planId paymentMethod : string)
    (familyDetails : option string) (additionalBenefits : list string) (now : Z)
  : reply (FuneralCoverPlan.plan * JsNumber) * UserRepository.store :=
  match FuneralCoverPlan.getPlan planId with
  | None => (Failure (caught (Error "Invalid plan selected") "Failed to activate funeral cover"), db)
  | Some plan =>
      let monthlyPremium := FuneralCoverPlan.calculatePremium planId additionalBenefits in
      if (bool_decide (planId = "family") || bool_decide (planId = "extended"))
         && missing familyDetails
      then (Failure (caught (Error "Family details required for this plan")
                       "Failed to activate funeral cover"), db)
      else
        match UserRepository.updateFuneralCover db userId planId paymentMethod
                familyDetails now with
        | (Rejected e, db') => (Failure (caught e "Failed to activate funeral cover"), db')
        | (Resolved _, db') => (Success (plan, monthlyPremium), db')
        end
  end.

(** [cancelCover], with the clock reading of its [new Date()]. *)
Definition cancelCover (db : UserRepository.store) (userId reason : string) (now : Z)
  : reply string * UserRepository.store :=
  match UserRepository.update db userId
          (UserRepository.set_canceled (Some (JsDate.toISOString now)) (Some reason)) with
  | (Rejected e, db1) => (Failure (caught e "Failed to cancel cover"), db1)
  | (Resolved _, db1) =>
      match UserRepository.getUserById db1 userId with
      | Some user =>
          match UserRepository.update db1 userId
                  (UserRepository.set_storeDiscount (UserRepository.calculateDiscount user)) with
          | (Rejected e, db2) => (Failure (caught e "Failed to cancel cover"), db2)
          | (Resolved _, db2) => (Success "Funeral cover canceled successfully", db2)
          end
      | None => (Success "Funeral cover canceled successfully", db1)
      end
  end.

Section Claims.

(** The text an engine prints for a property inherited from
    [Object.prototype]: the source text of a function, or [[object Object]]. *)
Variable inherited_text : string -> string.

(** [${monthsRequired}] in the message of [submitClaim]. *)
Definition months_text (deathType : string) : string :=
  match js_get FuneralCoverPlan.WAITING_PERIODS deathType with
  | Own n => pretty n
  | Inherited key => inherited_text key
  | Undefined => "undefined"
  end.

(** [submitClaim].  [deathType] is [claimData.deathType]; the clock is read
    at [now1] for a cover with no start on record and at [now2] by
    [getMonthsSinceStart].  A start that does not parse is an invalid date,
    and the comparison with the waiting period is then false. *)
Definition submitClaim (db : UserRepository.store) (userId : string)
    (deathType : option string) (now1 now2 : Z) : reply string :=
  match UserRepository.getUserById db userId with
  | None => Failure (caught (Error "User not found") "Failed to submit claim")
  | Some user =>
      if negb (UserRepository.u_funeralCover user) then
        Failure (caught (Error "No active funeral cover") "Failed to submit claim")
      else
        let planId := default "" (UserRepository.u_funeralCoverType user) in
        let start :=
          match UserRepository.u_funeralCoverSince user with
          | Some text => JsDate.parse text
          | None => Some now1
          end in
        let deathType := default "NATURAL_DEATH" (UserRepository.or_null deathType) in
        let passed :=
          match start with
          | Some startDate =>
              FuneralCoverMembership.hasWaitingPeriodPassed
                (FuneralCoverMembership.mk userId planId true startDate "" [] 0%Qc)
                deathType now2
          | None => false
          end in
        if negb passed then
          Failure (caught
                     (Error ("Waiting period not met. " +:+ months_text deathType +:+
                             " months required for " +:+ deathType +:+ "."))
                     "Failed to submit claim")
        else Success "Claim submitted successfully. You will be contacted within 48 hours."
  end.

End Claims.

End FuneralService.

(** ** ProductRepository.js *)

Module ProductRepository.

(** The [products] collection; a document carries the fields
    [Product.toFirestore] writes (its [id] field is not stored). *)
Abbreviation store := (gmap string Product.t).

(** [Product.fromFirestore]: the constructor's defaults leave a text, a
    number and a boolean as they are. *)
Definition fromFirestore (docId : string) (data : Product.t) : Product.t :=
  Product.mk (if decide (docId = "") then None else Some docId)
    (Product.name data) (Product.description data) (Product.price data)
    (Product.category data) (Product.image data) (Product.stock data)
    (Product.featured data).

(** [getProductById]: [null] when the document does not exist. *)
Definition getProductById (db : store) (productId : string) : option Product.t :=
  fromFirestore productId <$> db !! productId.

Definition set_stock (v : Qc) (p : Product.t) : Product.t :=
  Product.mk (Product.id p) (Product.name p) (Product.description p) (Product.price p)
    (Product.category p) (Product.image p) v (Product.featured p).

(** [updateStock(productId, quantity)].  The client refuses to make a
    document reference from [null] or from the empty text. *)
Definition updateStock (db : store) (productId : option string) (quantity : Qc)
  : settled Qc * store :=
  match productId with
  | None => (Rejected ClientError, db)
  | Some "" => (Rejected ClientError, db)
  | Some productId =>
      match getProductById db productId with
      | None => (Rejected (Error "Product not found"), db)
      | Some product =>
          let newStock := (Product.stock product + quantity)%Qc in
          (Resolved newStock, alter (set_stock newStock) productId db)
      end
  end.

End ProductRepository.

Module OrderRepository.

(** The [orders] collection. *)
Abbreviation store := (gmap string Order.t).

(** [createOrder]: the document is stored under the id [newId] the client
    assigns; the order returned carries that id. *)
Definition createOrder (db : store) (newId : string) (orderData : Order.t)
  : Order.t * store :=
  let order := Order.construct orderData in
  (Order.mk (Some newId) (Order.userId order) (Order.items order) (Order.o_subtotal order)
     (Order.o_discount order) (Order.o_total order) (Order.shippingAddress order)
     (Order.paymentMethod order) (Order.status order),
   <[newId := Order.toFirestore order]> db).

(** [getOrderById]: [null] when the document does not exist. *)
Definition getOrderById (db : store) (orderId : string) : option Order.t :=
  Order.fromFirestore orderId <$> db !! orderId.

End OrderRepository.

(** ** StoreService.js *)

Module StoreService.

(** [user?.storeDiscount || 0]. *)
Definition discountPercent (user : option UserRepository.user) : Qc :=
  match user with
  | Some u => LoanRepository.or_num (UserRepository.u_storeDiscount u) 0%Qc
  | None => 0%Qc
  end.

(** [calculateCartTotals]: the totals and the discount percent. *)
Definition calculateCartTotals (users : UserRepository.store) (userId : string)
    (cartItems : list CartItem.t) : reply (Order.totals * Qc) :=
  let user := UserRepository.getUserById users userId in
  let items := map CartItem.construct cartItems in
  let totals := Order.calculateTotals items (discountPercent user) in
  Success (totals, discountPercent user).

(** The loop of [createOrder] over the items: one [updateStock] after the
    other, up to the first that is rejected. *)
Fixpoint updateStocks (products : ProductRepository.store) (items : list CartItem.t)
  : option thrown * ProductRepository.store :=
  match items with
  | [] => (None, products)
  | item :: rest =>
      match ProductRepository.updateStock products (CartItem.id item)
              (- CartItem.quantity item)%Qc with
      | (Rejected e, products') => (Some e, products')
      | (Resolved _, products') => updateStocks products' rest
      end
  end.

(** What [createOrder] leaves behind: its reply, the [products] collection
    and the [orders] collection. *)
Record ordered := mkOrdered {
  r_reply : reply Order.t;
  r_products : ProductRepository.store;
  r_orders : OrderRepository.store
}.

(** [createOrder].  [newId] is the id the client gives the order. *)
Definition createOrder (users : UserRepository.store) (products : ProductRepository.store)
    (orders : OrderRepository.store) (newId userId : string) (cartItems : list CartItem.t)
    (shippingAddress paymentMethod : string) : ordered :=
  match cartItems with
  | [] => mkOrdered (Failure (caught (Error "Cart is empty") "Failed to create order"))
            products orders
  | _ =>
      let user := UserRepository.getUserById users userId in
      let items := map CartItem.construct cartItems in
      let totals := Order.calculateTotals items (discountPercent user) in
      let '(order, orders') :=
        OrderRepository.createOrder orders newId
          (Order.mk None userId items (Order.subtotal totals) (Order.discount totals)
             (Order.total totals) shippingAddress paymentMethod "processing") in
      match updateStocks products items with
      | (Some e, products') =>
          mkOrdered (Failure (caught e "Failed to create order")) products' orders'
      | (None, products') => mkOrdered (Success order) products' orders'
      end
  end.

End StoreService.

(** ** Stokvel.model.js: stokvels *)

Module Stokvel.

(** A stokvel built from [Date] objects; [None] is the [null] date. *)
Record t := mk {
  id : option string;
  name : string;
  type : string;
  manager : string;
  startDate : option Z;
  endDate : option Z;
  durationMonths : Qc;
  monthlyContribution : Qc;
  members : list string;
  status : string
}.

(** A stokvel document: the dates as ISO strings, no id. *)
Record doc := mkDoc {
  d_name : string;
  d_type : string;
  d_manager : string;
  d_startDate : option string;
  d_endDate : option string;
  d_durationMonths : Qc;
  d_monthlyContribution : Qc;
  d_members : list string;
  d_status : string
}.

(** [new Stokvel(data)] on data whose dates are [Date] objects: the
    constructor's [||] defaults; [new Date(date)] copies the time value. *)
Definition construct (data : t) : t :=
  mk (match id data with Some "" => None | x => x end)
     (name data) (type data) (manager data) (startDate data) (endDate data)
     (if Qc_eq_dec (durationMonths data) 0%Qc then Js.ofZ 10 else durationMonths data)
     (monthlyContribution data) (members data)
     (if decide (status data = "") then "pending" else status data).

(** [toFirestore]. *)
Definition toFirestore (s : t) : doc :=
  mkDoc (name s) (type s) (manager s)
    (JsDate.toISOString <$> startDate s) (JsDate.toISOString <$> endDate s)
    (durationMonths s) (monthlyContribution s) (members s) (status s).

(** [isActive], with the clock reading [now]; the result is taken as a
    truth value. *)
Definition isActive (s : t) (now : Z) : bool :=
  bool_decide (status s = "active") &&
  match startDate s with
  | Some start => bool_decide (start <= now)
  | None => false
  end &&
  match endDate s with
  | Some end_ => bool_decide (now <= end_)
  | None => false
  end.

(** [allowsEarlyWithdrawal]. *)
Definition allowsEarlyWithdrawal (s : t) : bool :=
  bool_decide (type s = "Planning Ahead") || bool_decide (type s = "Planning").

(** [calculateProjectedPayout]; its argument is not used. *)
Definition calculateProjectedPayout (s : t) : Qc :=
  (monthlyContribution s * durationMonths s)%Qc.

(** [getDaysUntilPayout], with the clock reading [now]; [None] is [null]. *)
Definition getDaysUntilPayout (s : t) (now : Z) : option Z :=
  match endDate s with
  | None => None
  | Some end_ =>
      let diff := end_ - now in
      Some (Js.ceil (Js.ofZ diff / Js.ofZ (1000 * 60 * 60 * 24))%Qc)
  end.

End Stokvel.

(** ** StokvelRepository.js *)

Module StokvelRepository.

(** The [stokvels] collection. *)
Abbreviation store := (gmap string Stokvel.doc).

(** [createStokvel]: the document is stored under the id [newId] the client
    assigns; the stokvel returned carries that id. *)
Definition createStokvel (db : store) (newId : string) (stokvelData : Stokvel.t)
  : Stokvel.t * store :=
  let stokvel := Stokvel.construct stokvelData in
  (Stokvel.mk (Some newId) (Stokvel.name stokvel) (Stokvel.type stokvel)
     (Stokvel.manager stokvel) (Stokvel.startDate stokvel) (Stokvel.endDate stokvel)
     (Stokvel.durationMonths stokvel) (Stokvel.monthlyContribution stokvel)
     (Stokvel.members stokvel) (Stokvel.status stokvel),
   <[newId := Stokvel.toFirestore stokvel]> db).

End StokvelRepository.

(** ** StokvelService.js *)

Module StokvelService.

Record typeConfig := mkTypeConfig {
  tc_name : string;
  tc_type : string;
  durationMonths : Z;
  description : string;
  payoutMonth : option Z;
  allowsEarlyWithdrawal : bool
}.

Definition JANUARY : typeConfig :=
  mkTypeConfig "January Stokvel" "January" 10
    "Save for 10 months, receive payout in January" (Some 1) false.

Definition GROCERY : typeConfig :=
  mkTypeConfig "Grocery Stokvel" "Grocery" 10
    "Save for groceries during October/November specials" (Some 10) false.

Definition PLANNING : typeConfig :=
  mkTypeConfig "Planning Ahead Stokvel" "Planning" 10
    "Flexible stokvel for emergencies and savings" None true.

Record dates := mkDates {
  startDate : Z;
  endDate : Z
}.

(** [calculateStokvelDates].  The clock is read once for [today] and, in the
    last branch, once more for each of [startDate] and [endDate]; the three
    readings are [today], [now1] and [now2]. *)
Definition calculateStokvelDates (tzOffset : Z) (cfg : typeConfig)
    (today now1 now2 : Z) : dates :=
  if decide (tc_type cfg = "January") then
    {| startDate := JsDate.construct tzOffset (JsDate.getFullYear tzOffset today) 1 1;
       endDate := JsDate.construct tzOffset (JsDate.getFullYear tzOffset today) 11 1 |}
  else if decide (tc_type cfg = "Grocery") then
    {| startDate := JsDate.construct tzOffset (JsDate.getFullYear tzOffset today) 0 1;
       endDate := JsDate.construct tzOffset (JsDate.getFullYear tzOffset today) 9 1 |}
  else
    {| startDate := now1;
       endDate := JsDate.setMonth tzOffset now2 (JsDate.getMonth tzOffset now2 + 10) |}.

(** [calculateNextContributionDate]. *)
Definition calculateNextContributionDate (tzOffset : Z) (now : Z) : string :=
  let nextDate := JsDate.setMonth tzOffset now (JsDate.getMonth tzOffset now + 1) in
  JsDate.split_T_head (JsDate.toISOString nextDate).

(** [user.stokvels.findIndex(s => s.id === stokvelId)], with the element
    found. *)
Definition findIndex (stokvelId : string) (stokvels : list StokvelMembership.t)
  : option (nat * StokvelMembership.t) :=
  list_find (fun s => StokvelMembership.id s = Some stokvelId) stokvels.

(** What [makeContribution] leaves behind: its reply (the membership and the
    new balance), the [users] collection and the [contributions]
    collection. *)
Record contributed := mkContributed {
  c_reply : reply (StokvelMembership.t * Qc);
  c_users : UserRepository.store;
  c_contributions : ContributionRepository.store
}.

(** [makeContribution].  [newId] is the id the client gives the contribution
    record; [now1] is the clock reading of the record's date and [now2] that
    of [recordContribution]. *)
Definition makeContribution (tzOffset : Z) (users : UserRepository.store)
    (contributions : ContributionRepository.store) (newId userId stokvelId : string)
    (amount : Qc) (paymentMethod : string) (now1 now2 : Z) : contributed :=
  let contributions' :=
    snd (ContributionRepository.recordContribution contributions newId userId stokvelId
           amount paymentMethod now1) in
  match UserRepository.getUserById users userId with
  | None =>
      mkContributed (Failure (caught (Error "User not found") "Failed to record contribution"))
        users contributions'
  | Some user =>
      match findIndex stokvelId (UserRepository.u_stokvels user) with
      | None =>
          mkContributed
            (Failure (caught (Error "Stokvel membership not found")
                        "Failed to record contribution"))
            users contributions'
      | Some (stokvelIndex, data) =>
          let membership :=
            StokvelMembership.recordContribution tzOffset
              (StokvelMembership.construct data) amount now2 in
          let stokvels' :=
            <[stokvelIndex := StokvelMembership.toObject membership]>
              (UserRepository.u_stokvels user) in
          match UserRepository.updateUserStokvels users userId stokvels' with
          | (Rejected e, users1) =>
              mkContributed (Failure (caught e "Failed to record contribution"))
                users1 contributions'
          | (Resolved _, users1) =>
              match UserRepository.updateSavingsTotal users1 userId amount with
              | (Rejected e, users2) =>
                  mkContributed (Failure (caught e "Failed to record contribution"))
                    users2 contributions'
              | (Resolved _, users2) =>
                  mkContributed
                    (Success (membership, StokvelMembership.balance membership))
                    users2 contributions'
              end
          end
      end
  end.

(** [toLowerCase] on one character of a text held as UTF-8 bytes: only the
    letters A to Z change.  For the three words looked for below this gives
    the same answers as the full case mapping. *)
Definition lower (c : ascii) : ascii :=
  let n := N_of_ascii c in
  if ((65 <=? n) && (n <=? 90))%N then ascii_of_N (n + 32) else c.

Fixpoint toLowerCase (s : string) : string :=
  match s with
  | EmptyString => EmptyString
  | String c rest => String (lower c) (toLowerCase rest)
  end.

(** [s.includes(sub)]. *)
Fixpoint includes (s sub : string) : bool :=
  String.prefix sub s ||
  match s with
  | EmptyString => false
  | String _ rest => includes rest sub
  end.

(** [getStokvelTypeConfig]. *)
Definition getStokvelTypeConfig (type : string) : option typeConfig :=
  let normalized := toLowerCase type in
  if includes normalized "january" then Some JANUARY
  else if includes normalized "grocery" then Some GROCERY
  else if includes normalized "planning" then Some PLANNING
  else None.

(** What [joinStokvel] leaves behind: its reply (the stokvel and the
    membership), the [users] collection and the [stokvels] collection. *)
Record joined := mkJoined {
  j_reply : reply (Stokvel.t * StokvelMembership.t);
  j_users : UserRepository.store;
  j_stokvels : StokvelRepository.store
}.

(** [joinStokvel].  [newId] is the id the client gives the stokvel; the
    clock is read at [today], [now1] and [now2] for the dates, at [now3] for
    the next contribution date and at [now4] for [joinedAt]. *)
Definition joinStokvel (tzOffset : Z) (users : UserRepository.store)
    (stokvels : StokvelRepository.store) (newId userId stokvelType : string)
    (monthlyAmount : Qc) (paymentMethod : string) (today now1 now2 now3 now4 : Z)
  : joined :=
  match getStokvelTypeConfig stokvelType with
  | None =>
      mkJoined (Failure (caught (Error "Invalid stokvel type") "Failed to join stokvel"))
        users stokvels
  | Some typeConfig =>
      let dates := calculateStokvelDates tzOffset typeConfig today now1 now2 in
      let '(stokvel, stokvels') :=
        StokvelRepository.createStokvel stokvels newId
          (Stokvel.mk None (tc_name typeConfig) (tc_type typeConfig) "To be assigned"
             (Some (startDate dates)) (Some (endDate dates))
             (Js.ofZ (durationMonths typeConfig)) monthlyAmount [userId] "active") in
      let membership :=
        StokvelMembership.construct
          (StokvelMembership.mk (Stokvel.id stokvel) (tc_name typeConfig)
             (tc_type typeConfig) 0%Qc monthlyAmount
             (Some (calculateNextContributionDate tzOffset now3)) 0 "active"
             (monthlyAmount * Js.ofZ (durationMonths typeConfig))%Qc now4) in
      match UserRepository.addStokvelToUser users userId membership with
      | (Rejected e, users') =>
          mkJoined (Failure (caught e "Failed to join stokvel")) users' stokvels'
      | (Resolved _, users') =>
          mkJoined (Success (stokvel, membership)) users' stokvels'
      end
  end.

End StokvelService.

(** ** Notions used in the statements *)

(** The sum of [unitPrice * quantity] over the items, as a right fold. *)
Definition sum_of_item_totals (items : list CartItem.t) : Qc :=
  fold_right (fun item acc => (CartItem.price item * CartItem.quantity item + acc)%Qc) 0%Qc items.

(** A cart item the caller may pass on: quantity at least 1, price not
    negative. *)
Definition valid_item (item : CartItem.t) : Prop :=
  (1 <= CartItem.quantity item)%Qc /\ (0 <= CartItem.price item)%Qc.

(** The prices of the keys that name an add-on, summed; other keys count
    for nothing. *)
Definition sum_of_recognized (keys : list string) : Qc :=
  fold_right
    (fun key acc =>
       match FuneralCoverPlan.ADDITIONAL_BENEFITS !! key with
       | Some b => (FuneralCoverPlan.b_price b + acc)%Qc
       | None => acc
       end)
    0%Qc keys.

(** Year, month, day of month and time within the day that the local-time
    getters report for a time value. *)
Definition local_fields (tzOffset t : Z) : Z * Z * Z * Z :=
  (JsDate.getFullYear tzOffset t, JsDate.getMonth tzOffset t,
   JsDate.getDate tzOffset t, JsDate.TimeWithinDay (JsDate.LocalTime tzOffset t)).

(** No character of the string is ['T']. *)
Fixpoint no_T (s : string) : bool :=
  match s with
  | EmptyString => true
  | String c rest => negb (Ascii.eqb c "T"%char) && no_T rest
  end.

(** Two memberships agree on every field that [recordContribution] never
    assigns. *)
Definition same_membership_fields (a b : StokvelMembership.t) : Prop :=
  StokvelMembership.id a = StokvelMembership.id b /\
  StokvelMembership.name a = StokvelMembership.name b /\
  StokvelMembership.type a = StokvelMembership.type b /\
  StokvelMembership.monthlyContribution a = StokvelMembership.monthlyContribution b /\
  StokvelMembership.status a = StokvelMembership.status b /\
  StokvelMembership.projectedPayout a = StokvelMembership.projectedPayout b /\
  StokvelMembership.joinedAt a = StokvelMembership.joinedAt b.

(** The Planning rule as the specification words it, in its weakest
    reading: a Planning stokvel starts at the clock reading, and its end
    date lies in the tenth calendar month after the month of the clock
    reading. *)
Definition planning_end_in_the_tenth_month : Prop :=
  forall tzOffset today now1 now2 : Z,
    let r := StokvelService.calculateStokvelDates tzOffset StokvelService.PLANNING
               today now1 now2 in
    StokvelService.startDate r = now1 /\
    JsDate.getFullYear tzOffset (StokvelService.endDate r)
    = JsDate.getFullYear tzOffset now2 + (JsDate.getMonth tzOffset now2 + 10) / 12 /\
    JsDate.getMonth tzOffset (StokvelService.endDate r)
    = (JsDate.getMonth tzOffset now2 + 10) mod 12.

(** The rule for the next contribution date as the specification words it,
    in its weakest reading: after a contribution of a positive amount the
    date stored is a date of the calendar month after the local month of
    the clock reading. *)
Definition next_date_in_the_next_month : Prop :=
  forall (tzOffset : Z) (m : StokvelMembership.t) (amount : Qc) (now : Z),
    (0 < amount)%Qc ->
    exists day : Z,
      StokvelMembership.nextContributionDate
        (StokvelMembership.recordContribution tzOffset m amount now)
      = Some (JsDate.isoYear (JsDate.getFullYear tzOffset now
                              + (JsDate.getMonth tzOffset now + 1) / 12)
              +:+ "-" +:+ JsDate.pad 2 ((JsDate.getMonth tzOffset now + 1) mod 12 + 1)
              +:+ "-" +:+ JsDate.pad 2 day).

(** The sum of a list of amounts. *)
Definition sum_of (amounts : list Qc) : Qc := fold_right Qcplus 0%Qc amounts.


(** The discount tier of a savings total, with or without funeral cover. *)
Definition tier (savings : Qc) (cover : bool) : Qc :=
  User.calculateDiscount (User.mk savings cover).

(** The sum of the balances of some memberships. *)
Definition sum_of_balances (stokvels : list StokvelMembership.t) : Qc :=
  sum_of (map StokvelMembership.balance stokvels).

(** How many units of the product with id [productId] the items order. *)
Definition ordered_quantity (productId : string) (items : list CartItem.t) : Qc :=
  fold_right
    (fun item acc =>
       if bool_decide (CartItem.id item = Some productId)
       then (CartItem.quantity item + acc)%Qc else acc)
    0%Qc items.

(** A cart line that names a product of the collection. *)
Definition names_a_product (products : ProductRepository.store) (item : CartItem.t) : Prop :=
  exists productId,
    CartItem.id item = Some productId /\ productId <> "" /\ is_Some (products !! productId).

(** The stock of a product reduced by [quantity]. *)
Definition less_stock (quantity : Qc) (p : Product.t) : Product.t :=
  ProductRepository.set_stock (Product.stock p - quantity)%Qc p.

(** ** Sample values *)

(** The loan of the worked quote (1000 over 2 months), approved, nothing paid. *)
Definition loan_1000_2 : Loan.t :=
  Loan.mk (Some "L1") "u1" (Js.ofZ 1000) (Js.ofZ 2) "school fees" "approved"
    0 None None (Js.ofZ 5) (Js.ofZ 150) (Js.lit 5226 100)
    (Js.lit 124726 100) (Js.lit 62363 100) 0%Qc (Js.lit 124726 100).

(** The same loan before approval. *)
Definition loan_pending : Loan.t := Loan.set_status "pending" loan_1000_2.

(** A [loans] collection holding the two. *)
Definition sample_loans : gmap string Loan.t :=
  <["L1" := loan_1000_2]> (<["L2" := loan_pending]> ∅).

(** The cart of the worked example: two at 100 and one at 50. *)
Definition cart_sample : list CartItem.t :=
  [ CartItem.mk (Some "p1") "maize meal" (Js.ofZ 100) "" (Js.ofZ 2);
    CartItem.mk (Some "p2") "cooking oil" (Js.ofZ 50) "" (Js.ofZ 1) ].

(** A membership that started at the epoch. *)
Definition member_epoch : FuneralCoverMembership.t :=
  FuneralCoverMembership.mk "u1" "basic" true 0 "debit" [] (Js.ofZ 99).

(** A membership whose cover starts 181 days after the epoch. *)
Definition member_future : FuneralCoverMembership.t :=
  FuneralCoverMembership.mk "u2" "basic" true (181 * JsDate.msPerDay) "debit" [] (Js.ofZ 99).

(** South African Standard Time: UTC + 2 hours. *)
Definition SAST : Z := 2 * 3600000.

(** 2025-01-31 10:00:00 UTC. *)
Definition t_2025_01_31 : Z := 1738317600000.

(** 2025-11-02 10:00:00.123 UTC. *)
Definition t_2025_11_02 : Z := 1762077600123.

(** 2025-02-28 23:00:00 UTC, which is 01:00 on 1 March in South Africa. *)
Definition t_2025_02_28_23h : Z := 1740783600000.

(** A membership with a contribution due on 2025-01-01. *)
Definition membership_sample : StokvelMembership.t :=
  StokvelMembership.mk (Some "S1") "Planning Ahead Stokvel" "Planning" (Js.ofZ 500)
    (Js.ofZ 250) (Some "2025-01-01") 2 "active" (Js.ofZ 2500) 0.

(** A user with the sample membership, 4800 saved and no funeral cover. *)
Definition user_doc_sample : UserRepository.doc :=
  UserRepository.mkDoc [membership_sample] (Js.ofZ 4800) 0%Qc false None None None None
    None None.

(** A [users] collection holding that user. *)
Definition sample_users : UserRepository.store := <["u1" := user_doc_sample]> ∅.

(** Maize meal, three bags in stock. *)
Definition product_maize : Product.t :=
  Product.mk None "maize meal" "10 kg" (Js.ofZ 100) "grocery" "" (Js.ofZ 3) false.

(** A [products] collection holding it under the id [p1]. *)
Definition sample_products : ProductRepository.store := <["p1" := product_maize]> ∅.

(** * Properties *)

(** ** Numbers *)

Lemma geb_true (a b : Qc) : Js.geb a b = true <-> (b <= a)%Qc.
Proof.
  unfold Js.geb. destruct (Qclt_le_dec a b) as [H|H]; split; intros; try done.
  exfalso. eapply Qclt_not_le; eauto.
Qed.

Lemma geb_false (a b : Qc) : Js.geb a b = false <-> (a < b)%Qc.
Proof.
  unfold Js.geb. destruct (Qclt_le_dec a b) as [H|H]; split; intros; try done.
  exfalso. eapply Qclt_not_le; eauto.
Qed.

Lemma leb_true (a b : Qc) : Js.leb a b = true <-> (a <= b)%Qc.
Proof.
  unfold Js.leb. destruct (Qclt_le_dec b a) as [H|H]; split; intros; try done.
  exfalso. eapply Qclt_not_le; eauto.
Qed.

Lemma leb_false (a b : Qc) : Js.leb a b = false <-> (b < a)%Qc.
Proof.
  unfold Js.leb. destruct (Qclt_le_dec b a) as [H|H]; split; intros; try done.
  exfalso. eapply Qclt_not_le; eauto.
Qed.

Lemma max_zero_r (a : Qc) : (0 <= a)%Qc -> Js.max 0%Qc a = a.
Proof.
  intros H. unfold Js.max. destruct (Qclt_le_dec 0%Qc a) as [Hlt|Hle]; [done|].
  by apply Qcle_antisym.
Qed.

Lemma max_zero_l (a : Qc) : (a <= 0)%Qc -> Js.max 0%Qc a = 0%Qc.
Proof.
  intros H. unfold Js.max. destruct (Qclt_le_dec 0%Qc a) as [Hlt|Hle]; [|done].
  exfalso. eapply Qclt_not_le; eauto.
Qed.

(** Closed equations between rationals, by evaluation of both sides. *)
Ltac qc_eval := apply Qc_is_canon; vm_compute; reflexivity.

(** ** Store discount *)

(** C5: calculateDiscount is the two-column tier table: without funeral
    cover 25 from 10000, 10 from 5000 up to 10000, else 0; with funeral cover
    30, 20 and 0 on the same bands.  It is a function on every savings
    value. *)
Theorem calculateDiscount_table (savings : Qc) (cover : bool) :
  let r := User.calculateDiscount (User.mk savings cover) in
  (cover = false -> (Js.ofZ 10000 <= savings)%Qc -> r = Js.ofZ 25) /\
  (cover = false -> (Js.ofZ 5000 <= savings)%Qc -> (savings < Js.ofZ 10000)%Qc -> r = Js.ofZ 10) /\
  (cover = false -> (savings < Js.ofZ 5000)%Qc -> r = Js.ofZ 0) /\
  (cover = true -> (Js.ofZ 10000 <= savings)%Qc -> r = Js.ofZ 30) /\
  (cover = true -> (Js.ofZ 5000 <= savings)%Qc -> (savings < Js.ofZ 10000)%Qc -> r = Js.ofZ 20) /\
  (cover = true -> (savings < Js.ofZ 5000)%Qc -> r = Js.ofZ 0).
Proof.
  assert (H5_10 : (Js.ofZ 5000 < Js.ofZ 10000)%Qc) by done.
  cbv zeta. unfold User.calculateDiscount. cbn [User.funeralCover User.savingsTotal].
  destruct cover; cbn [negb];
    (destruct (Js.geb savings (Js.ofZ 10000)) eqn:E1;
       [apply geb_true in E1 | apply geb_false in E1]);
    (destruct (Js.geb savings (Js.ofZ 5000)) eqn:E2;
       [apply geb_true in E2 | apply geb_false in E2]);
    repeat split; intros; try done;
    exfalso;
    match goal with
    | H1 : (?a <= ?b)%Qc, H2 : (?b < ?a)%Qc |- _ => exact (Qclt_not_le _ _ H2 H1)
    | H1 : (?a <= ?b)%Qc, H2 : (?b < ?c)%Qc, H3 : (?c < ?a)%Qc |- _ =>
        exact (Qclt_not_le _ _ (Qclt_trans _ _ _ H2 H3) H1)
    end.
Qed.
(** ** Order totals *)

Lemma sum_of_item_totals_cons (i : CartItem.t) (items : list CartItem.t) :
  sum_of_item_totals (i :: items)
  = (CartItem.price i * CartItem.quantity i + sum_of_item_totals items)%Qc.
Proof. reflexivity. Qed.

Lemma fold_left_item_totals (items : list CartItem.t) (acc : Qc) :
  fold_left (fun sum item => (sum + CartItem.getTotal item)%Qc) items acc
  = (acc + sum_of_item_totals items)%Qc.
Proof.
  revert acc. induction items as [|i items IH]; intros acc.
  - cbn. ring.
  - rewrite sum_of_item_totals_cons. cbn [fold_left]. rewrite IH.
    unfold CartItem.getTotal. ring.
Qed.

Lemma sum_of_item_totals_nonneg (items : list CartItem.t) :
  Forall valid_item items -> (0 <= sum_of_item_totals items)%Qc.
Proof.
  induction 1 as [|i items [Hq Hp] _ IH].
  - done.
  - rewrite sum_of_item_totals_cons.
    apply Qcplus_nonneg_nonneg; [|exact IH].
    apply Qcmult_nonneg_nonneg; [exact Hp|].
    eapply Qcle_trans; [|exact Hq]. done.
Qed.

Lemma hundred_nonzero : Js.ofZ 100 <> 0%Qc.
Proof. done. Qed.

(** A discount of at most 100 percent takes at most the whole subtotal. *)
Lemma discount_le_subtotal (s d : Qc) :
  (0 <= s)%Qc -> (d <= Js.ofZ 100)%Qc -> (s * (d / Js.ofZ 100) <= s)%Qc.
Proof.
  intros Hs Hd.
  assert (Hfrac : (d / Js.ofZ 100 <= 1)%Qc).
  { apply (Qcmult_lt_0_le_reg_r _ _ (Js.ofZ 100)); [done|].
    replace (d / Js.ofZ 100 * Js.ofZ 100)%Qc with d
      by (field; exact hundred_nonzero).
    replace (1 * Js.ofZ 100)%Qc with (Js.ofZ 100) by ring. exact Hd. }
  replace s with (s * 1)%Qc at 2 by ring.
  by apply Qcmult_le_mono_nonneg_l.
Qed.

(** C6: calculateTotals returns the sum of price times quantity as the
    subtotal, subtotal times discountPercent over 100 as the discount and
    their difference as the total; for valid items and a discount between 0
    and 100 the total is not negative. *)
Theorem calculateTotals_spec (items : list CartItem.t) (discountPercent : Qc) :
  let r := Order.calculateTotals items discountPercent in
  Order.subtotal r = sum_of_item_totals items /\
  Order.discount r = (Order.subtotal r * discountPercent / Js.ofZ 100)%Qc /\
  Order.total r = (Order.subtotal r - Order.discount r)%Qc /\
  (Forall valid_item items ->
   (0 <= discountPercent)%Qc -> (discountPercent <= Js.ofZ 100)%Qc ->
   (0 <= Order.total r)%Qc).
Proof.
  cbv zeta. unfold Order.calculateTotals.
  cbn [Order.subtotal Order.discount Order.total].
  rewrite fold_left_item_totals.
  replace (0 + sum_of_item_totals items)%Qc with (sum_of_item_totals items) by ring.
  repeat split.
  - field. exact hundred_nonzero.
  - intros Hvalid _ Hd.
    apply sum_of_item_totals_nonneg in Hvalid.
    pose proof (discount_le_subtotal _ _ Hvalid Hd) as H.
    apply Qcle_minus_iff in H. exact H.
Qed.

(** ** Loan quote *)

Lemma term_nonzero (term : Qc) :
  term = Js.ofZ 1 \/ term = Js.ofZ 2 \/ term = Js.ofZ 3 -> term <> 0%Qc.
Proof. intros [-> | [-> | ->]]; done. Qed.

(** C2: for a term of 1, 2 or 3 months the quote has interest 4.5% of the
    principal, service fee 52.26, initiation fee 15% of the principal, their
    sum with the principal as total repayment, and the total divided by the
    term as monthly repayment, exactly. *)
Theorem calculateLoanDetails_spec (principal term : Qc)
  (Hterm : term = Js.ofZ 1 \/ term = Js.ofZ 2 \/ term = Js.ofZ 3) :
  let q := Loan.calculateLoanDetails principal term in
  Loan.d_interest q = (principal * Js.lit 45 1000)%Qc /\
  Loan.d_serviceFee q = Js.lit 5226 100 /\
  Loan.d_initiationFee q = (principal * Js.lit 15 100)%Qc /\
  Loan.d_totalRepayment q =
    (principal + Loan.d_interest q + Loan.d_serviceFee q + Loan.d_initiationFee q)%Qc /\
  Loan.d_monthlyRepayment q = (Loan.d_totalRepayment q / term)%Qc /\
  (Loan.d_monthlyRepayment q * term)%Qc = Loan.d_totalRepayment q.
Proof.
  cbv zeta. unfold Loan.calculateLoanDetails.
  cbn [Loan.d_interest Loan.d_serviceFee Loan.d_initiationFee
       Loan.d_totalRepayment Loan.d_monthlyRepayment].
  repeat split.
  field. by apply term_nonzero.
Qed.

Lemma calculateLoanDetails_spec_witness :
  let q := Loan.calculateLoanDetails (Js.ofZ 1000) (Js.ofZ 2) in
  Loan.d_interest q = (Js.ofZ 1000 * Js.lit 45 1000)%Qc /\
  Loan.d_serviceFee q = Js.lit 5226 100 /\
  Loan.d_initiationFee q = (Js.ofZ 1000 * Js.lit 15 100)%Qc /\
  Loan.d_totalRepayment q =
    (Js.ofZ 1000 + Loan.d_interest q + Loan.d_serviceFee q + Loan.d_initiationFee q)%Qc /\
  Loan.d_monthlyRepayment q = (Loan.d_totalRepayment q / Js.ofZ 2)%Qc /\
  (Loan.d_monthlyRepayment q * Js.ofZ 2)%Qc = Loan.d_totalRepayment q.
Proof.
  apply (calculateLoanDetails_spec (Js.ofZ 1000) (Js.ofZ 2)).
  right; left; reflexivity.
Defined.

(** The worked quote of the specification: 1000 over 2 months. *)
Example quote_1000_2 :
  Loan.calculateLoanDetails (Js.ofZ 1000) (Js.ofZ 2)
  = Loan.mkDetails (Js.ofZ 1000) (Js.ofZ 45) (Js.lit 5226 100) (Js.ofZ 150)
      (Js.lit 124726 100) (Js.lit 62363 100) (Js.ofZ 2).
Proof. unfold Loan.calculateLoanDetails. f_equal; qc_eval. Qed.

(** ** Loan payments *)

Lemma recordPayment_amountPaid (l : Loan.t) (amount : Qc) :
  Loan.amountPaid (Loan.recordPayment l amount) = (Loan.amountPaid l + amount)%Qc.
Proof. unfold Loan.recordPayment. by destruct (Js.leb _ _). Qed.

Lemma recordPayment_other_fields (l : Loan.t) (amount : Qc) :
  Loan.same_other_fields (Loan.recordPayment l amount) l.
Proof.
  unfold Loan.recordPayment, Loan.same_other_fields.
  by destruct (Js.leb _ _).
Qed.

(** What a payment does to the loan, whatever the amount. *)
Lemma recordPayment_fields (l : Loan.t) (amount : Qc) :
  let l' := Loan.recordPayment l amount in
  Loan.amountPaid l' = (Loan.amountPaid l + amount)%Qc /\
  Loan.remainingBalance l' = Js.max 0%Qc (Loan.totalRepayment l - Loan.amountPaid l')%Qc /\
  (Loan.remainingBalance l' = 0%Qc -> Loan.status l' = "paid") /\
  (Loan.remainingBalance l' <> 0%Qc -> Loan.status l' = Loan.status l) /\
  ((Loan.totalRepayment l <= Loan.amountPaid l')%Qc -> Loan.remainingBalance l' = 0%Qc) /\
  Loan.same_other_fields l' l.
Proof.
  cbv zeta.
  split; [apply recordPayment_amountPaid|].
  split; [|split; [|split; [|split; [|apply recordPayment_other_fields]]]].
  all: rewrite ?recordPayment_amountPaid.
  all: unfold Loan.recordPayment, Loan.calculateRemainingBalance.
  all: cbn [Loan.remainingBalance Loan.set_remainingBalance Loan.set_amountPaid
            Loan.totalRepayment Loan.amountPaid].
  all: set (b := (Loan.totalRepayment l - (Loan.amountPaid l + amount))%Qc).
  all: destruct (Js.leb b 0%Qc) eqn:E;
         [apply leb_true in E | apply leb_false in E];
         cbn [Loan.remainingBalance Loan.status Loan.set_remainingBalance
              Loan.set_status Loan.set_amountPaid].
  - symmetry. by apply max_zero_l.
  - symmetry. apply max_zero_r. by apply Qclt_le_weak.
  - done.
  - intros Hb. rewrite Hb in E. exfalso. exact (Qclt_not_le _ _ E (Qcle_refl _)).
  - done.
  - done.
  - done.
  - intros Hle. exfalso. apply (Qclt_not_le _ _ E). subst b.
    apply Qcle_minus_iff in Hle.
    apply Qcopp_le_compat in Hle.
    replace (- (Loan.amountPaid l + amount + - Loan.totalRepayment l))%Qc
      with (Loan.totalRepayment l - (Loan.amountPaid l + amount))%Qc in Hle by ring.
    exact Hle.
Qed.

(** C3: a payment of a positive amount adds the amount to amountPaid, leaves
    max(0, totalRepayment - amountPaid) as remaining balance, and sets the
    status to paid exactly when that balance is 0 (otherwise the status
    stays); a payment beyond the total leaves balance 0, and no other field
    of the loan changes, so nothing records the excess. *)
Theorem recordPayment_spec (l : Loan.t) (amount : Qc) (Hpos : (0 < amount)%Qc) :
  let l' := Loan.recordPayment l amount in
  Loan.amountPaid l' = (Loan.amountPaid l + amount)%Qc /\
  Loan.remainingBalance l' = Js.max 0%Qc (Loan.totalRepayment l - Loan.amountPaid l')%Qc /\
  (Loan.remainingBalance l' = 0%Qc -> Loan.status l' = "paid") /\
  (Loan.remainingBalance l' <> 0%Qc -> Loan.status l' = Loan.status l) /\
  ((Loan.totalRepayment l <= Loan.amountPaid l')%Qc -> Loan.remainingBalance l' = 0%Qc) /\
  Loan.same_other_fields l' l.
Proof. exact (recordPayment_fields l amount). Qed.

Lemma recordPayment_spec_witness :
  let l' := Loan.recordPayment loan_1000_2 (Js.ofZ 2000) in
  Loan.amountPaid l' = (Loan.amountPaid loan_1000_2 + Js.ofZ 2000)%Qc /\
  Loan.remainingBalance l' = Js.max 0%Qc (Loan.totalRepayment loan_1000_2 - Loan.amountPaid l')%Qc /\
  (Loan.remainingBalance l' = 0%Qc -> Loan.status l' = "paid") /\
  (Loan.remainingBalance l' <> 0%Qc -> Loan.status l' = Loan.status loan_1000_2) /\
  ((Loan.totalRepayment loan_1000_2 <= Loan.amountPaid l')%Qc -> Loan.remainingBalance l' = 0%Qc) /\
  Loan.same_other_fields l' loan_1000_2.
Proof.
  apply (recordPayment_spec loan_1000_2 (Js.ofZ 2000)). reflexivity.
Defined.

(** ** Payments through the repository *)

(** C4 (as stated, refuted): recordPayment does not reject a payment of 0,
    a negative payment, or a payment on a loan that is not approved.  On the
    approved loan L1 a payment of -100 settles normally and leaves amountPaid
    at -100; on the pending loan L2 a payment of 100 settles normally with
    amountPaid 100. *)
Lemma recordPayment_accepts_invalid_payments :
  (exists loan db',
     LoanRepository.recordPayment sample_loans "L1" (Js.ofZ (-100)) = (Returned loan, db') /\
     Loan.amountPaid loan = Js.ofZ (-100) /\
     Loan.amountPaid <$> db' !! "L1" = Some (Js.ofZ (-100))) /\
  (exists loan db',
     LoanRepository.recordPayment sample_loans "L1" (Js.ofZ 0) = (Returned loan, db')) /\
  (exists loan db',
     LoanRepository.recordPayment sample_loans "L2" (Js.ofZ 100) = (Returned loan, db') /\
     Loan.status loan = "pending" /\
     Loan.amountPaid <$> db' !! "L2" = Some (Js.ofZ 100)) /\
  ~ LoanRepository.rejects_invalid_payments.
Proof.
  split; [|split; [|split]].
  - eexists _, _. split; [reflexivity|]. split; [qc_eval|].
    vm_compute. reflexivity.
  - eexists _, _. reflexivity.
  - eexists _, _. split; [reflexivity|]. split; [reflexivity|].
    vm_compute. reflexivity.
  - intros Hrej.
    destruct (Hrej sample_loans "L1" loan_1000_2 (Js.ofZ 0) eq_refl) as [msg Hmsg].
    + left. done.
    + discriminate Hmsg.
Qed.

(** C4 (amended): recordPayment checks neither the amount nor the status.
    For a stored loan it settles normally for every amount, positive, zero
    or negative, and every status: the returned loan has amountPaid raised
    by the amount, remaining balance max(0, totalRepayment - amountPaid) and
    status paid exactly when that balance is 0, and its amountPaid,
    remainingBalance and status are written into the stored document.  It is
    rejected only when no loan is stored under the id, with
    'Loan not found', and the collection is then as before. *)
Theorem recordPayment_no_validation (db : gmap string Loan.t) (loanId : string) (amount : Qc) :
  match db !! loanId with
  | Some data =>
      let loan0 := LoanRepository.fromFirestore loanId data in
      let loan := Loan.recordPayment loan0 amount in
      LoanRepository.recordPayment db loanId amount
      = (Returned loan, <[loanId := LoanRepository.update_payment loan data]> db) /\
      Loan.amountPaid loan = (Loan.amountPaid data + amount)%Qc /\
      Loan.remainingBalance loan
      = Js.max 0%Qc (Loan.totalRepayment data - Loan.amountPaid loan)%Qc /\
      (Loan.remainingBalance loan = 0%Qc -> Loan.status loan = "paid") /\
      (Loan.remainingBalance loan <> 0%Qc -> Loan.status loan = Loan.status loan0)
  | None =>
      LoanRepository.recordPayment db loanId amount = (Threw "Loan not found", db)
  end.
Proof.
  unfold LoanRepository.recordPayment, LoanRepository.getLoanById.
  destruct (db !! loanId) as [data|] eqn:E; cbn [fmap option_fmap option_map].
  - cbv zeta. split; [by rewrite (alter_alt_Some _ _ _ _ E)|].
    destruct (recordPayment_fields (LoanRepository.fromFirestore loanId data) amount)
      as (Hpaid & Hbal & Hzero & Hnonzero & _).
    cbv zeta in Hbal, Hzero, Hnonzero.
    repeat split; assumption.
  - reflexivity.
Qed.

(** ** Funeral cover: waiting periods *)

(** [Math.ceil] of a quotient of integers, in integer arithmetic. *)
Lemma ceil_div_months (a : Z) :
  Js.ceil (Js.ofZ a / Js.ofZ FuneralCoverMembership.msPerMonth)%Qc
  = - ((- a) / FuneralCoverMembership.msPerMonth).
Proof.
  unfold Js.ceil, Qceiling. f_equal.
  transitivity (Qfloor ((- a) # 2592000000)).
  - apply Qfloor_comp.
    unfold Js.ofZ, Qcdiv, Qcmult, Qcinv, Q2Qc, this.
    rewrite !Qred_correct.
    change FuneralCoverMembership.msPerMonth with 2592000000.
    unfold Qeq, Qopp, Qmult, Qinv, inject_Z; cbn. lia.
  - reflexivity.
Qed.

Lemma getMonthsSinceStart_Z (m : FuneralCoverMembership.t) (now : Z) :
  FuneralCoverMembership.getMonthsSinceStart m now
  = - ((- Z.abs (now - FuneralCoverMembership.startDate m)) / FuneralCoverMembership.msPerMonth).
Proof. unfold FuneralCoverMembership.getMonthsSinceStart. apply ceil_div_months. Qed.

(** The elapsed months are the least count of 30-day months that covers the
    distance between the two instants. *)
Lemma getMonthsSinceStart_least (m : FuneralCoverMembership.t) (now k : Z) :
  FuneralCoverMembership.getMonthsSinceStart m now = k <->
  (k - 1) * FuneralCoverMembership.msPerMonth
    < Z.abs (now - FuneralCoverMembership.startDate m)
    <= k * FuneralCoverMembership.msPerMonth.
Proof.
  rewrite getMonthsSinceStart_Z.
  unfold FuneralCoverMembership.msPerMonth.
  change (1000 * 60 * 60 * 24 * 30) with 2592000000.
  generalize (Z.abs (now - FuneralCoverMembership.startDate m)). intros d.
  pose proof (Z.div_mod (- d) 2592000000 ltac:(lia)).
  pose proof (Z.mod_pos_bound (- d) 2592000000 ltac:(lia)).
  split; intros; nia.
Qed.

Lemma WAITING_PERIODS_other (deathType : string) :
  deathType <> "NATURAL_DEATH" -> deathType <> "ACCIDENTAL_DEATH" ->
  deathType <> "SUICIDE" ->
  FuneralCoverPlan.WAITING_PERIODS !! deathType = None.
Proof.
  intros H1 H2 H3. unfold FuneralCoverPlan.WAITING_PERIODS.
  rewrite !lookup_insert_ne by done. apply lookup_empty.
Qed.

(** Where the code and the table of the specification agree: every cause
    other than accidental death that is not the name of a property of
    [Object.prototype]. *)
Lemma hasWaitingPeriodPassed_table (m : FuneralCoverMembership.t) (deathType : string) (now : Z) :
  deathType <> "ACCIDENTAL_DEATH" ->
  deathType ∉ Object_prototype_keys ->
  FuneralCoverMembership.hasWaitingPeriodPassed m deathType now
  = bool_decide (FuneralCoverMembership.spec_waitingPeriod deathType
                 <= FuneralCoverMembership.getMonthsSinceStart m now).
Proof.
  intros Hacc Hproto.
  unfold FuneralCoverMembership.hasWaitingPeriodPassed,
    FuneralCoverMembership.waitingPeriod, FuneralCoverMembership.spec_waitingPeriod, js_get.
  destruct (decide (deathType = "NATURAL_DEATH")) as [->|Hn]; [reflexivity|].
  destruct (decide (deathType = "ACCIDENTAL_DEATH")) as [->|_]; [done|].
  destruct (decide (deathType = "SUICIDE")) as [->|Hs]; [reflexivity|].
  rewrite WAITING_PERIODS_other by done.
  by rewrite bool_decide_eq_false_2.
Qed.

(** Accidental death: the table entry 0 is falsy, so [|| 6] replaces it. *)
Lemma hasWaitingPeriodPassed_accidental (m : FuneralCoverMembership.t) (now : Z) :
  FuneralCoverMembership.hasWaitingPeriodPassed m "ACCIDENTAL_DEATH" now
  = bool_decide (6 <= FuneralCoverMembership.getMonthsSinceStart m now).
Proof. reflexivity. Qed.

(** A cause named like a property of [Object.prototype] is never eligible. *)
Lemma hasWaitingPeriodPassed_inherited (m : FuneralCoverMembership.t) (deathType : string) (now : Z) :
  deathType ∈ Object_prototype_keys ->
  FuneralCoverMembership.hasWaitingPeriodPassed m deathType now = false.
Proof.
  intros Hin.
  unfold FuneralCoverMembership.hasWaitingPeriodPassed,
    FuneralCoverMembership.waitingPeriod, js_get.
  assert (Hown : forall k : string, k ∉ Object_prototype_keys ->
                 deathType <> k).
  { intros k Hk ->. exact (Hk Hin). }
  rewrite WAITING_PERIODS_other.
  - by rewrite bool_decide_eq_true_2.
  - apply Hown. intros H. apply (bool_decide_pack _) in H. by vm_compute in H.
  - apply Hown. intros H. apply (bool_decide_pack _) in H. by vm_compute in H.
  - apply Hown. intros H. apply (bool_decide_pack _) in H. by vm_compute in H.
Qed.

(** C1 (code differs): ten days into the cover, an accidental-death claim
    has 1 elapsed month and the table gives accidental death a waiting period
    of 0 months, yet hasWaitingPeriodPassed answers false; it answers as for
    a 6-month waiting period, and true only from 6 elapsed months on. *)
Theorem accidental_death_not_immediate :
  let now := 10 * JsDate.msPerDay in
  FuneralCoverMembership.getMonthsSinceStart member_epoch now = 1 /\
  FuneralCoverPlan.WAITING_PERIODS !! "ACCIDENTAL_DEATH" = Some 0 /\
  FuneralCoverMembership.spec_waitingPeriod "ACCIDENTAL_DEATH" = 0 /\
  FuneralCoverMembership.hasWaitingPeriodPassed member_epoch "ACCIDENTAL_DEATH" now = false /\
  FuneralCoverMembership.hasWaitingPeriodPassed member_epoch "ACCIDENTAL_DEATH" (151 * JsDate.msPerDay) = true.
Proof. repeat split; vm_compute; reflexivity. Qed.

(** An unrecognized cause that names a property of [Object.prototype] does
    not get the 6-month default either: after 7 elapsed months the answer is
    still false. *)
Example inherited_cause_never_eligible :
  FuneralCoverMembership.getMonthsSinceStart member_epoch (181 * JsDate.msPerDay) = 7 /\
  FuneralCoverMembership.hasWaitingPeriodPassed member_epoch "toString" (181 * JsDate.msPerDay) = false /\
  FuneralCoverMembership.hasWaitingPeriodPassed member_epoch "unknown" (181 * JsDate.msPerDay) = true.
Proof. repeat split; vm_compute; reflexivity. Qed.

(** The eligibility examples of the specification: 150 and 181 days. *)
Example natural_death_150_days :
  FuneralCoverMembership.hasWaitingPeriodPassed member_epoch "NATURAL_DEATH" (150 * JsDate.msPerDay) = false.
Proof. vm_compute. reflexivity. Qed.

Example natural_death_181_days :
  FuneralCoverMembership.hasWaitingPeriodPassed member_epoch "NATURAL_DEATH" (181 * JsDate.msPerDay) = true.
Proof. vm_compute. reflexivity. Qed.

(** C10: the elapsed months are the least number of 30-day months covering
    the absolute distance between now and startDate.  For a start in the
    future they are at least 1, do not shrink as the start moves further
    away and grow by at least 1 with every further 30 days; and when the
    start lies more than 180 days ahead, a natural-death claim already passes
    the waiting period. *)
Theorem future_start_counts_as_elapsed (m : FuneralCoverMembership.t) (now : Z) :
  let start := FuneralCoverMembership.startDate m in
  let months := FuneralCoverMembership.getMonthsSinceStart m now in
  ((months - 1) * FuneralCoverMembership.msPerMonth < Z.abs (now - start)
     <= months * FuneralCoverMembership.msPerMonth) /\
  (now < start -> 1 <= months) /\
  (forall m' : FuneralCoverMembership.t,
     now < start -> start <= FuneralCoverMembership.startDate m' ->
     months <= FuneralCoverMembership.getMonthsSinceStart m' now) /\
  (forall m' : FuneralCoverMembership.t,
     now < start ->
     start + FuneralCoverMembership.msPerMonth <= FuneralCoverMembership.startDate m' ->
     months + 1 <= FuneralCoverMembership.getMonthsSinceStart m' now) /\
  (180 * JsDate.msPerDay < start - now ->
   FuneralCoverMembership.hasWaitingPeriodPassed m "NATURAL_DEATH" now = true).
Proof.
  cbv zeta.
  pose proof (proj1 (getMonthsSinceStart_least m now _) eq_refl) as Hm.
  split; [exact Hm|].
  revert Hm. generalize (FuneralCoverMembership.getMonthsSinceStart m now) as k.
  intros k Hk.
  unfold FuneralCoverMembership.msPerMonth, JsDate.msPerDay in *.
  split; [|split; [|split]].
  - intros Hfut. lia.
  - intros m' Hfut Hle.
    pose proof (proj1 (getMonthsSinceStart_least m' now _) eq_refl) as Hm'.
    revert Hm'. generalize (FuneralCoverMembership.getMonthsSinceStart m' now) as k'.
    intros k' Hk'. unfold FuneralCoverMembership.msPerMonth in Hk'. lia.
  - intros m' Hfut Hle.
    pose proof (proj1 (getMonthsSinceStart_least m' now _) eq_refl) as Hm'.
    revert Hm'. generalize (FuneralCoverMembership.getMonthsSinceStart m' now) as k'.
    intros k' Hk'. unfold FuneralCoverMembership.msPerMonth in Hk'. lia.
  - intros Hfar.
    rewrite hasWaitingPeriodPassed_table; [|done|].
    + apply bool_decide_eq_true_2.
      change (FuneralCoverMembership.spec_waitingPeriod "NATURAL_DEATH") with 6.
      pose proof (proj1 (getMonthsSinceStart_least m now _) eq_refl) as Hm.
      unfold FuneralCoverMembership.msPerMonth in Hm. lia.
    + intros H. apply (bool_decide_pack _) in H. by vm_compute in H.
Qed.

Lemma future_start_counts_as_elapsed_witness :
  FuneralCoverMembership.getMonthsSinceStart member_future 0 = 7 /\
  FuneralCoverMembership.hasWaitingPeriodPassed member_future "NATURAL_DEATH" 0 = true.
Proof.
  split; [vm_compute; reflexivity|].
  apply (future_start_counts_as_elapsed member_future 0). reflexivity.
Defined.

(** ** Funeral cover: premium *)

Lemma add_benefit_own_keys (keys : list string) (total : Qc) :
  Forall (fun key => key ∉ Object_prototype_keys) keys ->
  fold_left FuneralCoverPlan.add_benefit keys (Num total)
  = Num (total + sum_of_recognized keys)%Qc.
Proof.
  intros Hkeys. revert total.
  induction Hkeys as [|key keys Hkey _ IH]; intros total.
  - cbn. f_equal. ring.
  - cbn [fold_left sum_of_recognized fold_right].
    fold (sum_of_recognized keys).
    unfold FuneralCoverPlan.add_benefit at 2, js_get.
    destruct (FuneralCoverPlan.ADDITIONAL_BENEFITS !! key) as [b|] eqn:E.
    + cbn [FuneralCoverPlan.add_price]. rewrite IH. f_equal. ring.
    + rewrite bool_decide_eq_false_2 by exact Hkey. apply IH.
Qed.

(** Where calculatePremium is as the specification words it: no key names
    a property of [Object.prototype]. *)
Lemma calculatePremium_own_keys (planId : string) (keys : list string) :
  Forall (fun key => key ∉ Object_prototype_keys) keys ->
  FuneralCoverPlan.calculatePremium planId keys
  = match FuneralCoverPlan.getPlan planId with
    | Some plan => Num (FuneralCoverPlan.price plan + sum_of_recognized keys)%Qc
    | None => Num 0%Qc
    end.
Proof.
  intros Hkeys. unfold FuneralCoverPlan.calculatePremium.
  destruct (FuneralCoverPlan.getPlan planId); [|reflexivity].
  by apply add_benefit_own_keys.
Qed.

(** An unknown plan yields 0, whatever the keys. *)
Lemma calculatePremium_unknown_plan (planId : string) (keys : list string) :
  FuneralCoverPlan.getPlan planId = None ->
  FuneralCoverPlan.calculatePremium planId keys = Num 0%Qc.
Proof. intros H. unfold FuneralCoverPlan.calculatePremium. by rewrite H. Qed.

Example premium_family_two_addons :
  FuneralCoverPlan.calculatePremium "family" ["CHAIRS"; "bouncy castle"; "CATERING"]
  = Num (Js.ofZ 299).
Proof. vm_compute. reflexivity. Qed.

Example premium_unknown_plan :
  FuneralCoverPlan.calculatePremium "platinum" ["CHAIRS"] = Num 0%Qc.
Proof. vm_compute. reflexivity. Qed.

(** C9 (code differs): the key toString names no add-on, so the premium of
    the basic plan with the keys CHAIRS and toString should be 99 + 25; the
    lookup finds the function inherited from [Object.prototype], the guard
    lets it through, and adding its missing price turns the total into
    NaN. *)
Theorem calculatePremium_inherited_key_NaN :
  FuneralCoverPlan.ADDITIONAL_BENEFITS !! "toString" = None /\
  FuneralCoverPlan.getPlan "basic" = Some FuneralCoverPlan.BASIC /\
  sum_of_recognized ["CHAIRS"; "toString"] = Js.ofZ 25 /\
  FuneralCoverPlan.calculatePremium "basic" ["CHAIRS"] = Num (Js.ofZ 124) /\
  FuneralCoverPlan.calculatePremium "basic" ["CHAIRS"; "toString"] = NaN /\
  FuneralCoverPlan.calculatePremium "basic" ["constructor"] = NaN.
Proof. repeat split; vm_compute; reflexivity. Qed.

(** ** Dates: the civil calendar *)

(** March-based month number back to the 0-based civil month. *)
Lemma doy_of_valid_date (y m d : Z) :
  0 <= m <= 11 -> 1 <= d <= JsDate.daysInMonth y m ->
  let mp := (m + 10) mod 12 in
  let doy := (153 * mp + 2) / 5 + d - 1 in
  0 <= mp <= 11 /\
  0 <= doy <= 365 /\
  (doy = 365 -> JsDate.isLeapYear y = true /\ m = 1) /\
  (5 * doy + 2) / 153 = mp /\
  (if mp <? 10 then mp + 2 else mp - 10) = m.
Proof.
  intros Hm Hd.
  assert (Hcases : m = 0 \/ m = 1 \/ m = 2 \/ m = 3 \/ m = 4 \/ m = 5 \/ m = 6 \/
                   m = 7 \/ m = 8 \/ m = 9 \/ m = 10 \/ m = 11) by lia.
  unfold JsDate.daysInMonth in Hd.
  destruct Hcases as [->|[->|[->|[->|[->|[->|[->|[->|[->|[->|[->| ->]]]]]]]]]]];
    cbn in Hd |- *;
    try (destruct (JsDate.isLeapYear y) eqn:Hleap);
    repeat split; try lia;
    try (apply Z.div_unique with (r := (5 * ((153 * ((1 + 10) mod 12) + 2) / 5 + d - 1) + 2) - 153 * 11); cbn; lia);
    Z.div_mod_to_equations; lia.
Qed.

(** The year of era is recovered from the day of era. *)
Lemma yoe_of_doe (yoe doy : Z) :
  0 <= yoe < 400 -> 0 <= doy <= 365 ->
  (doy = 365 -> (yoe + 1) mod 4 = 0 /\ ((yoe + 1) mod 100 <> 0 \/ (yoe + 1) mod 400 = 0)) ->
  let doe := yoe * 365 + yoe / 4 - yoe / 100 + doy in
  0 <= doe < 146097 /\
  (doe - doe / 1460 + doe / 36524 - doe / 146096) / 365 = yoe.
Proof.
  intros Hy Hd Hleap doe. subst doe.
  Z.div_mod_to_equations. lia.
Qed.

Lemma isLeapYear_true (y : Z) :
  JsDate.isLeapYear y = true <->
  y mod 4 = 0 /\ (y mod 100 <> 0 \/ y mod 400 = 0).
Proof.
  unfold JsDate.isLeapYear.
  destruct (Z.eqb_spec (y mod 4) 0), (Z.eqb_spec (y mod 100) 0),
    (Z.eqb_spec (y mod 400) 0); cbn; split; try done; try tauto;
    intros; exfalso; Z.div_mod_to_equations; lia.
Qed.

(** Day number to civil date undoes civil date to day number, on every
    valid date of every year. *)
Lemma civil_from_days_from_civil (y m d : Z) :
  0 <= m <= 11 -> 1 <= d <= JsDate.daysInMonth y m ->
  JsDate.civil_from_days (JsDate.days_from_civil y m d) = (y, m, d).
Proof.
  intros Hm Hd.
  destruct (doy_of_valid_date y m d Hm Hd) as (Hmp & Hdoy & Hleap & Hmonth & Hback).
  unfold JsDate.civil_from_days, JsDate.days_from_civil, JsDate.doe_of.
  set (y' := if m <=? 1 then y - 1 else y) in *.
  set (mp := (m + 10) mod 12) in *.
  set (yoe := y' mod 400).
  set (era := y' / 400).
  set (doy := (153 * mp + 2) / 5 + d - 1) in *.
  assert (Hyoe : 0 <= yoe < 400) by (subst yoe; apply Z.mod_pos_bound; lia).
  assert (Hy' : y' = 400 * era + yoe) by (subst yoe era; apply Z.div_mod; lia).
  assert (Hleap' : doy = 365 ->
            (yoe + 1) mod 4 = 0 /\ ((yoe + 1) mod 100 <> 0 \/ (yoe + 1) mod 400 = 0)).
  { intros H365. destruct (Hleap H365) as [Hl ->].
    apply isLeapYear_true in Hl. subst y'. cbn in Hy'.
    replace (yoe + 1) with (y - 400 * era) by lia.
    clearbody yoe era. clear -Hl. Z.div_mod_to_equations. lia. }
  destruct (yoe_of_doe yoe doy Hyoe Hdoy Hleap') as [Hdoe Hyear].
  set (doe := yoe * 365 + yoe / 4 - yoe / 100 + doy) in *.
  replace (era * 146097 + (yoe * 365 + yoe / 4 - yoe / 100 + (153 * mp + 2) / 5 + d - 1)
           - 719468 + 719468) with (doe + era * 146097) by (subst doe doy; lia).
  rewrite Z.div_add, Z.mod_add by lia.
  rewrite (Z.div_small doe), (Z.mod_small doe) by lia.
  unfold JsDate.civil_of_doe. rewrite Hyear.
  replace (doe - (365 * yoe + yoe / 4 - yoe / 100)) with doy by (subst doe; lia).
  rewrite Hmonth, Hback.
  f_equal; [f_equal|].
  - subst y'. destruct (m <=? 1); lia.
  - subst doy. lia.
Qed.

(** Every day of era splits into a year of era, a month and a day in
    range. *)
Lemma civil_of_doe_range (doe : Z) :
  0 <= doe < 146097 ->
  let yoe := (doe - doe / 1460 + doe / 36524 - doe / 146096) / 365 in
  let doy := doe - (365 * yoe + yoe / 4 - yoe / 100) in
  let mp := (5 * doy + 2) / 153 in
  let d := doy - (153 * mp + 2) / 5 + 1 in
  0 <= yoe < 400 /\ 0 <= doy <= 365 /\ 0 <= mp <= 11 /\ 1 <= d <= 31.
Proof.
  intros Hdoe yoe doy mp d.
  assert (Hy : 0 <= yoe < 400) by (subst yoe; Z.div_mod_to_equations; lia).
  assert (Hdoy : 0 <= doy <= 365).
  { subst doy yoe. Z.div_mod_to_equations. lia. }
  assert (Hmp : 0 <= mp <= 11) by (subst mp; Z.div_mod_to_equations; lia).
  repeat split; try lia.
  all: subst d mp; clearbody doy; clear -Hdoy; Z.div_mod_to_equations; lia.
Qed.

(** The month is 0..11 and the day of month 1..31, for every day number. *)
Lemma civil_from_days_range (z : Z) :
  let '(y, m, d) := JsDate.civil_from_days z in
  0 <= m <= 11 /\ 1 <= d <= 31.
Proof.
  unfold JsDate.civil_from_days, JsDate.civil_of_doe.
  set (doe := (z + 719468) mod 146097).
  assert (Hdoe : 0 <= doe < 146097) by (subst doe; apply Z.mod_pos_bound; lia).
  destruct (civil_of_doe_range doe Hdoe) as (Hy & Hdoy & Hmp & Hd).
  cbv zeta in Hy, Hdoy, Hmp, Hd.
  split; [|exact Hd].
  destruct (Z.ltb_spec ((5 * (doe - (365 * ((doe - doe / 1460 + doe / 36524 - doe / 146096) / 365)
        + (doe - doe / 1460 + doe / 36524 - doe / 146096) / 365 / 4
        - (doe - doe / 1460 + doe / 36524 - doe / 146096) / 365 / 100)) + 2) / 153) 10); lia.
Qed.

(** Civil date to day number undoes day number to civil date. *)
Lemma days_from_civil_from_days (z : Z) :
  let '(y, m, d) := JsDate.civil_from_days z in
  JsDate.days_from_civil y m d = z.
Proof.
  unfold JsDate.civil_from_days, JsDate.civil_of_doe.
  set (doe := (z + 719468) mod 146097).
  set (era := (z + 719468) / 146097).
  assert (Hz : z + 719468 = 146097 * era + doe) by (subst doe era; apply Z.div_mod; lia).
  assert (Hdoe : 0 <= doe < 146097) by (subst doe; apply Z.mod_pos_bound; lia).
  destruct (civil_of_doe_range doe Hdoe) as (Hy & Hdoy & Hmp & Hd).
  cbv zeta in Hy, Hdoy, Hmp, Hd.
  set (yoe := (doe - doe / 1460 + doe / 36524 - doe / 146096) / 365) in *.
  set (doy := doe - (365 * yoe + yoe / 4 - yoe / 100)) in *.
  set (mp := (5 * doy + 2) / 153) in *.
  set (d := doy - (153 * mp + 2) / 5 + 1) in *.
  set (m := if mp <? 10 then mp + 2 else mp - 10).
  unfold JsDate.days_from_civil, JsDate.doe_of.
  assert (Hm : ((m + 10) mod 12 = mp) /\ (m <=? 1) = negb (mp <? 10)).
  { subst m. destruct (Z.ltb_spec mp 10).
    - split; [|destruct (Z.leb_spec (mp + 2) 1); [lia|reflexivity]].
      replace (mp + 2 + 10) with (mp + 1 * 12) by lia.
      rewrite Z.mod_add by lia. apply Z.mod_small. lia.
    - split; [|destruct (Z.leb_spec (mp - 10) 1); [reflexivity|lia]].
      replace (mp - 10 + 10) with mp by lia. apply Z.mod_small. lia. }
  destruct Hm as [Hm1 Hm2]. rewrite Hm1.
  assert (Hy' : (if m <=? 1 then yoe + era * 400 + (if m <=? 1 then 1 else 0) - 1
                 else yoe + era * 400 + (if m <=? 1 then 1 else 0)) = yoe + era * 400).
  { destruct (m <=? 1); lia. }
  rewrite Hy'.
  rewrite Z.div_add, Z.mod_add by lia.
  rewrite (Z.div_small yoe), (Z.mod_small yoe) by lia.
  subst d doy. lia.
Qed.

(** Evaluate the sums and differences of numerals in the goal. *)
Ltac eval_closed_sums :=
  repeat match goal with
  | |- context [Z.add ?a ?b] =>
      let r := eval vm_compute in (Z.add a b) in
      lazymatch r with
      | Z0 => idtac
      | Zpos _ => idtac
      | Zneg _ => idtac
      end;
      progress change (Z.add a b) with r
  | |- context [Z.sub ?a ?b] =>
      let r := eval vm_compute in (Z.sub a b) in
      lazymatch r with
      | Z0 => idtac
      | Zpos _ => idtac
      | Zneg _ => idtac
      end;
      progress change (Z.sub a b) with r
  end.

Lemma civil_of_doe_leap_day (doe : Z) :
  0 <= doe < 146097 ->
  let yoe := (doe - doe / 1460 + doe / 36524 - doe / 146096) / 365 in
  let doy := doe - (365 * yoe + yoe / 4 - yoe / 100) in
  doy = 365 -> (yoe + 1) mod 4 = 0 /\ ((yoe + 1) mod 100 <> 0 \/ (yoe + 1) mod 400 = 0).
Proof.
  intros Hdoe yoe doy H365. subst doy yoe.
  Z.div_mod_to_equations. lia.
Qed.

(** The day of month exists in its month, for every day number. *)
Lemma civil_from_days_valid (z : Z) :
  let '(y, m, d) := JsDate.civil_from_days z in
  0 <= m <= 11 /\ 1 <= d <= JsDate.daysInMonth y m.
Proof.
  unfold JsDate.civil_from_days, JsDate.civil_of_doe.
  set (doe := (z + 719468) mod 146097).
  set (era := (z + 719468) / 146097).
  assert (Hdoe : 0 <= doe < 146097) by (subst doe; apply Z.mod_pos_bound; lia).
  destruct (civil_of_doe_range doe Hdoe) as (Hy & Hdoy & Hmp & Hd).
  pose proof (civil_of_doe_leap_day doe Hdoe) as Hleap.
  cbv zeta in Hy, Hdoy, Hmp, Hd, Hleap.
  set (yoe := (doe - doe / 1460 + doe / 36524 - doe / 146096) / 365) in *.
  set (doy := doe - (365 * yoe + yoe / 4 - yoe / 100)) in *.
  set (mp := (5 * doy + 2) / 153) in *.
  set (d := doy - (153 * mp + 2) / 5 + 1) in *.
  clearbody doy yoe era. clear doe Hdoe.
  assert (Hcases : mp = 0 \/ mp = 1 \/ mp = 2 \/ mp = 3 \/ mp = 4 \/ mp = 5 \/ mp = 6 \/
                   mp = 7 \/ mp = 8 \/ mp = 9 \/ mp = 10 \/ mp = 11) by lia.
  assert (Hmonth : 153 * mp <= 5 * doy + 2 < 153 * mp + 153).
  { subst mp. Z.div_mod_to_equations. lia. }
  subst d. clearbody mp.
  unfold JsDate.daysInMonth.
  destruct Hcases as [->|[->|[->|[->|[->|[->|[->|[->|[->|[->|[->| ->]]]]]]]]]]];
    eval_closed_sums; cbn -[JsDate.isLeapYear Z.div Z.modulo];
    try (split; [lia|]; Z.div_mod_to_equations; lia).
  split; [lia|].
  destruct (JsDate.isLeapYear (yoe + era * 400 + 1)) eqn:Hl.
  - Z.div_mod_to_equations. lia.
  - assert (doy <> 365).
    { intros H365. destruct (Hleap H365) as [H4 H100].
      assert (JsDate.isLeapYear (yoe + era * 400 + 1) = true); [|congruence].
      apply isLeapYear_true. clear -H4 H100. Z.div_mod_to_equations. lia. }
    Z.div_mod_to_equations. lia.
Qed.

(** Day numbers follow the calendar: the epoch is 1 January 1970, and the
    next day number is the next day of the month, the first of the next
    month after the last day of a month, and 1 January after 31 December. *)
Lemma days_from_civil_epoch : JsDate.days_from_civil 1970 0 1 = 0.
Proof. reflexivity. Qed.

Lemma days_from_civil_next_day (y m d : Z) :
  JsDate.days_from_civil y m (d + 1) = JsDate.days_from_civil y m d + 1.
Proof. unfold JsDate.days_from_civil, JsDate.doe_of. lia. Qed.

Lemma days_from_civil_next_month (y m : Z) :
  0 <= m < 11 ->
  JsDate.days_from_civil y (m + 1) 1
  = JsDate.days_from_civil y m (JsDate.daysInMonth y m) + 1.
Proof.
  intros Hm.
  assert (Hcases : m = 0 \/ m = 1 \/ m = 2 \/ m = 3 \/ m = 4 \/ m = 5 \/ m = 6 \/
                   m = 7 \/ m = 8 \/ m = 9 \/ m = 10) by lia.
  destruct Hcases as [->|[->|[->|[->|[->|[->|[->|[->|[->|[->| ->]]]]]]]]]];
    match goal with
    | |- context [JsDate.days_from_civil y (?k + 1) 1] =>
        let k' := eval vm_compute in (k + 1) in change (k + 1) with k'
    end;
    unfold JsDate.days_from_civil, JsDate.doe_of, JsDate.daysInMonth;
    cbn -[Z.div Z.modulo JsDate.isLeapYear];
    try (Z.div_mod_to_equations; lia).
  destruct (JsDate.isLeapYear y) eqn:Hleap.
  - apply isLeapYear_true in Hleap. Z.div_mod_to_equations. lia.
  - assert (Hn : ~ (y mod 4 = 0 /\ (y mod 100 <> 0 \/ y mod 400 = 0))).
    { intros H. apply isLeapYear_true in H. congruence. }
    Z.div_mod_to_equations. lia.
Qed.

Lemma days_from_civil_next_year (y : Z) :
  JsDate.days_from_civil (y + 1) 0 1 = JsDate.days_from_civil y 11 31 + 1.
Proof.
  unfold JsDate.days_from_civil, JsDate.doe_of. cbn -[Z.div Z.modulo].
  replace (y + 1 - 1) with y by lia. Z.div_mod_to_equations. lia.
Qed.

(** ** Dates: time values *)

Lemma Day_MakeDate (day time : Z) :
  0 <= time < JsDate.msPerDay ->
  JsDate.Day (JsDate.MakeDate day time) = day /\
  JsDate.TimeWithinDay (JsDate.MakeDate day time) = time.
Proof.
  intros Ht. unfold JsDate.Day, JsDate.TimeWithinDay, JsDate.MakeDate, JsDate.msPerDay in *.
  Z.div_mod_to_equations. lia.
Qed.

Lemma LocalTime_UTC (tzOffset t : Z) :
  JsDate.LocalTime tzOffset (JsDate.UTC tzOffset t) = t.
Proof. unfold JsDate.LocalTime, JsDate.UTC. lia. Qed.

(** [MakeDay] carries whole years out of the month and counts the day of
    month on from the first of the month. *)
Lemma MakeDay_carry (year month date : Z) :
  JsDate.MakeDay year month date
  = JsDate.days_from_civil (year + month / 12) (month mod 12) date.
Proof. unfold JsDate.MakeDay, JsDate.days_from_civil, JsDate.doe_of. lia. Qed.

Lemma MakeDay_in_range (year month date : Z) :
  0 <= month <= 11 ->
  JsDate.MakeDay year month date = JsDate.days_from_civil year month date.
Proof.
  intros Hm. rewrite MakeDay_carry.
  rewrite Z.div_small, Z.mod_small by lia. f_equal. lia.
Qed.

Lemma local_fields_MakeDate (tzOffset y m d time : Z) :
  0 <= m <= 11 -> 1 <= d <= JsDate.daysInMonth y m ->
  0 <= time < JsDate.msPerDay ->
  local_fields tzOffset
    (JsDate.UTC tzOffset (JsDate.MakeDate (JsDate.days_from_civil y m d) time))
  = (y, m, d, time).
Proof.
  intros Hm Hd Ht.
  unfold local_fields, JsDate.getFullYear, JsDate.getMonth, JsDate.getDate,
    JsDate.YearFromTime, JsDate.MonthFromTime, JsDate.DateFromTime.
  rewrite LocalTime_UTC.
  destruct (Day_MakeDate (JsDate.days_from_civil y m d) time Ht) as [-> ->].
  by rewrite civil_from_days_from_civil.
Qed.

(** [new Date(y, m, d)] for a year outside 0..99 and a date that exists is
    local midnight of that date. *)
Lemma local_fields_construct (tzOffset y m d : Z) :
  ~ (0 <= y <= 99) -> 0 <= m <= 11 -> 1 <= d <= JsDate.daysInMonth y m ->
  local_fields tzOffset (JsDate.construct tzOffset y m d) = (y, m, d, 0).
Proof.
  intros Hy Hm Hd. unfold JsDate.construct.
  replace ((0 <=? y) && (y <=? 99)) with false.
  - rewrite MakeDay_in_range by exact Hm.
    apply local_fields_MakeDate; [done|done|]. unfold JsDate.msPerDay. cbn. lia.
  - symmetry. apply andb_false_iff.
    destruct (Z.leb_spec 0 y); [|by left].
    destruct (Z.leb_spec y 99); [|by right]. lia.
Qed.

(** [setMonth] keeps the day of month and the time of day and moves to the
    month asked for, carrying whole years, whenever that month has the
    day. *)
Lemma local_fields_setMonth (tzOffset t month : Z) :
  let '(y, m, d, time) := local_fields tzOffset t in
  d <= JsDate.daysInMonth (y + month / 12) (month mod 12) ->
  local_fields tzOffset (JsDate.setMonth tzOffset t month)
  = (y + month / 12, month mod 12, d, time).
Proof.
  unfold local_fields at 1. intros Hd.
  unfold JsDate.setMonth. rewrite MakeDay_carry.
  fold (JsDate.getFullYear tzOffset t). fold (JsDate.getDate tzOffset t).
  apply local_fields_MakeDate.
  - pose proof (Z.mod_pos_bound month 12). lia.
  - split; [|exact Hd].
    pose proof (civil_from_days_range (JsDate.Day (JsDate.LocalTime tzOffset t))) as Hr.
    unfold JsDate.getDate, JsDate.DateFromTime.
    destruct (JsDate.civil_from_days _) as [[y m] d]. cbn. lia.
  - apply Z.mod_pos_bound. unfold JsDate.msPerDay. lia.
Qed.

(** Every month has at least 28 days. *)
Lemma daysInMonth_ge_28 (y m : Z) : 28 <= JsDate.daysInMonth y m.
Proof.
  unfold JsDate.daysInMonth.
  destruct (m =? 1); [destruct (JsDate.isLeapYear y); lia|].
  destruct ((m =? 3) || (m =? 5) || (m =? 8) || (m =? 10)); lia.
Qed.

(** ** Dates: ISO strings *)

Lemma split_T_head_app (s1 s2 : string) :
  no_T s1 = true -> JsDate.split_T_head (s1 +:+ String "T"%char s2) = s1.
Proof.
  induction s1 as [|c s1 IH]; intros H.
  - reflexivity.
  - cbn [no_T] in H. apply andb_prop in H as [Hc Hrest].
    change (String c s1 +:+ String "T"%char s2)
      with (String c (s1 +:+ String "T"%char s2)).
    cbn [JsDate.split_T_head].
    destruct (Ascii.eqb c "T"%char); [discriminate|].
    by rewrite IH.
Qed.

Lemma no_T_app (s1 s2 : string) :
  no_T s1 = true -> no_T s2 = true -> no_T (s1 +:+ s2) = true.
Proof.
  induction s1 as [|c s1 IH]; intros H1 H2; [exact H2|].
  cbn [no_T] in H1. apply andb_prop in H1 as [Hc Hrest].
  change (String c s1 +:+ s2) with (String c (s1 +:+ s2)).
  cbn [no_T]. by rewrite Hc, IH.
Qed.

Lemma no_T_digit (n : Z) : no_T (String (JsDate.digit (n mod 10)) EmptyString) = true.
Proof.
  pose proof (Z.mod_pos_bound n 10 ltac:(lia)) as Hr.
  assert (Hcases : n mod 10 = 0 \/ n mod 10 = 1 \/ n mod 10 = 2 \/ n mod 10 = 3 \/
                   n mod 10 = 4 \/ n mod 10 = 5 \/ n mod 10 = 6 \/ n mod 10 = 7 \/
                   n mod 10 = 8 \/ n mod 10 = 9) by lia.
  destruct Hcases as [->|[->|[->|[->|[->|[->|[->|[->|[->| ->]]]]]]]]]; reflexivity.
Qed.

Lemma no_T_pad (width : nat) (n : Z) : no_T (JsDate.pad width n) = true.
Proof.
  revert n. induction width as [|w IH]; intros n; [reflexivity|].
  cbn [JsDate.pad]. apply no_T_app; [apply IH | apply no_T_digit].
Qed.

Lemma no_T_isoDate (t : Z) : no_T (JsDate.isoDate t) = true.
Proof.
  unfold JsDate.isoDate, JsDate.isoYear.
  assert (Hyear : forall y, no_T (JsDate.isoYear y) = true).
  { intros y. unfold JsDate.isoYear.
    destruct ((0 <=? y) && (y <=? 9999)); [apply no_T_pad|].
    apply no_T_app; [by destruct (y <? 0) | apply no_T_pad]. }
  unfold JsDate.isoDate.
  apply no_T_app; [apply Hyear|].
  apply no_T_app; [reflexivity|].
  apply no_T_app; [apply no_T_pad|].
  apply no_T_app; [reflexivity|apply no_T_pad].
Qed.

(** [toISOString().split('T')[0]] is the date part. *)
Lemma split_T_head_toISOString (t : Z) :
  JsDate.split_T_head (JsDate.toISOString t) = JsDate.isoDate t.
Proof.
  unfold JsDate.toISOString. apply (split_T_head_app (JsDate.isoDate t)).
  apply no_T_isoDate.
Qed.

(** ** Dates: whole months *)

Lemma days_from_civil_day (y m d : Z) :
  JsDate.days_from_civil y m d = JsDate.days_from_civil y m 1 + d - 1.
Proof. unfold JsDate.days_from_civil, JsDate.doe_of. lia. Qed.

(** The first of the next month is a month's length after the first of the
    month. *)
Lemma first_of_next_month (y m : Z) :
  0 <= m <= 11 ->
  JsDate.days_from_civil (y + (m + 1) / 12) ((m + 1) mod 12) 1
  = JsDate.days_from_civil y m 1 + JsDate.daysInMonth y m.
Proof.
  intros Hm. destruct (Z.eq_dec m 11) as [->|Hne].
  - change ((11 + 1) / 12) with 1. change ((11 + 1) mod 12) with 0.
    rewrite days_from_civil_next_year, (days_from_civil_day y 11 31).
    change (JsDate.daysInMonth y 11) with 31. lia.
  - rewrite Z.div_small, Z.mod_small by lia.
    replace (y + 0) with y by lia.
    rewrite days_from_civil_next_month by lia.
    rewrite (days_from_civil_day y m (JsDate.daysInMonth y m)). lia.
Qed.

(** The local fields of a time value give back its local day number. *)
Lemma Day_of_local_fields (tzOffset t : Z) :
  JsDate.Day (JsDate.LocalTime tzOffset t)
  = JsDate.days_from_civil (JsDate.getFullYear tzOffset t) (JsDate.getMonth tzOffset t)
      (JsDate.getDate tzOffset t).
Proof.
  unfold JsDate.getFullYear, JsDate.getMonth, JsDate.getDate,
    JsDate.YearFromTime, JsDate.MonthFromTime, JsDate.DateFromTime.
  pose proof (days_from_civil_from_days (JsDate.Day (JsDate.LocalTime tzOffset t))) as H.
  destruct (JsDate.civil_from_days _) as [[y m] d]. cbn [fst snd]. by rewrite H.
Qed.

Lemma getMonth_range (tzOffset t : Z) : 0 <= JsDate.getMonth tzOffset t <= 11.
Proof.
  unfold JsDate.getMonth, JsDate.MonthFromTime.
  pose proof (civil_from_days_range (JsDate.Day (JsDate.LocalTime tzOffset t))) as H.
  destruct (JsDate.civil_from_days _) as [[y m] d]. cbn [fst snd]. lia.
Qed.

(** [setMonth] moves a time value by the whole days between the first of
    its month and the first of the month asked for. *)
Lemma setMonth_shift (tzOffset t month : Z) :
  JsDate.setMonth tzOffset t month
  = t + (JsDate.days_from_civil (JsDate.getFullYear tzOffset t + month / 12) (month mod 12) 1
         - JsDate.days_from_civil (JsDate.getFullYear tzOffset t)
             (JsDate.getMonth tzOffset t) 1) * JsDate.msPerDay.
Proof.
  unfold JsDate.setMonth. rewrite MakeDay_carry.
  fold (JsDate.getFullYear tzOffset t). fold (JsDate.getDate tzOffset t).
  rewrite (days_from_civil_day _ _ (JsDate.getDate tzOffset t)).
  pose proof (Day_of_local_fields tzOffset t) as HDay.
  rewrite (days_from_civil_day _ _ (JsDate.getDate tzOffset t)) in HDay.
  unfold JsDate.UTC, JsDate.MakeDate.
  assert (Hsplit : JsDate.LocalTime tzOffset t
                   = JsDate.Day (JsDate.LocalTime tzOffset t) * JsDate.msPerDay
                     + JsDate.TimeWithinDay (JsDate.LocalTime tzOffset t)).
  { unfold JsDate.Day, JsDate.TimeWithinDay, JsDate.msPerDay.
    pose proof (Z.div_mod (JsDate.LocalTime tzOffset t) 86400000). lia. }
  unfold JsDate.LocalTime in Hsplit at 1. lia.
Qed.

Lemma daysInMonth_le_31 (y m : Z) : JsDate.daysInMonth y m <= 31.
Proof.
  unfold JsDate.daysInMonth.
  destruct (m =? 1); [destruct (JsDate.isLeapYear y); lia|].
  destruct ((m =? 3) || (m =? 5) || (m =? 8) || (m =? 10)); lia.
Qed.

Lemma setMonth_next (tzOffset now : Z) :
  JsDate.setMonth tzOffset now (JsDate.getMonth tzOffset now + 1)
  = now + JsDate.daysInMonth (JsDate.getFullYear tzOffset now) (JsDate.getMonth tzOffset now)
          * JsDate.msPerDay.
Proof.
  rewrite setMonth_shift, first_of_next_month by apply getMonth_range. lia.
Qed.

(** The day number of the first of the month with serial number [n], months
    counted from January of the year 0. *)
Lemma first_of_month_step (n : Z) :
  JsDate.days_from_civil ((n + 1) / 12) ((n + 1) mod 12) 1
  = JsDate.days_from_civil (n / 12) (n mod 12) 1 + JsDate.daysInMonth (n / 12) (n mod 12).
Proof.
  assert (Hm : 0 <= n mod 12 <= 11) by (pose proof (Z.mod_pos_bound n 12); lia).
  rewrite <- (first_of_next_month (n / 12) (n mod 12) Hm).
  f_equal; Z.div_mod_to_equations; lia.
Qed.

Lemma first_of_month_mono (n k : Z) :
  0 <= k ->
  JsDate.days_from_civil (n / 12) (n mod 12) 1 + 28 * k
  <= JsDate.days_from_civil ((n + k) / 12) ((n + k) mod 12) 1.
Proof.
  intros Hk. rewrite <- (Z2Nat.id k Hk). generalize (Z.to_nat k). clear k Hk.
  intros j. induction j as [|j IH].
  - change (Z.of_nat 0) with 0. replace (n + 0) with n by lia. lia.
  - rewrite Nat2Z.inj_succ. replace (n + Z.succ (Z.of_nat j)) with (n + Z.of_nat j + 1) by lia.
    rewrite first_of_month_step.
    pose proof (daysInMonth_ge_28 ((n + Z.of_nat j) / 12) ((n + Z.of_nat j) mod 12)). lia.
Qed.

Lemma serial_split (y m : Z) :
  0 <= m <= 11 -> (12 * y + m) / 12 = y /\ (12 * y + m) mod 12 = m.
Proof. intros Hm. Z.div_mod_to_equations. lia. Qed.

(** [new Date(y, m, 1)] for a year outside 0..99 is local midnight on the
    first of the month. *)
Lemma construct_first_of_month (tzOffset y m : Z) :
  ~ (0 <= y <= 99) -> 0 <= m <= 11 ->
  JsDate.construct tzOffset y m 1
  = JsDate.days_from_civil y m 1 * JsDate.msPerDay - tzOffset.
Proof.
  intros Hy Hm. unfold JsDate.construct.
  replace ((0 <=? y) && (y <=? 99)) with false.
  - rewrite MakeDay_in_range by exact Hm.
    unfold JsDate.UTC, JsDate.MakeDate, JsDate.MakeTime. lia.
  - symmetry. apply andb_false_iff.
    destruct (Z.leb_spec 0 y); [|by left].
    destruct (Z.leb_spec y 99); [|by right]. lia.
Qed.

(** Local midnight on the first of a month is not after [t] exactly when the
    month is not after the local month of [t]. *)
Lemma month_start_le_iff (tzOffset y m t : Z) :
  0 <= m <= 11 ->
  JsDate.days_from_civil y m 1 * JsDate.msPerDay - tzOffset <= t <->
  12 * y + m <= 12 * JsDate.getFullYear tzOffset t + JsDate.getMonth tzOffset t.
Proof.
  intros Hm.
  pose proof (Day_of_local_fields tzOffset t) as HDay.
  pose proof (getMonth_range tzOffset t) as Hm'.
  assert (Hd' : 1 <= JsDate.getDate tzOffset t
                <= JsDate.daysInMonth (JsDate.getFullYear tzOffset t)
                     (JsDate.getMonth tzOffset t)).
  { unfold JsDate.getDate, JsDate.getFullYear, JsDate.getMonth, JsDate.DateFromTime,
      JsDate.YearFromTime, JsDate.MonthFromTime.
    pose proof (civil_from_days_valid (JsDate.Day (JsDate.LocalTime tzOffset t))) as Hv.
    destruct (JsDate.civil_from_days _) as [[y0 m0] d0]. cbn [fst snd]. tauto. }
  rewrite (days_from_civil_day _ _ (JsDate.getDate tzOffset t)) in HDay.
  set (y' := JsDate.getFullYear tzOffset t) in *.
  set (m' := JsDate.getMonth tzOffset t) in *.
  set (d' := JsDate.getDate tzOffset t) in *.
  assert (Hlt : JsDate.Day (JsDate.LocalTime tzOffset t) * JsDate.msPerDay
                <= t + tzOffset
                < (JsDate.Day (JsDate.LocalTime tzOffset t) + 1) * JsDate.msPerDay).
  { unfold JsDate.Day, JsDate.LocalTime, JsDate.msPerDay. Z.div_mod_to_equations. lia. }
  destruct (serial_split y m Hm) as [Hq Hr].
  destruct (serial_split y' m' Hm') as [Hq' Hr'].
  split.
  - intros Hle.
    destruct (Z.le_gt_cases (12 * y + m) (12 * y' + m')) as [|Hgt]; [done|exfalso].
    pose proof (first_of_month_mono (12 * y' + m' + 1) (12 * y + m - (12 * y' + m' + 1))
                  ltac:(lia)) as Hmono.
    replace (12 * y' + m' + 1 + (12 * y + m - (12 * y' + m' + 1))) with (12 * y + m)
      in Hmono by lia.
    rewrite first_of_month_step, Hq, Hr, Hq', Hr' in Hmono.
    unfold JsDate.msPerDay in *. nia.
  - intros Hle.
    pose proof (first_of_month_mono (12 * y + m) (12 * y' + m' - (12 * y + m)) ltac:(lia))
      as Hmono.
    replace (12 * y + m + (12 * y' + m' - (12 * y + m))) with (12 * y' + m') in Hmono by lia.
    rewrite Hq, Hr, Hq', Hr' in Hmono.
    unfold JsDate.msPerDay in *. nia.
Qed.

Lemma construct_le_iff (tzOffset y m t : Z) :
  ~ (0 <= y <= 99) -> 0 <= m <= 11 ->
  JsDate.construct tzOffset y m 1 <= t <->
  12 * y + m <= 12 * JsDate.getFullYear tzOffset t + JsDate.getMonth tzOffset t.
Proof.
  intros Hy Hm. rewrite construct_first_of_month by done.
  by apply month_start_le_iff.
Qed.

Ltac is_pos_numeral p :=
  lazymatch p with
  | xH => idtac
  | xO ?q => is_pos_numeral q
  | xI ?q => is_pos_numeral q
  end.

Ltac is_Z_numeral t :=
  lazymatch t with
  | Z0 => idtac
  | Zpos ?p => is_pos_numeral p
  | Zneg ?p => is_pos_numeral p
  end.

(** Evaluate the sums, quotients and remainders of numerals in the goal. *)
Ltac eval_numerals :=
  repeat match goal with
  | |- context [Z.add ?a ?b] =>
      is_Z_numeral a; is_Z_numeral b;
      let r := eval vm_compute in (Z.add a b) in change (Z.add a b) with r
  | |- context [Z.div ?a ?b] =>
      is_Z_numeral a; is_Z_numeral b;
      let r := eval vm_compute in (Z.div a b) in change (Z.div a b) with r
  | |- context [Z.modulo ?a ?b] =>
      is_Z_numeral a; is_Z_numeral b;
      let r := eval vm_compute in (Z.modulo a b) in change (Z.modulo a b) with r
  end.

(** Ten months on from the first of a month is 303 to 306 days on. *)
Lemma first_of_tenth_month (y m : Z) :
  0 <= m <= 11 ->
  303 <= JsDate.days_from_civil (y + (m + 10) / 12) ((m + 10) mod 12) 1
         - JsDate.days_from_civil y m 1 <= 306.
Proof.
  intros Hm.
  assert (Hcases : m = 0 \/ m = 1 \/ m = 2 \/ m = 3 \/ m = 4 \/ m = 5 \/ m = 6 \/
                   m = 7 \/ m = 8 \/ m = 9 \/ m = 10 \/ m = 11) by lia.
  destruct Hcases as [->|[->|[->|[->|[->|[->|[->|[->|[->|[->|[->| ->]]]]]]]]]]];
    eval_numerals;
    unfold JsDate.days_from_civil, JsDate.doe_of;
    cbn -[Z.div Z.modulo];
    Z.div_mod_to_equations; lia.
Qed.

(** When the month asked for is too short for the day of month, [setMonth]
    carries the days it lacks into the month after it. *)
Lemma local_fields_setMonth_carry (tzOffset t month : Z) :
  let '(y, m, d, time) := local_fields tzOffset t in
  JsDate.daysInMonth (y + month / 12) (month mod 12) < d ->
  local_fields tzOffset (JsDate.setMonth tzOffset t month)
  = (y + month / 12 + (month mod 12 + 1) / 12, (month mod 12 + 1) mod 12,
     d - JsDate.daysInMonth (y + month / 12) (month mod 12), time).
Proof.
  unfold local_fields at 1. intros Hd.
  assert (Hm : 0 <= month mod 12 <= 11) by (pose proof (Z.mod_pos_bound month 12); lia).
  assert (Hmax : JsDate.getDate tzOffset t <= 31).
  { pose proof (civil_from_days_valid (JsDate.Day (JsDate.LocalTime tzOffset t))) as Hv.
    unfold JsDate.getDate, JsDate.DateFromTime.
    destruct (JsDate.civil_from_days _) as [[y0 m0] d0]. cbn [fst snd] in *.
    pose proof (daysInMonth_le_31 y0 m0). lia. }
  unfold JsDate.setMonth. rewrite MakeDay_carry.
  fold (JsDate.getFullYear tzOffset t). fold (JsDate.getDate tzOffset t).
  set (y' := JsDate.getFullYear tzOffset t + month / 12) in *.
  set (m' := month mod 12) in *.
  set (d := JsDate.getDate tzOffset t) in *.
  replace (JsDate.days_from_civil y' m' d)
    with (JsDate.days_from_civil (y' + (m' + 1) / 12) ((m' + 1) mod 12)
            (d - JsDate.daysInMonth y' m')).
  - pose proof (daysInMonth_ge_28 y' m').
    pose proof (daysInMonth_ge_28 (y' + (m' + 1) / 12) ((m' + 1) mod 12)).
    apply local_fields_MakeDate.
    + pose proof (Z.mod_pos_bound (m' + 1) 12). lia.
    + lia.
    + apply Z.mod_pos_bound. unfold JsDate.msPerDay. lia.
  - rewrite (days_from_civil_day _ _ (d - JsDate.daysInMonth y' m')),
      (days_from_civil_day y' m' d), first_of_next_month by exact Hm.
    lia.
Qed.

(** From the first of February to the first of December of a year. *)
Lemma february_to_december (y : Z) :
  JsDate.days_from_civil y 11 1 - JsDate.days_from_civil y 1 1
  = if JsDate.isLeapYear y then 304 else 303.
Proof.
  unfold JsDate.days_from_civil, JsDate.doe_of. cbn -[Z.div Z.modulo].
  destruct (JsDate.isLeapYear y) eqn:Hleap.
  - apply isLeapYear_true in Hleap. Z.div_mod_to_equations. lia.
  - assert (Hn : ~ (y mod 4 = 0 /\ (y mod 100 <> 0 \/ y mod 400 = 0))).
    { intros H. apply isLeapYear_true in H. congruence. }
    Z.div_mod_to_equations. lia.
Qed.

(** The time values from local midnight on the first of the month [first]
    to local midnight on the first of the later month [last] of a year lie
    in that year, in the months [first] to [last]; before the closing
    instant they lie before the month [last]. *)
Lemma months_between_firsts (tzOffset y first last t : Z) :
  ~ (0 <= y <= 99) -> 0 <= first <= 11 -> 0 <= last <= 11 ->
  JsDate.construct tzOffset y first 1 <= t <= JsDate.construct tzOffset y last 1 ->
  JsDate.getFullYear tzOffset t = y /\
  first <= JsDate.getMonth tzOffset t <= last /\
  (t < JsDate.construct tzOffset y last 1 -> JsDate.getMonth tzOffset t < last).
Proof.
  intros Hy Hfirst Hlast [Hs He].
  pose proof (getMonth_range tzOffset t) as Hm.
  apply construct_le_iff in Hs; [|done|done].
  assert (Hupper : 12 * JsDate.getFullYear tzOffset t + JsDate.getMonth tzOffset t
                   <= 12 * y + last).
  { destruct (Z.le_gt_cases (12 * JsDate.getFullYear tzOffset t + JsDate.getMonth tzOffset t)
                (12 * y + last)) as [|Hgt]; [done|exfalso].
    rewrite construct_first_of_month in He by done.
    assert (Hnext : 12 * (y + (last + 1) / 12) + (last + 1) mod 12
                    <= 12 * JsDate.getFullYear tzOffset t + JsDate.getMonth tzOffset t)
      by (Z.div_mod_to_equations; lia).
    apply month_start_le_iff in Hnext;
      [|pose proof (Z.mod_pos_bound (last + 1) 12); lia].
    rewrite first_of_next_month in Hnext by done.
    pose proof (daysInMonth_ge_28 y last).
    unfold JsDate.msPerDay in *. nia. }
  split; [lia|]. split; [lia|].
  intros Hlt.
  destruct (Z.lt_ge_cases (JsDate.getMonth tzOffset t) last) as [|Hge]; [done|exfalso].
  assert (Hle : 12 * y + last
                <= 12 * JsDate.getFullYear tzOffset t + JsDate.getMonth tzOffset t) by lia.
  apply construct_le_iff in Hle; [lia|done|done].
Qed.

(** ** Stokvel dates *)

(** C7 (as stated, refuted): a Planning stokvel joined at noon on 31 January
    2025 in South Africa ends at noon on 1 December 2025, not in November,
    the tenth month on: November has no 31st and setMonth carries the day
    over. *)
Lemma planning_end_after_31_january :
  local_fields SAST t_2025_01_31 = (2025, 0, 31, 43200000) /\
  (let r := StokvelService.calculateStokvelDates SAST StokvelService.PLANNING
              t_2025_01_31 t_2025_01_31 t_2025_01_31 in
   StokvelService.startDate r = t_2025_01_31 /\
   local_fields SAST (StokvelService.endDate r) = (2025, 11, 1, 43200000)) /\
  ~ planning_end_in_the_tenth_month.
Proof.
  split; [vm_compute; reflexivity|].
  split; [split; vm_compute; reflexivity|].
  intros H.
  destruct (H SAST t_2025_01_31 t_2025_01_31 t_2025_01_31) as (_ & _ & Hm).
  vm_compute in Hm. discriminate Hm.
Qed.

(** C7 (amended): a January stokvel runs from local midnight of 1 February
    to local midnight of 1 December of the year the clock shows, and a
    Grocery stokvel from 1 January to 1 October of that year, for every year
    outside 0..99.  The January dates lie 303 days apart, 304 in a leap
    year; the time values from the one to the other lie in the eleven
    months February to December of that year, and only the closing instant
    lies in December.  A Planning stokvel starts at the clock reading and
    ends a whole number of days after the clock reading its end is made
    from, 303 to 306: at the same local time of day on the same day of
    month ten months on when that month has the day, and otherwise in the
    month after that, on the day numbered by the days the month lacks. *)
Theorem calculateStokvelDates_spec (tzOffset : Z) (cfg : StokvelService.typeConfig)
    (today now1 now2 : Z) :
  let year := JsDate.getFullYear tzOffset today in
  let r := StokvelService.calculateStokvelDates tzOffset cfg today now1 now2 in
  (StokvelService.tc_type cfg = "January" -> ~ (0 <= year <= 99) ->
     local_fields tzOffset (StokvelService.startDate r) = (year, 1, 1, 0) /\
     local_fields tzOffset (StokvelService.endDate r) = (year, 11, 1, 0) /\
     StokvelService.endDate r - StokvelService.startDate r
     = (if JsDate.isLeapYear year then 304 else 303) * JsDate.msPerDay /\
     (forall t : Z,
        StokvelService.startDate r <= t <= StokvelService.endDate r ->
        JsDate.getFullYear tzOffset t = year /\
        1 <= JsDate.getMonth tzOffset t <= 11 /\
        (t < StokvelService.endDate r -> JsDate.getMonth tzOffset t < 11))) /\
  (StokvelService.tc_type cfg = "Grocery" -> ~ (0 <= year <= 99) ->
     local_fields tzOffset (StokvelService.startDate r) = (year, 0, 1, 0) /\
     local_fields tzOffset (StokvelService.endDate r) = (year, 9, 1, 0)) /\
  (StokvelService.tc_type cfg = "Planning" ->
     let y := JsDate.getFullYear tzOffset now2 + (JsDate.getMonth tzOffset now2 + 10) / 12 in
     let m := (JsDate.getMonth tzOffset now2 + 10) mod 12 in
     let d := JsDate.getDate tzOffset now2 in
     let time := JsDate.TimeWithinDay (JsDate.LocalTime tzOffset now2) in
     StokvelService.startDate r = now1 /\
     (exists days : Z,
        303 <= days <= 306 /\
        StokvelService.endDate r = now2 + days * JsDate.msPerDay) /\
     (d <= JsDate.daysInMonth y m ->
      local_fields tzOffset (StokvelService.endDate r) = (y, m, d, time)) /\
     (JsDate.daysInMonth y m < d ->
      local_fields tzOffset (StokvelService.endDate r)
      = (y + (m + 1) / 12, (m + 1) mod 12, d - JsDate.daysInMonth y m, time))).
Proof.
  cbv zeta. unfold StokvelService.calculateStokvelDates.
  split; [|split].
  - intros Hty Hyear. rewrite decide_True by exact Hty.
    cbn [StokvelService.startDate StokvelService.endDate].
    split; [|split; [|split]].
    + apply local_fields_construct; [done|lia|].
      pose proof (daysInMonth_ge_28 (JsDate.getFullYear tzOffset today) 1). lia.
    + apply local_fields_construct; [done|lia|].
      pose proof (daysInMonth_ge_28 (JsDate.getFullYear tzOffset today) 11). lia.
    + rewrite !construct_first_of_month by (done || lia).
      rewrite <- february_to_december. lia.
    + intros t Ht. by apply months_between_firsts.
  - intros Hty Hyear. rewrite decide_False by (rewrite Hty; done).
    rewrite decide_True by exact Hty.
    cbn [StokvelService.startDate StokvelService.endDate].
    split.
    + apply local_fields_construct; [done|lia|].
      pose proof (daysInMonth_ge_28 (JsDate.getFullYear tzOffset today) 0). lia.
    + apply local_fields_construct; [done|lia|].
      pose proof (daysInMonth_ge_28 (JsDate.getFullYear tzOffset today) 9). lia.
  - intros Hty. rewrite !decide_False by (rewrite Hty; done).
    cbn [StokvelService.startDate StokvelService.endDate].
    split; [reflexivity|]. split; [|split].
    + rewrite setMonth_shift. eexists. split; [|reflexivity].
      apply first_of_tenth_month, getMonth_range.
    + pose proof (local_fields_setMonth tzOffset now2 (JsDate.getMonth tzOffset now2 + 10))
        as Hset.
      unfold local_fields at 1 in Hset. exact Hset.
    + pose proof (local_fields_setMonth_carry tzOffset now2
                    (JsDate.getMonth tzOffset now2 + 10)) as Hset.
      unfold local_fields at 1 in Hset. exact Hset.
Qed.

Lemma calculateStokvelDates_spec_witness :
  let r := StokvelService.calculateStokvelDates SAST StokvelService.JANUARY
             t_2025_11_02 t_2025_11_02 t_2025_11_02 in
  local_fields SAST (StokvelService.startDate r) = (2025, 1, 1, 0) /\
  local_fields SAST (StokvelService.endDate r) = (2025, 11, 1, 0) /\
  StokvelService.endDate r - StokvelService.startDate r = 303 * JsDate.msPerDay.
Proof.
  assert (Hyear : ~ (0 <= JsDate.getFullYear SAST t_2025_11_02 <= 99)).
  { vm_compute. intros [_ H]. apply H. reflexivity. }
  destruct (calculateStokvelDates_spec SAST StokvelService.JANUARY
              t_2025_11_02 t_2025_11_02 t_2025_11_02) as [Hjan _].
  destruct (Hjan eq_refl Hyear) as (Hs & He & Hspan & _).
  split; [exact Hs|]. split; [exact He | exact Hspan].
Defined.

(** The boundary example of the specification: reference year 2025. *)
Example january_2025 :
  let r := StokvelService.calculateStokvelDates 0 StokvelService.JANUARY
             t_2025_11_02 t_2025_11_02 t_2025_11_02 in
  JsDate.toISOString (StokvelService.startDate r) = "2025-02-01T00:00:00.000Z" /\
  JsDate.toISOString (StokvelService.endDate r) = "2025-12-01T00:00:00.000Z".
Proof. split; vm_compute; reflexivity. Qed.

(** Planning from 31 January: November has no 31st, the end date is
    1 December. *)
Example planning_from_jan_31 :
  let r := StokvelService.calculateStokvelDates 0 StokvelService.PLANNING
             t_2025_01_31 t_2025_01_31 t_2025_01_31 in
  JsDate.toISOString (StokvelService.startDate r) = "2025-01-31T10:00:00.000Z" /\
  JsDate.toISOString (StokvelService.endDate r) = "2025-12-01T10:00:00.000Z".
Proof. split; vm_compute; reflexivity. Qed.

(** ** Stokvel contributions *)

Lemma recordContribution_nextContributionDate (tzOffset : Z) (m : StokvelMembership.t)
    (amount : Qc) (now : Z) :
  StokvelMembership.nextContributionDate
    (StokvelMembership.recordContribution tzOffset m amount now)
  = Some (JsDate.isoDate
            (JsDate.setMonth tzOffset now (JsDate.getMonth tzOffset now + 1))).
Proof.
  unfold StokvelMembership.recordContribution.
  cbn [StokvelMembership.nextContributionDate].
  by rewrite split_T_head_toISOString.
Qed.

(** With local time equal to UTC, the date part of the ISO string shows
    the local fields. *)
Lemma isoDate_of_local_fields (t y m d time : Z) :
  local_fields 0 t = (y, m, d, time) ->
  JsDate.isoDate t
  = JsDate.isoYear y +:+ "-" +:+ JsDate.pad 2 (m + 1) +:+ "-" +:+ JsDate.pad 2 d.
Proof.
  unfold local_fields, JsDate.getFullYear, JsDate.getMonth, JsDate.getDate,
    JsDate.LocalTime.
  rewrite Z.add_0_r. intros H. injection H as Hy Hm Hd _.
  unfold JsDate.isoDate. by rewrite Hy, Hm, Hd.
Qed.

(** C8 (as stated, refuted): a contribution at noon on 31 January 2025 in
    South Africa sets the next contribution date to 3 March 2025, a date
    that is not in February; and a contribution at 01:00 on 1 March 2025
    there sets it to 31 March 2025, a date of the same month. *)
Lemma next_date_after_31_january :
  local_fields SAST t_2025_01_31 = (2025, 0, 31, 43200000) /\
  StokvelMembership.nextContributionDate
    (StokvelMembership.recordContribution SAST membership_sample (Js.ofZ 250) t_2025_01_31)
  = Some "2025-03-03" /\
  local_fields SAST t_2025_02_28_23h = (2025, 2, 1, 3600000) /\
  StokvelMembership.nextContributionDate
    (StokvelMembership.recordContribution SAST membership_sample (Js.ofZ 250) t_2025_02_28_23h)
  = Some "2025-03-31" /\
  ~ next_date_in_the_next_month.
Proof.
  split; [vm_compute; reflexivity|].
  split; [vm_compute; reflexivity|].
  split; [vm_compute; reflexivity|].
  split; [vm_compute; reflexivity|].
  intros H.
  destruct (H SAST membership_sample (Js.ofZ 250) t_2025_01_31 eq_refl) as [day Hday].
  assert (Hcode : StokvelMembership.nextContributionDate
            (StokvelMembership.recordContribution SAST membership_sample (Js.ofZ 250)
               t_2025_01_31) = Some "2025-03-03") by (vm_compute; reflexivity).
  rewrite Hcode in Hday.
  assert (Hy : JsDate.getFullYear SAST t_2025_01_31 = 2025) by (vm_compute; reflexivity).
  assert (Hm : JsDate.getMonth SAST t_2025_01_31 = 0) by (vm_compute; reflexivity).
  rewrite Hy, Hm in Hday.
  change (JsDate.isoYear (2025 + (0 + 1) / 12)) with "2025" in Hday.
  change (JsDate.pad 2 ((0 + 1) mod 12 + 1)) with "02" in Hday.
  cbn [String.append] in Hday. discriminate Hday.
Qed.

(** C8 (amended): a contribution of a positive amount adds the amount to
    the balance, adds 1 to contributionsCount and leaves every other field
    but nextContributionDate as it was.  nextContributionDate becomes the
    UTC calendar date, with no time component, of the instant one length of
    the current local month (28 to 31 days) after the clock reading.  In
    local time that instant has the time of day of the clock reading and is
    the same day of month of the next month when that month has the day,
    and otherwise the day of the month after it numbered by the days the
    next month lacks.  The date is computed from the clock reading alone:
    the previous due date and the rest of the membership play no part. *)
Theorem recordContribution_spec (tzOffset : Z) (m : StokvelMembership.t)
    (amount : Qc) (now : Z) (Hpos : (0 < amount)%Qc) :
  let m' := StokvelMembership.recordContribution tzOffset m amount now in
  let days := JsDate.daysInMonth (JsDate.getFullYear tzOffset now) (JsDate.getMonth tzOffset now) in
  let next := now + days * JsDate.msPerDay in
  let y := JsDate.getFullYear tzOffset now + (JsDate.getMonth tzOffset now + 1) / 12 in
  let mo := (JsDate.getMonth tzOffset now + 1) mod 12 in
  let d := JsDate.getDate tzOffset now in
  let time := JsDate.TimeWithinDay (JsDate.LocalTime tzOffset now) in
  StokvelMembership.balance m' = (StokvelMembership.balance m + amount)%Qc /\
  StokvelMembership.contributionsCount m' = StokvelMembership.contributionsCount m + 1 /\
  same_membership_fields m' m /\
  StokvelMembership.nextContributionDate m' = Some (JsDate.isoDate next) /\
  28 <= days <= 31 /\
  (d <= JsDate.daysInMonth y mo -> local_fields tzOffset next = (y, mo, d, time)) /\
  (JsDate.daysInMonth y mo < d ->
   local_fields tzOffset next
   = (y + (mo + 1) / 12, (mo + 1) mod 12, d - JsDate.daysInMonth y mo, time)) /\
  (forall (m2 : StokvelMembership.t) (amount2 : Qc),
     StokvelMembership.nextContributionDate
       (StokvelMembership.recordContribution tzOffset m2 amount2 now)
     = StokvelMembership.nextContributionDate m').
Proof.
  cbv zeta.
  split; [reflexivity|]. split; [reflexivity|]. split; [by repeat split|].
  rewrite <- setMonth_next.
  split; [apply recordContribution_nextContributionDate|].
  split; [split; [apply daysInMonth_ge_28 | apply daysInMonth_le_31]|].
  split; [|split].
  - pose proof (local_fields_setMonth tzOffset now (JsDate.getMonth tzOffset now + 1)) as Hset.
    unfold local_fields at 1 in Hset. exact Hset.
  - pose proof (local_fields_setMonth_carry tzOffset now (JsDate.getMonth tzOffset now + 1))
      as Hset.
    unfold local_fields at 1 in Hset. exact Hset.
  - intros m2 amount2. by rewrite !recordContribution_nextContributionDate.
Qed.

Lemma recordContribution_spec_witness :
  let m' := StokvelMembership.recordContribution SAST membership_sample (Js.ofZ 250) t_2025_11_02 in
  StokvelMembership.balance m' = Js.ofZ 750 /\
  StokvelMembership.contributionsCount m' = 3 /\
  StokvelMembership.nextContributionDate m' = Some "2025-12-02".
Proof.
  assert (Hpos : (0 < Js.ofZ 250)%Qc) by reflexivity.
  destruct (recordContribution_spec SAST membership_sample (Js.ofZ 250) t_2025_11_02 Hpos)
    as (Hb & Hc & _ & Hn & _).
  split; [|split].
  - rewrite Hb. apply Qc_is_canon. vm_compute. reflexivity.
  - rewrite Hc. reflexivity.
  - rewrite Hn. vm_compute. reflexivity.
Defined.

(** A contribution on 31 January 2025: February has no 31st, the next
    contribution date is 3 March, and the overdue date of 1 January plays no
    part. *)
Example contribution_on_jan_31 :
  StokvelMembership.nextContributionDate
    (StokvelMembership.recordContribution 0 membership_sample (Js.ofZ 250) t_2025_01_31)
  = Some "2025-03-03".
Proof. vm_compute. reflexivity. Qed.

(** The date part is taken in UTC.  At 01:00 on 1 March in South Africa the
    clock moved on by a month reads 01:00 on 1 April there, still 31 March
    in UTC, and 31 March is the date stored. *)
Example contribution_early_morning_SAST :
  local_fields SAST t_2025_02_28_23h = (2025, 2, 1, 3600000) /\
  local_fields SAST (JsDate.setMonth SAST t_2025_02_28_23h
                       (JsDate.getMonth SAST t_2025_02_28_23h + 1))
  = (2025, 3, 1, 3600000) /\
  StokvelMembership.nextContributionDate
    (StokvelMembership.recordContribution SAST membership_sample (Js.ofZ 250) t_2025_02_28_23h)
  = Some "2025-03-31".
Proof. repeat split; vm_compute; reflexivity. Qed.

(** ** Worked examples of the specification *)

Example discount_examples :
  User.calculateDiscount (User.mk (Js.ofZ 12000) false) = Js.ofZ 25 /\
  User.calculateDiscount (User.mk (Js.ofZ 12000) true) = Js.ofZ 30 /\
  User.calculateDiscount (User.mk (Js.ofZ 3000) true) = Js.ofZ 0 /\
  User.calculateDiscount (User.mk (Js.ofZ 5000) false) = Js.ofZ 10.
Proof. repeat split. Qed.

Example totals_example :
  Order.calculateTotals cart_sample (Js.ofZ 10)
  = Order.mkTotals (Js.ofZ 250) (Js.ofZ 25) (Js.ofZ 225).
Proof. unfold Order.calculateTotals. f_equal; qc_eval. Qed.

(** * Further properties of the code *)

(** Order and equality goals between rationals, carried to [Q]. *)
Ltac qc_to_q :=
  unfold Js.ofZ, Js.lit in *;
  repeat match goal with
  | H : @eq Qc _ _ |- _ => apply (f_equal this) in H
  end;
  try apply Qc_is_canon;
  repeat (progress (unfold Qcle, Qclt, Qcplus, Qcmult, Qcminus, Qcopp, Qcdiv, Qcinv, Q2Qc in *;
                    cbn [this] in *));
  repeat match goal with
  | H : context [Qred _] |- _ => rewrite Qred_correct in H
  | |- context [Qred _] => rewrite Qred_correct
  end;
  unfold inject_Z in *.

(** ** Sequences of loan payments *)

Lemma recordPayment_paid (l : Loan.t) (amount : Qc) :
  (Loan.totalRepayment l - (Loan.amountPaid l + amount) <= 0)%Qc ->
  Loan.recordPayment l amount
  = Loan.set_remainingBalance 0%Qc
      (Loan.set_status "paid" (Loan.set_amountPaid (Loan.amountPaid l + amount)%Qc l)).
Proof.
  intros H. unfold Loan.recordPayment, Loan.calculateRemainingBalance.
  cbn [Loan.remainingBalance Loan.set_remainingBalance Loan.set_amountPaid
       Loan.totalRepayment Loan.amountPaid].
  by rewrite (proj2 (leb_true _ _) H).
Qed.

Lemma recordPayment_owing (l : Loan.t) (amount : Qc) :
  (0 < Loan.totalRepayment l - (Loan.amountPaid l + amount))%Qc ->
  Loan.recordPayment l amount
  = Loan.set_remainingBalance (Loan.totalRepayment l - (Loan.amountPaid l + amount))%Qc
      (Loan.set_amountPaid (Loan.amountPaid l + amount)%Qc l).
Proof.
  intros H. unfold Loan.recordPayment, Loan.calculateRemainingBalance.
  cbn [Loan.remainingBalance Loan.set_remainingBalance Loan.set_amountPaid
       Loan.totalRepayment Loan.amountPaid].
  by rewrite (proj2 (leb_false _ _) H).
Qed.

(** Two payments in a row, the second not negative, leave the loan exactly
    as one payment of their sum does. *)
Lemma recordPayment_twice (l : Loan.t) (a b : Qc) (Hb : (0 <= b)%Qc) :
  Loan.recordPayment (Loan.recordPayment l a) b = Loan.recordPayment l (a + b)%Qc.
Proof.
  assert (Hassoc : (Loan.amountPaid l + a + b)%Qc = (Loan.amountPaid l + (a + b))%Qc) by ring.
  destruct (Qclt_le_dec 0%Qc (Loan.totalRepayment l - (Loan.amountPaid l + a))%Qc) as [Ha|Ha].
  - rewrite (recordPayment_owing l a Ha).
    destruct (Qclt_le_dec 0%Qc (Loan.totalRepayment l - (Loan.amountPaid l + (a + b)))%Qc)
      as [Hab|Hab].
    + rewrite (recordPayment_owing l (a + b) Hab).
      rewrite recordPayment_owing;
        cbn [Loan.totalRepayment Loan.amountPaid Loan.set_remainingBalance Loan.set_amountPaid];
        rewrite Hassoc; [|exact Hab].
      destruct l; reflexivity.
    + rewrite (recordPayment_paid l (a + b) Hab).
      rewrite recordPayment_paid;
        cbn [Loan.totalRepayment Loan.amountPaid Loan.set_remainingBalance Loan.set_amountPaid];
        rewrite Hassoc; [|exact Hab].
      destruct l; reflexivity.
  - assert (Hab : (Loan.totalRepayment l - (Loan.amountPaid l + (a + b)) <= 0)%Qc).
    { clear Hassoc. qc_to_q. lra. }
    rewrite (recordPayment_paid l a Ha), (recordPayment_paid l (a + b) Hab).
    rewrite recordPayment_paid;
      cbn [Loan.totalRepayment Loan.amountPaid Loan.set_remainingBalance
           Loan.set_amountPaid Loan.set_status];
      rewrite Hassoc; [|exact Hab].
    destruct l; reflexivity.
Qed.

Lemma fold_left_step {A B : Type} (f : A -> B -> A) (b : B) (bs : list B) (x : A) :
  fold_left f (b :: bs) x = fold_left f bs (f x b).
Proof. reflexivity. Qed.

Lemma sum_of_cons (b : Qc) (bs : list Qc) : sum_of (b :: bs) = (b + sum_of bs)%Qc.
Proof. reflexivity. Qed.

Lemma recordPayment_fold (l : Loan.t) (a : Qc) (bs : list Qc) :
  Forall (fun b => (0 <= b)%Qc) bs ->
  fold_left Loan.recordPayment bs (Loan.recordPayment l a)
  = Loan.recordPayment l (a + sum_of bs)%Qc.
Proof.
  intros Hbs. revert a. induction Hbs as [|b bs Hb _ IH]; intros a.
  - change (sum_of []) with 0%Qc. rewrite Qcplus_0_r. reflexivity.
  - rewrite sum_of_cons, fold_left_step.
    rewrite (recordPayment_twice l a b Hb), IH.
    by rewrite Qcplus_assoc.
Qed.

Lemma sum_of_nonneg (bs : list Qc) :
  Forall (fun b => (0 <= b)%Qc) bs -> (0 <= sum_of bs)%Qc.
Proof.
  induction 1 as [|b bs Hb _ IH]; [done|].
  cbn [sum_of fold_right]. by apply Qcplus_nonneg_nonneg.
Qed.

(** X2: once a payment has brought the remaining balance to 0, the loan
    stays paid with balance 0 under every further run of payments that are
    not negative. *)
Theorem paid_loan_stays_paid (l : Loan.t) (a : Qc) (bs : list Qc)
    (Hzero : Loan.remainingBalance (Loan.recordPayment l a) = 0%Qc)
    (Hbs : Forall (fun b => (0 <= b)%Qc) bs) :
  let l' := fold_left Loan.recordPayment bs (Loan.recordPayment l a) in
  Loan.status l' = "paid" /\ Loan.remainingBalance l' = 0%Qc.
Proof.
  cbv zeta. rewrite (recordPayment_fold l a bs Hbs).
  pose proof (sum_of_nonneg bs Hbs) as Hsum.
  assert (Ha : (Loan.totalRepayment l - (Loan.amountPaid l + a) <= 0)%Qc).
  { destruct (Qclt_le_dec 0%Qc (Loan.totalRepayment l - (Loan.amountPaid l + a))%Qc)
      as [Hlt|Hle]; [|exact Hle].
    rewrite (recordPayment_owing l a Hlt) in Hzero.
    cbn [Loan.remainingBalance Loan.set_remainingBalance] in Hzero.
    rewrite Hzero in Hlt. exfalso. exact (Qclt_not_le _ _ Hlt (Qcle_refl _)). }
  rewrite recordPayment_paid; [by split|].
  qc_to_q. lra.
Qed.

Lemma paid_loan_stays_paid_witness :
  let l' := fold_left Loan.recordPayment [Js.ofZ 10; Js.ofZ 0]
              (Loan.recordPayment loan_1000_2 (Js.ofZ 2000)) in
  Loan.status l' = "paid" /\ Loan.remainingBalance l' = 0%Qc.
Proof.
  apply (paid_loan_stays_paid loan_1000_2 (Js.ofZ 2000) [Js.ofZ 10; Js.ofZ 0]).
  - reflexivity.
  - by repeat constructor.
Defined.

(** X3: after any payment, a further payment that is not negative never
    raises the remaining balance and never lowers the amount paid, and the
    balance it leaves is not negative. *)
Theorem balance_never_grows (l : Loan.t) (a b : Qc) (Hb : (0 <= b)%Qc) :
  let l1 := Loan.recordPayment l a in
  let l2 := Loan.recordPayment l1 b in
  (Loan.remainingBalance l2 <= Loan.remainingBalance l1)%Qc /\
  (0 <= Loan.remainingBalance l2)%Qc /\
  (Loan.amountPaid l1 <= Loan.amountPaid l2)%Qc.
Proof.
  cbv zeta.
  destruct (recordPayment_fields l a) as (_ & Hbal1 & _ & _ & _ & Hsame).
  destruct (recordPayment_fields (Loan.recordPayment l a) b) as (Hpaid2 & Hbal2 & _).
  cbv zeta in Hbal1, Hbal2, Hpaid2.
  destruct Hsame as (_ & _ & _ & _ & _ & _ & _ & _ & _ & _ & _ & Htot & _).
  rewrite Htot in Hbal2. rewrite Hbal2, Hbal1, Hpaid2.
  set (T := Loan.totalRepayment l).
  set (p := Loan.amountPaid (Loan.recordPayment l a)).
  assert (Hpos : forall x : Qc, (0 <= Js.max 0%Qc x)%Qc).
  { intros x. destruct (Qclt_le_dec 0%Qc x) as [Hlt|Hle].
    - rewrite max_zero_r; by apply Qclt_le_weak.
    - by rewrite max_zero_l. }
  split; [|split; [apply Hpos|]].
  - destruct (Qclt_le_dec 0%Qc (T - (p + b))%Qc) as [Hlt|Hle].
    + rewrite !max_zero_r; [| |by apply Qclt_le_weak].
      * clear -Hb. qc_to_q. lra.
      * clear -Hb Hlt. qc_to_q. lra.
    + rewrite (max_zero_l (T - (p + b))%Qc) by exact Hle. apply Hpos.
  - clear -Hb. qc_to_q. lra.
Qed.

Lemma balance_never_grows_witness :
  let l1 := Loan.recordPayment loan_1000_2 (Js.ofZ 400) in
  let l2 := Loan.recordPayment l1 (Js.ofZ 300) in
  (Loan.remainingBalance l2 <= Loan.remainingBalance l1)%Qc /\
  (0 <= Loan.remainingBalance l2)%Qc /\
  (Loan.amountPaid l1 <= Loan.amountPaid l2)%Qc.
Proof.
  apply (balance_never_grows loan_1000_2 (Js.ofZ 400) (Js.ofZ 300)). done.
Defined.

(** ** The discount tiers *)

Lemma calculateDiscount_values (savings : Qc) (cover : bool) :
  let r := User.calculateDiscount (User.mk savings cover) in
  r = Js.ofZ 0 \/ r = Js.ofZ 10 \/ r = Js.ofZ 20 \/ r = Js.ofZ 25 \/ r = Js.ofZ 30.
Proof.
  cbv zeta. unfold User.calculateDiscount. cbn [User.funeralCover User.savingsTotal].
  destruct cover; cbn [negb];
    destruct (Js.geb savings (Js.ofZ 10000)); destruct (Js.geb savings (Js.ofZ 5000));
    tauto.
Qed.

Lemma calculateDiscount_range (savings : Qc) (cover : bool) :
  (0 <= User.calculateDiscount (User.mk savings cover) <= Js.ofZ 30)%Qc.
Proof.
  pose proof (calculateDiscount_values savings cover) as H. cbv zeta in H.
  destruct H as [H|[H|[H|[H|H]]]]; rewrite H; split; apply Qle_bool_imp_le; reflexivity.
Qed.

(** X4: the discount never falls when the savings grow, is never lower with
    funeral cover than without, and always lies between 0 and 30. *)
Theorem calculateDiscount_monotone (s1 s2 : Qc) (cover : bool) (Hle : (s1 <= s2)%Qc) :
  (User.calculateDiscount (User.mk s1 cover) <= User.calculateDiscount (User.mk s2 cover))%Qc /\
  (User.calculateDiscount (User.mk s1 false) <= User.calculateDiscount (User.mk s1 true))%Qc /\
  (0 <= User.calculateDiscount (User.mk s1 cover) <= Js.ofZ 30)%Qc.
Proof.
  unfold User.calculateDiscount. cbn [User.funeralCover User.savingsTotal negb].
  destruct (Js.geb s1 (Js.ofZ 10000)) eqn:E1;
    [apply geb_true in E1 | apply geb_false in E1];
  (destruct (Js.geb s1 (Js.ofZ 5000)) eqn:E2;
    [apply geb_true in E2 | apply geb_false in E2]);
  (destruct (Js.geb s2 (Js.ofZ 10000)) eqn:E3;
    [apply geb_true in E3 | apply geb_false in E3]);
  (destruct (Js.geb s2 (Js.ofZ 5000)) eqn:E4;
    [apply geb_true in E4 | apply geb_false in E4]);
  destruct cover; cbn [negb];
  repeat split; try done;
  exfalso; clear -Hle E1 E2 E3 E4; qc_to_q; lra.
Qed.

Lemma calculateDiscount_monotone_witness :
  (User.calculateDiscount (User.mk (Js.ofZ 4000) true)
   <= User.calculateDiscount (User.mk (Js.ofZ 6000) true))%Qc.
Proof.
  apply (calculateDiscount_monotone (Js.ofZ 4000) (Js.ofZ 6000) true). done.
Defined.

(** ** Order totals of a member *)

(** X7: with the discount that calculateDiscount gives any member, valid
    items are never charged less than 70% of the subtotal and never more
    than the subtotal. *)
Theorem member_total_bounds (items : list CartItem.t) (savings : Qc) (cover : bool)
    (Hvalid : Forall valid_item items) :
  let r := Order.calculateTotals items (User.calculateDiscount (User.mk savings cover)) in
  (0 <= Order.discount r)%Qc /\
  (Js.lit 7 10 * Order.subtotal r <= Order.total r)%Qc /\
  (Order.total r <= Order.subtotal r)%Qc.
Proof.
  cbv zeta.
  destruct (calculateDiscount_range savings cover) as [Hd0 Hd30].
  apply sum_of_item_totals_nonneg in Hvalid.
  unfold Order.calculateTotals. cbn [Order.subtotal Order.discount Order.total].
  rewrite fold_left_item_totals.
  generalize dependent (User.calculateDiscount (User.mk savings cover)). intros d Hd0 Hd30.
  generalize dependent (sum_of_item_totals items). intros s Hs.
  replace (0 + s)%Qc with s by ring.
  assert (Hinv : (/ Js.ofZ 100)%Qc = Js.lit 1 100) by qc_eval.
  unfold Qcdiv. rewrite Hinv. clear Hinv.
  repeat split; qc_to_q; nra.
Qed.

Lemma member_total_bounds_witness :
  let r := Order.calculateTotals cart_sample
             (User.calculateDiscount (User.mk (Js.ofZ 12000) true)) in
  (Js.lit 7 10 * Order.subtotal r <= Order.total r)%Qc /\
  (Order.total r <= Order.subtotal r)%Qc.
Proof.
  assert (Hvalid : Forall valid_item cart_sample)
    by (repeat constructor; done).
  destruct (member_total_bounds cart_sample (Js.ofZ 12000) true Hvalid) as (_ & H1 & H2).
  split; assumption.
Defined.

(** ** The premium and its add-on keys *)

Lemma add_price_comm (t : JsNumber) (x y : option Qc) :
  FuneralCoverPlan.add_price (FuneralCoverPlan.add_price t x) y
  = FuneralCoverPlan.add_price (FuneralCoverPlan.add_price t y) x.
Proof.
  destruct t as [t|], x as [x|], y as [y|]; cbn; try reflexivity.
  f_equal. ring.
Qed.

Lemma add_benefit_comm (t : JsNumber) (k1 k2 : string) :
  FuneralCoverPlan.add_benefit (FuneralCoverPlan.add_benefit t k1) k2
  = FuneralCoverPlan.add_benefit (FuneralCoverPlan.add_benefit t k2) k1.
Proof.
  unfold FuneralCoverPlan.add_benefit.
  destruct (js_get FuneralCoverPlan.ADDITIONAL_BENEFITS k1),
    (js_get FuneralCoverPlan.ADDITIONAL_BENEFITS k2);
    try reflexivity; apply add_price_comm.
Qed.

Lemma add_benefit_fold_perm (ks ks' : list string) :
  Permutation ks ks' ->
  forall t, fold_left FuneralCoverPlan.add_benefit ks t
            = fold_left FuneralCoverPlan.add_benefit ks' t.
Proof.
  induction 1 as [|k ks ks' _ IH|k1 k2 ks|ks1 ks2 ks3 _ IH1 _ IH2]; intros t.
  - reflexivity.
  - cbn [fold_left]. apply IH.
  - cbn [fold_left]. by rewrite add_benefit_comm.
  - by rewrite IH1, IH2.
Qed.

(** X8: the premium does not depend on the order in which the add-on keys
    are listed. *)
Theorem calculatePremium_order (planId : string) (ks ks' : list string)
    (Hperm : Permutation ks ks') :
  FuneralCoverPlan.calculatePremium planId ks = FuneralCoverPlan.calculatePremium planId ks'.
Proof.
  unfold FuneralCoverPlan.calculatePremium.
  destruct (FuneralCoverPlan.getPlan planId); [|reflexivity].
  by apply add_benefit_fold_perm.
Qed.

Lemma calculatePremium_order_witness :
  FuneralCoverPlan.calculatePremium "family" ["CHAIRS"; "CATERING"; "CHAIRS"]
  = FuneralCoverPlan.calculatePremium "family" ["CATERING"; "CHAIRS"; "CHAIRS"].
Proof.
  apply calculatePremium_order. apply perm_swap.
Defined.

Lemma prototype_keys_not_benefits (key : string) :
  key ∈ Object_prototype_keys -> FuneralCoverPlan.ADDITIONAL_BENEFITS !! key = None.
Proof.
  intros Hin.
  assert (Hall : Forall (fun k => FuneralCoverPlan.ADDITIONAL_BENEFITS !! k = None)
                   Object_prototype_keys).
  { unfold Object_prototype_keys. repeat constructor. }
  rewrite Forall_forall in Hall. by apply Hall.
Qed.

Lemma add_benefit_NaN (ks : list string) :
  fold_left FuneralCoverPlan.add_benefit ks NaN = NaN.
Proof.
  induction ks as [|k ks IH]; [reflexivity|].
  cbn [fold_left]. unfold FuneralCoverPlan.add_benefit at 2.
  destruct (js_get FuneralCoverPlan.ADDITIONAL_BENEFITS k); exact IH.
Qed.

Lemma add_benefit_inherited (ks : list string) (total : JsNumber) :
  Exists (fun key => key ∈ Object_prototype_keys) ks ->
  fold_left FuneralCoverPlan.add_benefit ks total = NaN.
Proof.
  intros Hex. revert total. induction Hex as [k ks Hk|k ks _ IH]; intros total.
  - cbn [fold_left]. unfold FuneralCoverPlan.add_benefit at 2, js_get.
    rewrite (prototype_keys_not_benefits k Hk), bool_decide_eq_true_2 by exact Hk.
    destruct total; apply add_benefit_NaN.
  - cbn [fold_left]. apply IH.
Qed.

Lemma sum_of_recognized_nonneg (ks : list string) : (0 <= sum_of_recognized ks)%Qc.
Proof.
  induction ks as [|k ks IH]; [done|].
  cbn [sum_of_recognized fold_right]. fold (sum_of_recognized ks).
  destruct (FuneralCoverPlan.ADDITIONAL_BENEFITS !! k) as [b|] eqn:E; [|exact IH].
  apply Qcplus_nonneg_nonneg; [|exact IH].
  assert (Hall : map_Forall (fun _ b => (0 <= FuneralCoverPlan.b_price b)%Qc)
                   FuneralCoverPlan.ADDITIONAL_BENEFITS).
  { unfold FuneralCoverPlan.ADDITIONAL_BENEFITS.
    repeat (apply map_Forall_insert_2; [done|]). apply map_Forall_empty. }
  exact (Hall k b E).
Qed.

(** X9: for a known plan the premium is NaN exactly when some key names a
    property of [Object.prototype]; otherwise it is the plan's price plus the
    price of every occurrence of a recognized key, so never below the plan's
    price, and a key listed twice is charged twice. *)
Theorem calculatePremium_cases (planId : string) (plan : FuneralCoverPlan.plan)
    (ks : list string) (Hplan : FuneralCoverPlan.getPlan planId = Some plan) :
  (Exists (fun key => key ∈ Object_prototype_keys) ks ->
   FuneralCoverPlan.calculatePremium planId ks = NaN) /\
  (Forall (fun key => key ∉ Object_prototype_keys) ks ->
   FuneralCoverPlan.calculatePremium planId ks
   = Num (FuneralCoverPlan.price plan + sum_of_recognized ks)%Qc /\
   (FuneralCoverPlan.price plan <= FuneralCoverPlan.price plan + sum_of_recognized ks)%Qc /\
   forall (key : string) (b : FuneralCoverPlan.benefit),
     FuneralCoverPlan.ADDITIONAL_BENEFITS !! key = Some b ->
     FuneralCoverPlan.calculatePremium planId (key :: key :: ks)
     = Num (FuneralCoverPlan.price plan + sum_of_recognized ks
            + FuneralCoverPlan.b_price b + FuneralCoverPlan.b_price b)%Qc).
Proof.
  split.
  - intros Hex. unfold FuneralCoverPlan.calculatePremium. rewrite Hplan.
    by apply add_benefit_inherited.
  - intros Hown. split; [|split].
    + rewrite (calculatePremium_own_keys planId ks Hown). by rewrite Hplan.
    + pose proof (sum_of_recognized_nonneg ks) as Hs. clear -Hs. qc_to_q. lra.
    + intros key b Hb.
      assert (Hkey : key ∉ Object_prototype_keys).
      { intros Hin. rewrite (prototype_keys_not_benefits key Hin) in Hb. discriminate. }
      rewrite (calculatePremium_own_keys planId (key :: key :: ks)) by (by repeat constructor).
      rewrite Hplan. cbn [sum_of_recognized fold_right]. fold (sum_of_recognized ks).
      rewrite Hb. f_equal. ring.
Qed.

Lemma calculatePremium_cases_witness :
  FuneralCoverPlan.calculatePremium "extended" ["FRIDGE"; "toString"] = NaN /\
  FuneralCoverPlan.calculatePremium "extended" ["FRIDGE"; "FRIDGE"]
  = Num (FuneralCoverPlan.price FuneralCoverPlan.EXTENDED + sum_of_recognized []
         + Js.ofZ 35 + Js.ofZ 35)%Qc.
Proof.
  destruct (calculatePremium_cases "extended" FuneralCoverPlan.EXTENDED ["FRIDGE"; "toString"]
              eq_refl) as [Hnan _].
  destruct (calculatePremium_cases "extended" FuneralCoverPlan.EXTENDED [] eq_refl)
    as [_ Hown].
  split.
  - apply Hnan. apply Exists_cons_tl, Exists_cons_hd.
    apply (bool_decide_unpack _). vm_compute. exact I.
  - destruct (Hown (List.Forall_nil _)) as (_ & _ & Htwice).
    exact (Htwice "FRIDGE" (FuneralCoverPlan.mkBenefit "Mobile Fridge" (Js.ofZ 35)) eq_refl).
Defined.

(** ** How far setMonth moves the clock *)

(** X10: the next contribution date is the UTC date of the instant exactly
    one length of the current local month after the contribution, 28 to 31
    days on, whatever the day of month. *)
Theorem next_contribution_is_a_month_length_on (tzOffset : Z) (m : StokvelMembership.t)
    (amount : Qc) (now : Z) :
  let days := JsDate.daysInMonth (JsDate.getFullYear tzOffset now) (JsDate.getMonth tzOffset now) in
  StokvelMembership.nextContributionDate
    (StokvelMembership.recordContribution tzOffset m amount now)
  = Some (JsDate.isoDate (now + days * JsDate.msPerDay)) /\
  StokvelService.calculateNextContributionDate tzOffset now
  = JsDate.isoDate (now + days * JsDate.msPerDay) /\
  28 <= days <= 31.
Proof.
  cbv zeta.
  assert (Hshift : JsDate.setMonth tzOffset now (JsDate.getMonth tzOffset now + 1)
                   = now + JsDate.daysInMonth (JsDate.getFullYear tzOffset now)
                             (JsDate.getMonth tzOffset now) * JsDate.msPerDay).
  { rewrite setMonth_shift, first_of_next_month by apply getMonth_range. lia. }
  split; [|split].
  - by rewrite recordContribution_nextContributionDate, Hshift.
  - unfold StokvelService.calculateNextContributionDate.
    by rewrite split_T_head_toISOString, Hshift.
  - split; [apply daysInMonth_ge_28 | apply daysInMonth_le_31].
Qed.

(** X11: a Planning stokvel ends a whole number of days after the clock
    reading its end date is made from: between 303 and 306 days. *)
Theorem planning_end_is_303_to_306_days_on (tzOffset : Z) (cfg : StokvelService.typeConfig)
    (today now1 now2 : Z)
    (Hjan : StokvelService.tc_type cfg <> "January")
    (Hgro : StokvelService.tc_type cfg <> "Grocery") :
  let r := StokvelService.calculateStokvelDates tzOffset cfg today now1 now2 in
  exists days : Z,
    StokvelService.endDate r = now2 + days * JsDate.msPerDay /\ 303 <= days <= 306.
Proof.
  cbv zeta. unfold StokvelService.calculateStokvelDates.
  rewrite !decide_False by assumption. cbn [StokvelService.endDate].
  rewrite setMonth_shift.
  eexists. split; [reflexivity|].
  apply first_of_tenth_month, getMonth_range.
Qed.

Lemma planning_end_is_303_to_306_days_on_witness :
  exists days : Z,
    StokvelService.endDate
      (StokvelService.calculateStokvelDates SAST StokvelService.PLANNING
         t_2025_11_02 t_2025_11_02 t_2025_11_02)
    = t_2025_11_02 + days * JsDate.msPerDay /\ 303 <= days <= 306.
Proof.
  apply (planning_end_is_303_to_306_days_on SAST StokvelService.PLANNING); done.
Defined.

(** X12: a January stokvel runs 303 days, 304 when February has 29, and a
    Grocery stokvel 273 days, 274 when February has 29; the year meant is the
    one the dates are built for. *)
Theorem fixed_stokvel_spans (tzOffset : Z) (cfg : StokvelService.typeConfig)
    (today now1 now2 : Z) :
  let year := JsDate.getFullYear tzOffset today in
  let yr := if (0 <=? year) && (year <=? 99) then 1900 + year else year in
  let leap := if JsDate.isLeapYear yr then 1 else 0 in
  let r := StokvelService.calculateStokvelDates tzOffset cfg today now1 now2 in
  (StokvelService.tc_type cfg = "January" ->
   StokvelService.endDate r - StokvelService.startDate r = (303 + leap) * JsDate.msPerDay) /\
  (StokvelService.tc_type cfg = "Grocery" ->
   StokvelService.endDate r - StokvelService.startDate r = (273 + leap) * JsDate.msPerDay).
Proof.
  cbv zeta. unfold StokvelService.calculateStokvelDates, JsDate.construct.
  set (yr := if (0 <=? JsDate.getFullYear tzOffset today)
                && (JsDate.getFullYear tzOffset today <=? 99)
             then 1900 + JsDate.getFullYear tzOffset today
             else JsDate.getFullYear tzOffset today).
  assert (Hjan : JsDate.days_from_civil yr 11 1 - JsDate.days_from_civil yr 1 1
                 = 303 + (if JsDate.isLeapYear yr then 1 else 0)).
  { clearbody yr. unfold JsDate.days_from_civil, JsDate.doe_of. cbn -[Z.div Z.modulo].
    destruct (JsDate.isLeapYear yr) eqn:Hleap.
    - apply isLeapYear_true in Hleap. Z.div_mod_to_equations. lia.
    - assert (Hn : ~ (yr mod 4 = 0 /\ (yr mod 100 <> 0 \/ yr mod 400 = 0))).
      { intros H. apply isLeapYear_true in H. congruence. }
      Z.div_mod_to_equations. lia. }
  assert (Hgro : JsDate.days_from_civil yr 9 1 - JsDate.days_from_civil yr 0 1
                 = 273 + (if JsDate.isLeapYear yr then 1 else 0)).
  { clearbody yr. unfold JsDate.days_from_civil, JsDate.doe_of. cbn -[Z.div Z.modulo].
    destruct (JsDate.isLeapYear yr) eqn:Hleap.
    - apply isLeapYear_true in Hleap. Z.div_mod_to_equations. lia.
    - assert (Hn : ~ (yr mod 4 = 0 /\ (yr mod 100 <> 0 \/ yr mod 400 = 0))).
      { intros H. apply isLeapYear_true in H. congruence. }
      Z.div_mod_to_equations. lia. }
  split; intros Hty.
  - rewrite decide_True by exact Hty.
    cbn [StokvelService.startDate StokvelService.endDate].
    rewrite !MakeDay_in_range by lia.
    unfold JsDate.UTC, JsDate.MakeDate. lia.
  - rewrite decide_False by (rewrite Hty; done). rewrite decide_True by exact Hty.
    cbn [StokvelService.startDate StokvelService.endDate].
    rewrite !MakeDay_in_range by lia.
    unfold JsDate.UTC, JsDate.MakeDate. lia.
Qed.

(** ** The life of a loan application *)

Lemma or_num_zero (x : Qc) : LoanRepository.or_num x 0%Qc = x.
Proof. unfold LoanRepository.or_num. by destruct (Qc_eq_dec x 0%Qc) as [->|]. Qed.

Lemma or_num_nonzero (x d : Qc) : x <> 0%Qc -> LoanRepository.or_num x d = x.
Proof. intros H. unfold LoanRepository.or_num. by destruct (Qc_eq_dec x 0%Qc). Qed.

Lemma valid_amount_positive (amount : Qc) :
  In amount LoanService.validAmounts -> (0 < amount)%Qc.
Proof.
  unfold LoanService.validAmounts. cbn [In].
  intros [<-|[<-|[<-|[<-|[]]]]]; reflexivity.
Qed.

Lemma valid_term_positive (term : Qc) :
  In term LoanService.validTerms -> (0 < term)%Qc.
Proof.
  unfold LoanService.validTerms. cbn [In].
  intros [<-|[<-|[<-|[]]]]; reflexivity.
Qed.

Lemma includes_In (xs : list Qc) (x : Qc) :
  LoanService.includes xs x = true <-> In x xs.
Proof.
  unfold LoanService.includes. rewrite existsb_exists. split.
  - intros (y & Hin & Heq). apply bool_decide_eq_true in Heq. by subst.
  - intros Hin. exists x. split; [done|]. by apply bool_decide_eq_true.
Qed.

Lemma validateLoanApplication_valid (amount term : Qc) :
  In amount LoanService.validAmounts -> In term LoanService.validTerms ->
  LoanService.validateLoanApplication amount term = LoanService.Valid.
Proof.
  intros Ha Ht. unfold LoanService.validateLoanApplication.
  apply includes_In in Ha, Ht. by rewrite Ha, Ht.
Qed.

Lemma quote_total_positive (amount : Qc) :
  (0 < amount)%Qc ->
  (0 < amount + amount * Js.lit 45 1000 + Js.lit 5226 100 + amount * Js.lit 15 100)%Qc.
Proof. intros H. qc_to_q. lra. Qed.

(** The loan that [createLoan] stores for a positive amount and term. *)
Lemma application_fields (userId purpose : string) (amount term : Qc) (now : Z) :
  (0 < amount)%Qc -> (0 < term)%Qc ->
  LoanRepository.application userId amount term purpose now =
  Loan.mk None userId amount term purpose "pending" now None None (Js.ofZ 5)
    (amount * Js.lit 15 100)%Qc (Js.lit 5226 100)
    (amount + amount * Js.lit 45 1000 + Js.lit 5226 100 + amount * Js.lit 15 100)%Qc
    ((amount + amount * Js.lit 45 1000 + Js.lit 5226 100 + amount * Js.lit 15 100) / term)%Qc
    0%Qc 0%Qc.
Proof.
  intros Ha Ht. unfold LoanRepository.application, Loan.calculateLoanDetails.
  cbn [Loan.d_term Loan.d_initiationFee Loan.d_serviceFee Loan.d_totalRepayment
       Loan.d_monthlyRepayment].
  pose proof (quote_total_positive amount Ha) as Htot.
  rewrite or_num_zero.
  rewrite (or_num_nonzero term) by (intros ->; by apply Qclt_not_le in Ht; apply Ht).
  rewrite (or_num_zero (amount * Js.lit 15 100)).
  rewrite (or_num_nonzero (Js.lit 5226 100)) by done.
  rewrite or_num_zero, or_num_zero.
  reflexivity.
Qed.

(** Reading a document back changes nothing but the id when none of the
    fields with a non-zero default is zero or empty. *)
Lemma fromFirestore_filled (docId : string) (d : Loan.t) :
  Loan.term d <> 0%Qc -> Loan.status d <> "" ->
  Loan.interestRate d <> 0%Qc -> Loan.serviceFee d <> 0%Qc ->
  LoanRepository.fromFirestore docId d =
  Loan.mk (if decide (docId = "") then None else Some docId)
     (Loan.userId d) (Loan.amount d) (Loan.term d) (Loan.purpose d) (Loan.status d)
     (Loan.applicationDate d) (Loan.approvalDate d) (Loan.disbursementDate d)
     (Loan.interestRate d) (Loan.initiationFee d) (Loan.serviceFee d)
     (Loan.totalRepayment d) (Loan.monthlyRepayment d) (Loan.amountPaid d)
     (Loan.remainingBalance d).
Proof.
  intros Ht Hs Hi Hf. unfold LoanRepository.fromFirestore.
  rewrite !or_num_nonzero by done.
  unfold LoanRepository.or_str. by destruct (decide (Loan.status d = "")).
Qed.

(** X13: an application with a listed amount and term is stored; once
    approved it reads back as approved with its full repayment owed and
    nothing paid, yet with a recorded balance of 0, so that isActive is
    false.  The first payment below the total makes the balance the total
    less the payment and the loan active. *)
Theorem approved_application_has_no_balance_on_record
    (db : LoanRepository.store) (newId userId purpose : string) (amount term : Qc)
    (now now1 now2 : Z) :
  In amount LoanService.validAmounts ->
  In term LoanService.validTerms ->
  exists loan0 db1 db2 loan,
    LoanService.applyForLoan db newId userId amount term purpose now = (Success loan0, db1) /\
    LoanRepository.approveLoan db1 newId now1 now2 = (Resolved true, db2) /\
    LoanRepository.getLoanById db2 newId = Some loan /\
    Loan.isApproved loan = true /\
    (0 < Loan.totalRepayment loan)%Qc /\
    Loan.amountPaid loan = 0%Qc /\
    Loan.remainingBalance loan = 0%Qc /\
    Loan.isActive loan = false /\
    forall payment : Qc, (payment < Loan.totalRepayment loan)%Qc ->
      exists loan' db3,
        LoanService.makeLoanPayment db2 newId payment = (Success loan', db3) /\
        LoanRepository.getLoanById db3 newId = Some loan' /\
        Loan.remainingBalance loan' = (Loan.totalRepayment loan - payment)%Qc /\
        Loan.isActive loan' = true.
Proof.
  intros Ha Ht.
  pose proof (valid_amount_positive _ Ha) as Hapos.
  pose proof (valid_term_positive _ Ht) as Htpos.
  pose proof (quote_total_positive amount Hapos) as Htot.
  assert (Hterm : term <> 0%Qc) by (intros ->; by apply Qclt_not_le in Htpos; apply Htpos).
  unfold LoanService.applyForLoan.
  rewrite validateLoanApplication_valid by done.
  unfold LoanRepository.createLoan.
  rewrite application_fields by done.
  cbn [Loan.userId Loan.amount Loan.term Loan.purpose Loan.status Loan.applicationDate
       Loan.approvalDate Loan.disbursementDate Loan.interestRate Loan.initiationFee
       Loan.serviceFee Loan.totalRepayment Loan.monthlyRepayment Loan.amountPaid
       Loan.remainingBalance].
  set (total := (amount + amount * Js.lit 45 1000 + Js.lit 5226 100 + amount * Js.lit 15 100)%Qc) in *.
  set (docId := if decide (newId = "") then None else Some newId).
  set (loan := Loan.mk docId userId amount term purpose "approved" now (Some now1)
                 (Some now2) (Js.ofZ 5) (amount * Js.lit 15 100)%Qc (Js.lit 5226 100)
                 total (total / term)%Qc 0%Qc 0%Qc).
  eexists _, _, _, loan.
  split; [reflexivity|].
  unfold LoanRepository.approveLoan. rewrite lookup_insert_eq.
  split; [reflexivity|].
  assert (Hget : forall db', LoanRepository.getLoanById
            (alter (fun data => LoanRepository.set_approval (Some now1) (Some now2)
                                  (Loan.set_status "approved" data)) newId
               (<[newId := Loan.mk None userId amount term purpose "pending" now None None
                             (Js.ofZ 5) (amount * Js.lit 15 100)%Qc (Js.lit 5226 100)
                             total (total / term)%Qc 0%Qc 0%Qc]> db')) newId = Some loan).
  { intros db'. unfold LoanRepository.getLoanById.
    rewrite lookup_alter_eq, lookup_insert_eq. cbn [fmap option_fmap option_map].
    by rewrite fromFirestore_filled. }
  split; [apply Hget|].
  split; [reflexivity|].
  split; [exact Htot|].
  split; [reflexivity|].
  split; [reflexivity|].
  split; [reflexivity|].
  intros payment Hpay. cbn [Loan.totalRepayment loan] in Hpay |- *.
  unfold LoanService.makeLoanPayment, LoanRepository.recordPayment.
  rewrite Hget.
  assert (Howing : (0 < Loan.totalRepayment loan - (Loan.amountPaid loan + payment))%Qc).
  { cbn [Loan.totalRepayment Loan.amountPaid loan]. clear -Hpay. qc_to_q. lra. }
  rewrite (recordPayment_owing loan payment Howing).
  assert (Hrem : (Loan.totalRepayment loan - (Loan.amountPaid loan + payment))%Qc
                 = (total - payment)%Qc).
  { cbn [Loan.totalRepayment Loan.amountPaid loan]. ring. }
  rewrite Hrem.
  eexists _, _. split; [reflexivity|].
  split.
  - unfold LoanRepository.getLoanById.
    rewrite lookup_alter_eq, lookup_alter_eq, lookup_insert_eq.
    cbn [fmap option_fmap option_map].
    by rewrite fromFirestore_filled.
  - split; [reflexivity|].
    unfold Loan.isActive.
    cbn [Loan.status Loan.remainingBalance Loan.set_remainingBalance Loan.set_amountPaid loan].
    rewrite bool_decide_eq_true_2 by done.
    rewrite (proj2 (leb_false _ _)); [done|].
    clear -Hpay. qc_to_q. lra.
Qed.

Lemma approved_application_has_no_balance_on_record_witness :
  exists loan0 db1 db2 loan,
    LoanService.applyForLoan sample_loans "L3" "u1" (Js.ofZ 1000) (Js.ofZ 2) "school fees" 0
      = (Success loan0, db1) /\
    LoanRepository.approveLoan db1 "L3" 1 2 = (Resolved true, db2) /\
    LoanRepository.getLoanById db2 "L3" = Some loan /\
    Loan.isApproved loan = true /\
    (0 < Loan.totalRepayment loan)%Qc /\
    Loan.amountPaid loan = 0%Qc /\
    Loan.remainingBalance loan = 0%Qc /\
    Loan.isActive loan = false /\
    forall payment : Qc, (payment < Loan.totalRepayment loan)%Qc ->
      exists loan' db3,
        LoanService.makeLoanPayment db2 "L3" payment = (Success loan', db3) /\
        LoanRepository.getLoanById db3 "L3" = Some loan' /\
        Loan.remainingBalance loan' = (Loan.totalRepayment loan - payment)%Qc /\
        Loan.isActive loan' = true.
Proof.
  apply approved_application_has_no_balance_on_record.
  - right; left; reflexivity.
  - right; left; reflexivity.
Defined.

(** X14: applyForLoan stores an application exactly when the amount is one
    of 500, 1000, 2000, 3000 and the term one of 1, 2, 3.  Otherwise the
    collection is left as it was and the reply names the amount first, the
    term second.  An accepted application is pending and carries the total and
    the instalment of the quote; no other document changes. *)
Theorem applyForLoan_accepts_the_listed_only
    (db : LoanRepository.store) (newId userId purpose : string) (amount term : Qc)
    (now : Z) :
  let r := LoanService.applyForLoan db newId userId amount term purpose now in
  (In amount LoanService.validAmounts /\ In term LoanService.validTerms /\
   exists loan,
     fst r = Success loan /\
     Loan.id loan = Some newId /\
     Loan.status loan = "pending" /\
     Loan.totalRepayment loan
       = Loan.d_totalRepayment (Loan.calculateLoanDetails amount term) /\
     Loan.monthlyRepayment loan
       = Loan.d_monthlyRepayment (Loan.calculateLoanDetails amount term) /\
     LoanRepository.getLoanById (snd r) newId <> None /\
     forall other, other <> newId -> snd r !! other = db !! other)
  \/
  (~ In amount LoanService.validAmounts /\ snd r = db /\
   fst r = Failure (Error "Invalid loan amount. Choose from R500, R1000, R2000, or R3000"))
  \/
  (In amount LoanService.validAmounts /\ ~ In term LoanService.validTerms /\ snd r = db /\
   fst r = Failure (Error "Invalid loan term. Choose 1, 2, or 3 months")).
Proof.
  cbv zeta. unfold LoanService.applyForLoan, LoanService.validateLoanApplication.
  destruct (LoanService.includes LoanService.validAmounts amount) eqn:Ea; cbn [negb].
  - apply includes_In in Ea.
    destruct (LoanService.includes LoanService.validTerms term) eqn:Et; cbn [negb].
    + apply includes_In in Et. left. split; [done|]. split; [done|].
      pose proof (valid_amount_positive _ Ea) as Hapos.
      pose proof (valid_term_positive _ Et) as Htpos.
      unfold LoanRepository.createLoan. rewrite application_fields by done.
      cbn [fst snd Loan.userId Loan.amount Loan.term Loan.purpose Loan.status
           Loan.applicationDate Loan.approvalDate Loan.disbursementDate Loan.interestRate
           Loan.initiationFee Loan.serviceFee Loan.totalRepayment Loan.monthlyRepayment
           Loan.amountPaid Loan.remainingBalance].
      eexists. split; [reflexivity|].
      cbn [Loan.id Loan.status Loan.monthlyRepayment Loan.term Loan.totalRepayment].
      split; [done|]. split; [done|]. split; [done|]. split; [done|].
      split.
      * unfold LoanRepository.getLoanById. by rewrite lookup_insert_eq.
      * intros other Hother. by rewrite lookup_insert_ne.
    + right; right. split; [done|]. split; [|done].
      intros Hin. apply includes_In in Hin. congruence.
  - right; left. split; [|done].
    intros Hin. apply includes_In in Hin. congruence.
Qed.

(** ** Savings and the stored discount *)

Lemma updateSavingsTotal_found (db : UserRepository.store) (userId : string)
    (d : UserRepository.doc) (amount : Qc) :
  db !! userId = Some d ->
  UserRepository.updateSavingsTotal db userId amount =
  (Resolved ((UserRepository.savingsTotal d + amount)%Qc,
             tier (UserRepository.savingsTotal d) (UserRepository.funeralCover d)),
   <[userId := UserRepository.set_storeDiscount
                 (tier (UserRepository.savingsTotal d) (UserRepository.funeralCover d))
                 (UserRepository.set_savingsTotal (UserRepository.savingsTotal d + amount)%Qc d)]>
     db).
Proof.
  intros Hd. unfold UserRepository.updateSavingsTotal, UserRepository.getUserById,
    UserRepository.update.
  rewrite Hd. cbn [fmap option_fmap option_map].
  f_equal. apply map_eq. intros k.
  destruct (decide (k = userId)) as [->|Hk].
  - by rewrite lookup_alter_eq, lookup_insert_eq, Hd.
  - by rewrite lookup_alter_ne, lookup_insert_ne.
Qed.

Lemma sum_of_snoc (xs : list Qc) (x : Qc) : sum_of (xs ++ [x]) = (sum_of xs + x)%Qc.
Proof.
  induction xs as [|y ys IH].
  - rewrite app_nil_l, sum_of_cons. change (sum_of []) with 0%Qc. ring.
  - rewrite <- app_comm_cons, !sum_of_cons, IH. ring.
Qed.





(** ** Contributions to a stokvel *)

Lemma getTotalContributions_fold (stokvels : list StokvelMembership.t) (acc : Qc) :
  fold_left (fun total s => (total + LoanRepository.or_num (StokvelMembership.balance s) 0)%Qc)
    stokvels acc
  = (acc + sum_of_balances stokvels)%Qc.
Proof.
  revert acc. induction stokvels as [|s rest IH]; intros acc.
  - cbn [fold_left]. unfold sum_of_balances. cbn [map]. change (sum_of []) with 0%Qc. ring.
  - rewrite fold_left_step, IH, or_num_zero.
    unfold sum_of_balances. cbn [map]. rewrite sum_of_cons. ring.
Qed.

Lemma getTotalContributions_sum (u : UserRepository.user) :
  UserRepository.getTotalContributions u = sum_of_balances (UserRepository.u_stokvels u).
Proof.
  unfold UserRepository.getTotalContributions. rewrite getTotalContributions_fold. ring.
Qed.

Lemma sum_of_balances_app (xs ys : list StokvelMembership.t) :
  sum_of_balances (xs ++ ys) = (sum_of_balances xs + sum_of_balances ys)%Qc.
Proof.
  unfold sum_of_balances. induction xs as [|x xs IH].
  - cbn [map app]. change (sum_of []) with 0%Qc. ring.
  - rewrite <- app_comm_cons. cbn [map]. rewrite !sum_of_cons, IH. ring.
Qed.

Lemma findIndex_none (stokvelId : string) (stokvels : list StokvelMembership.t) :
  Forall (fun s => StokvelMembership.id s <> Some stokvelId) stokvels ->
  StokvelService.findIndex stokvelId stokvels = None.
Proof.
  intros H. unfold StokvelService.findIndex. apply list_find_None. exact H.
Qed.

Lemma findIndex_first (stokvelId : string) (before after : list StokvelMembership.t)
    (s : StokvelMembership.t) :
  Forall (fun s => StokvelMembership.id s <> Some stokvelId) before ->
  StokvelMembership.id s = Some stokvelId ->
  StokvelService.findIndex stokvelId (before ++ s :: after) = Some (length before, s).
Proof.
  intros Hb Hs. unfold StokvelService.findIndex. apply list_find_Some.
  split; [|split; [done|]].
  - by apply list_lookup_middle.
  - intros j y Hy Hj.
    rewrite lookup_app_l in Hy by done.
    rewrite Forall_lookup in Hb. by apply (Hb j y).
Qed.

(** X16: a contribution for a user who does not exist, or who holds no
    membership with the given id, is refused and leaves the users
    collection as it was; the contribution record, marked completed, has
    been stored all the same. *)
Theorem refused_contribution_is_still_recorded
    (tzOffset : Z) (users : UserRepository.store)
    (contributions : ContributionRepository.store) (newId userId stokvelId : string)
    (amount : Qc) (paymentMethod : string) (now1 now2 : Z) :
  users !! userId = None \/
  (exists d, users !! userId = Some d /\
     Forall (fun s => StokvelMembership.id s <> Some stokvelId) (UserRepository.stokvels d)) ->
  let r := StokvelService.makeContribution tzOffset users contributions newId userId
             stokvelId amount paymentMethod now1 now2 in
  (StokvelService.c_reply r = Failure (Error "User not found") \/
   StokvelService.c_reply r = Failure (Error "Stokvel membership not found")) /\
  StokvelService.c_users r = users /\
  StokvelService.c_contributions r !! newId
    = Some (ContributionRepository.mk userId stokvelId amount paymentMethod
              (JsDate.toISOString now1) "completed") /\
  forall other, other <> newId ->
    StokvelService.c_contributions r !! other = contributions !! other.
Proof.
  intros H. cbv zeta.
  unfold StokvelService.makeContribution, UserRepository.getUserById,
    ContributionRepository.recordContribution. cbn [snd].
  destruct H as [Hnone | (d & Hd & Hall)].
  - rewrite Hnone. cbn [fmap option_fmap option_map StokvelService.c_reply
                        StokvelService.c_users StokvelService.c_contributions].
    split; [by left|]. split; [done|]. split; [by rewrite lookup_insert_eq|].
    intros other Ho. by rewrite lookup_insert_ne.
  - rewrite Hd. cbn [fmap option_fmap option_map UserRepository.fromFirestore
                     UserRepository.u_stokvels].
    rewrite (findIndex_none _ _ Hall).
    cbn [StokvelService.c_reply StokvelService.c_users StokvelService.c_contributions].
    split; [by right|]. split; [done|]. split; [by rewrite lookup_insert_eq|].
    intros other Ho. by rewrite lookup_insert_ne.
Qed.

Lemma refused_contribution_is_still_recorded_witness :
  let r := StokvelService.makeContribution SAST sample_users ∅ "c1" "u1" "S9"
             (Js.ofZ 250) "card" t_2025_01_31 t_2025_01_31 in
  (StokvelService.c_reply r = Failure (Error "User not found") \/
   StokvelService.c_reply r = Failure (Error "Stokvel membership not found")) /\
  StokvelService.c_users r = sample_users /\
  StokvelService.c_contributions r !! "c1"
    = Some (ContributionRepository.mk "u1" "S9" (Js.ofZ 250) "card"
              (JsDate.toISOString t_2025_01_31) "completed") /\
  forall other, other <> "c1" ->
    StokvelService.c_contributions r !! other = (∅ : ContributionRepository.store) !! other.
Proof.
  apply refused_contribution_is_still_recorded.
  right. exists user_doc_sample. split; [reflexivity|].
  repeat constructor. discriminate.
Defined.

Lemma construct_balance (s : StokvelMembership.t) :
  StokvelMembership.balance (StokvelMembership.construct s) = StokvelMembership.balance s.
Proof. reflexivity. Qed.

(** What a contribution to a membership the user holds does. *)
Lemma makeContribution_found
    (tzOffset : Z) (users : UserRepository.store)
    (contributions : ContributionRepository.store) (newId userId stokvelId : string)
    (amount : Qc) (paymentMethod : string) (now1 now2 : Z)
    (d : UserRepository.doc) (before after : list StokvelMembership.t)
    (s : StokvelMembership.t) :
  users !! userId = Some d ->
  UserRepository.stokvels d = before ++ s :: after ->
  Forall (fun s => StokvelMembership.id s <> Some stokvelId) before ->
  StokvelMembership.id s = Some stokvelId ->
  let r := StokvelService.makeContribution tzOffset users contributions newId userId
             stokvelId amount paymentMethod now1 now2 in
  exists m d',
    StokvelService.c_reply r = Success (m, (StokvelMembership.balance s + amount)%Qc) /\
    StokvelMembership.balance m = (StokvelMembership.balance s + amount)%Qc /\
    StokvelMembership.contributionsCount m = StokvelMembership.contributionsCount s + 1 /\
    StokvelService.c_users r !! userId = Some d' /\
    UserRepository.stokvels d' = before ++ m :: after /\
    UserRepository.savingsTotal d' = (UserRepository.savingsTotal d + amount)%Qc /\
    UserRepository.getTotalContributions (UserRepository.fromFirestore d')
      = (UserRepository.getTotalContributions (UserRepository.fromFirestore d) + amount)%Qc /\
    UserRepository.storeDiscount d'
      = tier (UserRepository.savingsTotal d) (UserRepository.funeralCover d) /\
    forall other, other <> userId -> StokvelService.c_users r !! other = users !! other.
Proof.
  intros Hd Hst Hb Hs. cbv zeta.
  unfold StokvelService.makeContribution, UserRepository.getUserById.
  rewrite Hd. cbn [fmap option_fmap option_map UserRepository.fromFirestore
                   UserRepository.u_stokvels].
  rewrite Hst, (findIndex_first _ _ _ _ Hb Hs).
  unfold UserRepository.updateUserStokvels, UserRepository.update. rewrite Hd.
  set (m := StokvelMembership.recordContribution tzOffset (StokvelMembership.construct s)
              amount now2).
  unfold StokvelMembership.toObject.
  assert (Hins : <[length before := m]> (before ++ s :: after) = before ++ m :: after).
  { rewrite insert_app_r_alt by done. by rewrite Nat.sub_diag. }
  rewrite Hins.
  set (d1 := UserRepository.set_stokvels (before ++ m :: after) d).
  assert (Hd1 : alter (UserRepository.set_stokvels (before ++ m :: after)) userId users
                !! userId = Some d1).
  { by rewrite lookup_alter_eq, Hd. }
  rewrite (updateSavingsTotal_found _ _ _ _ Hd1).
  cbn [StokvelService.c_reply StokvelService.c_users].
  exists m. eexists.
  split; [reflexivity|]. split; [reflexivity|]. split; [reflexivity|].
  split; [by rewrite lookup_insert_eq|].
  cbn [UserRepository.stokvels UserRepository.savingsTotal UserRepository.storeDiscount
       UserRepository.funeralCover UserRepository.set_storeDiscount
       UserRepository.set_savingsTotal UserRepository.set_stokvels d1].
  split; [done|]. split; [done|].
  split.
  - rewrite !getTotalContributions_sum.
    cbn [UserRepository.fromFirestore UserRepository.u_stokvels UserRepository.stokvels
         UserRepository.set_storeDiscount UserRepository.set_savingsTotal
         UserRepository.set_stokvels d1].
    rewrite ?Hst, !sum_of_balances_app.
    unfold sum_of_balances at 2 4. cbn [map]. rewrite !sum_of_cons.
    change (StokvelMembership.balance m) with (StokvelMembership.balance s + amount)%Qc.
    fold (sum_of_balances after). ring.
  - split; [done|].
    intros other Ho. by rewrite lookup_insert_ne, lookup_alter_ne.
Qed.



(** ** Funeral cover and the stored discount *)

Lemma getPlan_ids (planId : string) (plan : FuneralCoverPlan.plan) :
  FuneralCoverPlan.getPlan planId = Some plan ->
  planId = "basic" \/ planId = "family" \/ planId = "extended".
Proof.
  unfold FuneralCoverPlan.getPlan, FuneralCoverPlan.PLANS_values. cbn [List.find].
  repeat case_bool_decide; cbn [FuneralCoverPlan.id FuneralCoverPlan.BASIC
    FuneralCoverPlan.FAMILY FuneralCoverPlan.EXTENDED] in *; intros Hp; subst; (tauto || discriminate).
Qed.

Lemma update_found (db : UserRepository.store) (userId : string) (d : UserRepository.doc)
    (change : UserRepository.doc -> UserRepository.doc) :
  db !! userId = Some d ->
  UserRepository.update db userId change = (Resolved true, <[userId := change d]> db).
Proof.
  intros Hd. unfold UserRepository.update. rewrite Hd. f_equal.
  apply map_eq. intros k. destruct (decide (k = userId)) as [->|Hk].
  - by rewrite lookup_alter_eq, lookup_insert_eq, Hd.
  - by rewrite lookup_alter_ne, lookup_insert_ne.
Qed.

Lemma needs_details_false (planId : string) (familyDetails : option string) :
  planId = "basic" \/ FuneralService.missing familyDetails = false ->
  (bool_decide (planId = "family") || bool_decide (planId = "extended"))
  && FuneralService.missing familyDetails = false.
Proof.
  intros [-> | ->]; [done|]. by rewrite andb_false_r.
Qed.

Lemma tier_cover_le (savings : Qc) : (tier savings false <= tier savings true)%Qc.
Proof.
  unfold tier, User.calculateDiscount. cbn [User.savingsTotal User.funeralCover negb].
  destruct (Js.geb savings (Js.ofZ 10000)), (Js.geb savings (Js.ofZ 5000));
    apply Qle_bool_imp_le; vm_compute; reflexivity.
Qed.

Lemma cover_found (db : UserRepository.store) (userId planId paymentMethod : string)
    (familyDetails : option string) (now : Z) (d : UserRepository.doc) :
  db !! userId = Some d ->
  exists db1,
    UserRepository.updateFuneralCover db userId planId paymentMethod familyDetails now
    = (Resolved true, db1).
Proof.
  intros Hd. unfold UserRepository.updateFuneralCover.
  rewrite (update_found _ _ _ _ Hd).
  unfold UserRepository.getUserById. rewrite lookup_insert_eq.
  cbn [fmap option_fmap option_map].
  erewrite update_found by apply lookup_insert_eq.
  by eexists.
Qed.

(** X18: for an existing user, a known plan and, unless the plan is basic,
    family details, activateCover succeeds whatever the add-ons and stores
    the discount of the user's savings with cover.  cancelCover afterwards
    stores the discount without cover, never more than the one with cover,
    and clears the cover flag only: the plan and the start of the cover stay
    on the document. *)
Theorem cover_changes_bring_the_discount_up_to_date
    (db : UserRepository.store) (userId planId paymentMethod reason : string)
    (familyDetails : option string) (additionalBenefits : list string) (now now' : Z)
    (d : UserRepository.doc) (plan : FuneralCoverPlan.plan) :
  db !! userId = Some d ->
  FuneralCoverPlan.getPlan planId = Some plan ->
  planId = "basic" \/ FuneralService.missing familyDetails = false ->
  exists db1 d1 db2 d2,
    FuneralService.activateCover db userId planId paymentMethod familyDetails
      additionalBenefits now
      = (Success (plan, FuneralCoverPlan.calculatePremium planId additionalBenefits), db1) /\
    db1 !! userId = Some d1 /\
    UserRepository.funeralCover d1 = true /\
    UserRepository.funeralCoverType d1 = Some planId /\
    UserRepository.funeralCoverSince d1 = Some (JsDate.toISOString now) /\
    UserRepository.savingsTotal d1 = UserRepository.savingsTotal d /\
    UserRepository.storeDiscount d1 = tier (UserRepository.savingsTotal d) true /\
    FuneralService.cancelCover db1 userId reason now'
      = (Success "Funeral cover canceled successfully", db2) /\
    db2 !! userId = Some d2 /\
    UserRepository.funeralCover d2 = false /\
    UserRepository.storeDiscount d2 = tier (UserRepository.savingsTotal d) false /\
    (UserRepository.storeDiscount d2 <= UserRepository.storeDiscount d1)%Qc /\
    UserRepository.funeralCoverType d2 = Some planId /\
    UserRepository.funeralCoverSince d2 = Some (JsDate.toISOString now).
Proof.
  intros Hd Hplan Hdetails.
  unfold FuneralService.activateCover. rewrite Hplan.
  rewrite (needs_details_false _ _ Hdetails).
  unfold UserRepository.updateFuneralCover.
  rewrite (update_found _ _ _ _ Hd).
  unfold UserRepository.getUserById at 1. rewrite lookup_insert_eq.
  cbn [fmap option_fmap option_map].
  erewrite update_found by apply lookup_insert_eq.
  rewrite insert_insert_eq.
  eexists _, _, _, _.
  split; [reflexivity|].
  split; [apply lookup_insert_eq|].
  cbn [UserRepository.funeralCover UserRepository.funeralCoverType
       UserRepository.funeralCoverSince UserRepository.savingsTotal
       UserRepository.storeDiscount UserRepository.set_storeDiscount
       UserRepository.set_cover].
  split; [done|]. split; [done|]. split; [done|]. split; [done|].
  split; [reflexivity|].
  unfold FuneralService.cancelCover.
  erewrite update_found by apply lookup_insert_eq.
  rewrite insert_insert_eq.
  unfold UserRepository.getUserById. rewrite lookup_insert_eq.
  cbn [fmap option_fmap option_map].
  erewrite update_found by apply lookup_insert_eq.
  rewrite insert_insert_eq.
  split; [reflexivity|].
  split; [apply lookup_insert_eq|].
  cbn [UserRepository.funeralCover UserRepository.funeralCoverType
       UserRepository.funeralCoverSince UserRepository.savingsTotal
       UserRepository.storeDiscount UserRepository.set_storeDiscount
       UserRepository.set_cover UserRepository.set_canceled
       UserRepository.calculateDiscount UserRepository.fromFirestore
       UserRepository.u_savingsTotal UserRepository.u_funeralCover].
  split; [done|]. split; [reflexivity|].
  split; [|done].
  exact (tier_cover_le (UserRepository.savingsTotal d)).
Qed.

Lemma cover_changes_bring_the_discount_up_to_date_witness :
  exists db1 d1 db2 d2,
    FuneralService.activateCover sample_users "u1" "family" "debit" (Some "spouse: N. Dube")
      ["CHAIRS"] t_2025_01_31
      = (Success (FuneralCoverPlan.FAMILY, FuneralCoverPlan.calculatePremium "family" ["CHAIRS"]),
         db1) /\
    db1 !! "u1" = Some d1 /\
    UserRepository.funeralCover d1 = true /\
    UserRepository.funeralCoverType d1 = Some "family" /\
    UserRepository.funeralCoverSince d1 = Some (JsDate.toISOString t_2025_01_31) /\
    UserRepository.savingsTotal d1 = UserRepository.savingsTotal user_doc_sample /\
    UserRepository.storeDiscount d1 = tier (UserRepository.savingsTotal user_doc_sample) true /\
    FuneralService.cancelCover db1 "u1" "moved abroad" t_2025_11_02
      = (Success "Funeral cover canceled successfully", db2) /\
    db2 !! "u1" = Some d2 /\
    UserRepository.funeralCover d2 = false /\
    UserRepository.storeDiscount d2 = tier (UserRepository.savingsTotal user_doc_sample) false /\
    (UserRepository.storeDiscount d2 <= UserRepository.storeDiscount d1)%Qc /\
    UserRepository.funeralCoverType d2 = Some "family" /\
    UserRepository.funeralCoverSince d2 = Some (JsDate.toISOString t_2025_01_31).
Proof.
  apply (cover_changes_bring_the_discount_up_to_date sample_users "u1" "family" "debit"
           "moved abroad" (Some "spouse: N. Dube") ["CHAIRS"] t_2025_01_31 t_2025_11_02
           user_doc_sample FuneralCoverPlan.FAMILY).
  - reflexivity.
  - reflexivity.
  - right. reflexivity.
Defined.

(** X19: activateCover is refused, and the users collection left as it was,
    for a plan id that is none of the three, then for a family or extended
    plan without family details, then for a user with no document; in no
    other case.  The add-ons play no part in this. *)
Theorem activateCover_refusals
    (db : UserRepository.store) (userId planId paymentMethod : string)
    (familyDetails : option string) (additionalBenefits : list string) (now : Z) :
  let r := FuneralService.activateCover db userId planId paymentMethod familyDetails
             additionalBenefits now in
  (FuneralCoverPlan.getPlan planId = None ->
   r = (Failure (Error "Invalid plan selected"), db)) /\
  (planId = "family" \/ planId = "extended" ->
   FuneralService.missing familyDetails = true ->
   r = (Failure (Error "Family details required for this plan"), db)) /\
  (FuneralCoverPlan.getPlan planId <> None ->
   planId = "basic" \/ FuneralService.missing familyDetails = false ->
   db !! userId = None ->
   r = (Failure ClientError, db)) /\
  ((exists payload, fst r = Success payload) <->
   FuneralCoverPlan.getPlan planId <> None /\
   (planId = "basic" \/ FuneralService.missing familyDetails = false) /\
   db !! userId <> None).
Proof.
  cbv zeta.
  assert (Hmissing : db !! userId = None ->
            UserRepository.updateFuneralCover db userId planId paymentMethod familyDetails now
            = (Rejected ClientError, db)).
  { intros Hn. unfold UserRepository.updateFuneralCover, UserRepository.update.
    by rewrite Hn. }
  split; [|split; [|split]].
  - intros Hn. unfold FuneralService.activateCover. by rewrite Hn.
  - intros Hid Hm. unfold FuneralService.activateCover.
    destruct Hid as [-> | ->]; by rewrite Hm.
  - intros Hp Hdet Hn. unfold FuneralService.activateCover.
    destruct (FuneralCoverPlan.getPlan planId) as [plan|]; [|done].
    rewrite (needs_details_false _ _ Hdet). by rewrite (Hmissing Hn).
  - split.
    + intros [payload Hs]. unfold FuneralService.activateCover in Hs.
      destruct (FuneralCoverPlan.getPlan planId) as [plan|] eqn:Hp; [|discriminate].
      split; [done|].
      destruct ((bool_decide (planId = "family") || bool_decide (planId = "extended"))
                && FuneralService.missing familyDetails) eqn:Hneed; [discriminate|].
      split.
      * destruct (getPlan_ids _ _ Hp) as [-> | [-> | ->]]; [by left | right.. ];
          by destruct (FuneralService.missing familyDetails).
      * intros Hn. rewrite (Hmissing Hn) in Hs. discriminate.
    + intros (Hp & Hdet & Hu).
      destruct (FuneralCoverPlan.getPlan planId) as [plan|] eqn:Hp'; [|done].
      destruct (db !! userId) as [d|] eqn:Hd; [|done].
      destruct (cover_found db userId planId paymentMethod familyDetails now d Hd)
        as [db1 Hup].
      unfold FuneralService.activateCover. rewrite Hp', (needs_details_false _ _ Hdet), Hup.
      by eexists.
Qed.

(** ** Orders and stock *)

Lemma updateStock_found (products : ProductRepository.store) (productId : string)
    (p : Product.t) (quantity : Qc) :
  productId <> "" -> products !! productId = Some p ->
  ProductRepository.updateStock products (Some productId) quantity
  = (Resolved (Product.stock p + quantity)%Qc,
     <[productId := ProductRepository.set_stock (Product.stock p + quantity)%Qc p]> products).
Proof.
  intros Hne Hp. unfold ProductRepository.updateStock, ProductRepository.getProductById.
  destruct productId as [|c rest]; [done|].
  rewrite Hp. cbn [fmap option_fmap option_map ProductRepository.fromFirestore Product.stock].
  f_equal. apply map_eq. intros k.
  destruct (decide (k = String c rest)) as [->|Hk].
  - by rewrite lookup_alter_eq, lookup_insert_eq, Hp.
  - by rewrite lookup_alter_ne, lookup_insert_ne.
Qed.

Lemma updateStock_missing (products : ProductRepository.store) (productId : string)
    (quantity : Qc) :
  productId <> "" -> products !! productId = None ->
  ProductRepository.updateStock products (Some productId) quantity
  = (Rejected (Error "Product not found"), products).
Proof.
  intros Hne Hp. unfold ProductRepository.updateStock, ProductRepository.getProductById.
  destruct productId as [|c rest]; [done|]. by rewrite Hp.
Qed.

Lemma ordered_quantity_cons (productId : string) (item : CartItem.t) (rest : list CartItem.t) :
  ordered_quantity productId (item :: rest)
  = if bool_decide (CartItem.id item = Some productId)
    then (CartItem.quantity item + ordered_quantity productId rest)%Qc
    else ordered_quantity productId rest.
Proof. reflexivity. Qed.

Lemma less_stock_zero (p : Product.t) : less_stock 0%Qc p = p.
Proof.
  unfold less_stock, ProductRepository.set_stock.
  assert (H : (Product.stock p - 0)%Qc = Product.stock p) by ring.
  rewrite H. by destruct p.
Qed.

Lemma less_stock_twice (a b : Qc) (p : Product.t) :
  less_stock b (ProductRepository.set_stock (Product.stock p + - a)%Qc p)
  = less_stock (a + b)%Qc p.
Proof.
  unfold less_stock, ProductRepository.set_stock. cbn [Product.stock Product.id Product.name
    Product.description Product.price Product.category Product.image Product.featured].
  assert (H : (Product.stock p + - a - b)%Qc = (Product.stock p - (a + b))%Qc) by ring.
  by rewrite H.
Qed.

(** The stock loop over items that all name a product: every stock is
    reduced by the quantity ordered of it. *)
Lemma updateStocks_all_found (items : list CartItem.t) (products : ProductRepository.store) :
  Forall (names_a_product products) items ->
  exists products',
    StoreService.updateStocks products items = (None, products') /\
    forall productId,
      products' !! productId
      = less_stock (ordered_quantity productId items) <$> products !! productId.
Proof.
  revert products. induction items as [|item rest IH]; intros products Hall.
  - exists products. split; [done|]. intros productId.
    cbn [ordered_quantity fold_right].
    destruct (products !! productId) as [p|]; [|done].
    cbn [fmap option_fmap option_map]. by rewrite less_stock_zero.
  - apply Forall_cons in Hall as [(pid & Hid & Hne & [p Hp]) Hrest].
    cbn [StoreService.updateStocks]. rewrite Hid.
    rewrite (updateStock_found _ _ _ _ Hne Hp).
    set (p1 := ProductRepository.set_stock (Product.stock p + - CartItem.quantity item)%Qc p).
    destruct (IH (<[pid := p1]> products)) as (products' & Hrun & Hlook).
    { eapply Forall_impl; [exact Hrest|].
      intros it (pid' & Hid' & Hne' & Hsome). exists pid'. split; [done|]. split; [done|].
      destruct (decide (pid' = pid)) as [->|Hd].
      - by rewrite lookup_insert_eq.
      - by rewrite lookup_insert_ne. }
    exists products'. split; [exact Hrun|].
    intros productId. rewrite Hlook, ordered_quantity_cons.
    destruct (decide (productId = pid)) as [->|Hd].
    + rewrite lookup_insert_eq, Hp, Hid. rewrite bool_decide_eq_true_2 by done.
      cbn [fmap option_fmap option_map]. unfold p1. by rewrite less_stock_twice.
    + rewrite lookup_insert_ne by done. rewrite Hid.
      rewrite bool_decide_eq_false_2; [done|]. congruence.
Qed.

Lemma construct_idempotent (item : CartItem.t) :
  CartItem.construct (CartItem.construct item) = CartItem.construct item.
Proof.
  unfold CartItem.construct.
  cbn [CartItem.id CartItem.name CartItem.price CartItem.image CartItem.quantity].
  f_equal.
  - destruct (CartItem.id item) as [[|c s]|]; reflexivity.
  - destruct (Qc_eq_dec (CartItem.quantity item) 0%Qc) as [Hq|Hq].
    + by destruct (Qc_eq_dec 1%Qc 0%Qc).
    + by destruct (Qc_eq_dec (CartItem.quantity item) 0%Qc).
Qed.

Lemma construct_names_a_product (products : ProductRepository.store) (item : CartItem.t) :
  names_a_product products item -> names_a_product products (CartItem.construct item).
Proof.
  intros (pid & Hid & Hne & Hsome). exists pid. split; [|done].
  unfold CartItem.construct. cbn [CartItem.id]. rewrite Hid.
  by destruct pid.
Qed.

Lemma map_construct_idempotent (items : list CartItem.t) :
  map CartItem.fromObject (map CartItem.toObject (map CartItem.construct items))
  = map CartItem.construct items.
Proof.
  induction items as [|item rest IH]; [done|].
  cbn [map]. rewrite IH. unfold CartItem.fromObject, CartItem.toObject.
  by rewrite construct_idempotent.
Qed.

(** The order that [createOrder] stores reads back as the order it
    returns. *)
Lemma stored_order_reads_back (orders : OrderRepository.store) (newId userId : string)
    (cartItems : list CartItem.t) (subtotal discount total : Qc)
    (shippingAddress paymentMethod : string) :
  newId <> "" ->
  let created :=
    OrderRepository.createOrder orders newId
      (Order.mk None userId (map CartItem.construct cartItems) subtotal discount total
         shippingAddress paymentMethod "processing") in
  fst created
  = Order.mk (Some newId) userId (map CartItem.construct cartItems) subtotal discount total
      shippingAddress paymentMethod "processing" /\
  OrderRepository.getOrderById (snd created) newId = Some (fst created).
Proof.
  intros Hne. cbv zeta. unfold OrderRepository.createOrder, OrderRepository.getOrderById.
  cbn [fst snd]. rewrite lookup_insert_eq. split; [reflexivity|].
  cbn [fmap option_fmap option_map].
  unfold Order.fromFirestore, Order.toFirestore, Order.construct.
  cbn [Order.id Order.userId Order.items Order.o_subtotal Order.o_discount Order.o_total
       Order.shippingAddress Order.paymentMethod Order.status].
  rewrite map_construct_idempotent.
  destruct newId as [|c s]; [done|]. reflexivity.
Qed.

(** X20: an order for a cart that is not empty and whose lines all name
    products of the collection succeeds, whatever the stock on hand.  The
    order is stored and reads back as returned, its amounts are those
    calculateCartTotals shows for the cart, and the stock of every product
    falls by the quantity ordered of it, below zero if need be. *)
Theorem createOrder_takes_the_stock_unchecked
    (users : UserRepository.store) (products : ProductRepository.store)
    (orders : OrderRepository.store) (newId userId : string) (cartItems : list CartItem.t)
    (shippingAddress paymentMethod : string) :
  cartItems <> [] ->
  newId <> "" ->
  Forall (names_a_product products) cartItems ->
  let r := StoreService.createOrder users products orders newId userId cartItems
             shippingAddress paymentMethod in
  let items := map CartItem.construct cartItems in
  exists order percent,
    StoreService.r_reply r = Success order /\
    Order.id order = Some newId /\
    Order.items order = items /\
    StoreService.calculateCartTotals users userId cartItems
      = Success (Order.mkTotals (Order.o_subtotal order) (Order.o_discount order)
                   (Order.o_total order), percent) /\
    OrderRepository.getOrderById (StoreService.r_orders r) newId = Some order /\
    forall productId,
      StoreService.r_products r !! productId
      = less_stock (ordered_quantity productId items) <$> products !! productId.
Proof.
  intros Hcart Hne Hall. cbv zeta.
  unfold StoreService.createOrder.
  destruct cartItems as [|item0 rest0] eqn:Hitems; [done|]. rewrite <- Hitems in *.
  clear Hitems item0 rest0.
  set (user := UserRepository.getUserById users userId).
  set (totals := Order.calculateTotals (map CartItem.construct cartItems)
                   (StoreService.discountPercent user)).
  pose proof (stored_order_reads_back orders newId userId cartItems (Order.subtotal totals)
                (Order.discount totals) (Order.total totals) shippingAddress paymentMethod Hne)
    as Hstored.
  cbv zeta in Hstored.
  destruct (OrderRepository.createOrder orders newId _) as [order orders'].
  cbn [fst snd] in Hstored. destruct Hstored as [Horder Hback].
  destruct (updateStocks_all_found (map CartItem.construct cartItems) products)
    as (products' & Hrun & Hlook).
  { apply Forall_map. eapply Forall_impl; [exact Hall|].
    intros it. apply construct_names_a_product. }
  rewrite Hrun.
  cbn [StoreService.r_reply StoreService.r_products StoreService.r_orders].
  exists order, (StoreService.discountPercent user).
  split; [done|].
  rewrite Horder. cbn [Order.id Order.items Order.o_subtotal Order.o_discount Order.o_total].
  split; [done|]. split; [done|].
  split; [|split; [by rewrite <- Horder | exact Hlook]].
  unfold StoreService.calculateCartTotals. fold user. fold totals. by destruct totals.
Qed.

Lemma createOrder_takes_the_stock_unchecked_witness :
  let cart := [CartItem.mk (Some "p1") "maize meal" (Js.ofZ 100) "" (Js.ofZ 5)] in
  let r := StoreService.createOrder sample_users sample_products ∅ "o1" "u1" cart
             "12 Vilakazi St" "card" in
  let items := map CartItem.construct cart in
  exists order percent,
    StoreService.r_reply r = Success order /\
    Order.id order = Some "o1" /\
    Order.items order = items /\
    StoreService.calculateCartTotals sample_users "u1" cart
      = Success (Order.mkTotals (Order.o_subtotal order) (Order.o_discount order)
                   (Order.o_total order), percent) /\
    OrderRepository.getOrderById (StoreService.r_orders r) "o1" = Some order /\
    forall productId,
      StoreService.r_products r !! productId
      = less_stock (ordered_quantity productId items) <$> sample_products !! productId.
Proof.
  apply createOrder_takes_the_stock_unchecked.
  - discriminate.
  - discriminate.
  - repeat constructor. exists "p1". split; [reflexivity|]. split; [discriminate|].
    by eexists.
Defined.

(** X21: when a line of the cart names no product of the collection, or no
    product at all, the order is refused; by then it has been stored, and
    the stock of the lines before that one has been taken.  The lines after
    it take no stock. *)
Theorem refused_order_is_stored_all_the_same
    (users : UserRepository.store) (products : ProductRepository.store)
    (orders : OrderRepository.store) (newId userId : string)
    (good rest : list CartItem.t) (bad : CartItem.t)
    (shippingAddress paymentMethod : string) :
  newId <> "" ->
  Forall (names_a_product products) good ->
  CartItem.id (CartItem.construct bad) = None \/
  (exists productId, CartItem.id bad = Some productId /\ productId <> "" /\
                     products !! productId = None) ->
  let r := StoreService.createOrder users products orders newId userId
             (good ++ bad :: rest) shippingAddress paymentMethod in
  (StoreService.r_reply r = Failure ClientError \/
   StoreService.r_reply r = Failure (Error "Product not found")) /\
  (exists order,
     OrderRepository.getOrderById (StoreService.r_orders r) newId = Some order /\
     Order.items order = map CartItem.construct (good ++ bad :: rest) /\
     Order.status order = "processing") /\
  forall productId,
    StoreService.r_products r !! productId
    = less_stock (ordered_quantity productId (map CartItem.construct good))
        <$> products !! productId.
Proof.
  intros Hne Hgood Hbad. cbv zeta.
  unfold StoreService.createOrder.
  destruct (good ++ bad :: rest) as [|item0 rest0] eqn:Hitems.
  { by destruct good. }
  rewrite <- Hitems. clear Hitems item0 rest0.
  set (user := UserRepository.getUserById users userId).
  set (totals := Order.calculateTotals (map CartItem.construct (good ++ bad :: rest))
                   (StoreService.discountPercent user)).
  pose proof (stored_order_reads_back orders newId userId (good ++ bad :: rest)
                (Order.subtotal totals) (Order.discount totals) (Order.total totals)
                shippingAddress paymentMethod Hne) as Hstored.
  cbv zeta in Hstored.
  destruct (OrderRepository.createOrder orders newId _) as [order orders'].
  cbn [fst snd] in Hstored. destruct Hstored as [Horder Hback].
  assert (Hrun : exists e products',
            StoreService.updateStocks products (map CartItem.construct (good ++ bad :: rest))
            = (Some e, products') /\
            (e = ClientError \/ e = Error "Product not found") /\
            forall productId,
              products' !! productId
              = less_stock (ordered_quantity productId (map CartItem.construct good))
                  <$> products !! productId).
  { clear -Hgood Hbad. revert products Hgood Hbad.
    induction good as [|item good IH]; intros products Hgood Hbad.
    - cbn [app map StoreService.updateStocks].
      assert (Hzero : forall productId,
                products !! productId
                = less_stock (ordered_quantity productId []) <$> products !! productId).
      { intros productId. cbn [ordered_quantity fold_right].
        destruct (products !! productId) as [p|]; [|done].
        cbn [fmap option_fmap option_map]. by rewrite less_stock_zero. }
      destruct Hbad as [Hnone | (pid & Hid & Hpid & Hmiss)].
      + rewrite Hnone. cbn [ProductRepository.updateStock].
        exists ClientError, products. split; [done|]. split; [by left|]. exact Hzero.
      + assert (Hid' : CartItem.id (CartItem.construct bad) = Some pid).
        { unfold CartItem.construct. cbn [CartItem.id]. rewrite Hid. by destruct pid. }
        rewrite Hid', (updateStock_missing _ _ _ Hpid Hmiss).
        exists (Error "Product not found"), products.
        split; [done|]. split; [by right|]. exact Hzero.
    - apply Forall_cons in Hgood as [Hitem Hgood].
      apply construct_names_a_product in Hitem.
      destruct Hitem as (pid & Hid & Hpid & [p Hp]).
      rewrite <- app_comm_cons. cbn [map StoreService.updateStocks].
      rewrite Hid, (updateStock_found _ _ _ _ Hpid Hp).
      set (p1 := ProductRepository.set_stock
                   (Product.stock p + - CartItem.quantity (CartItem.construct item))%Qc p).
      destruct (IH (<[pid := p1]> products)) as (e & products' & Hrun & He & Hlook).
      { eapply Forall_impl; [exact Hgood|].
        intros it (pid' & Hid' & Hne' & Hsome). exists pid'. split; [done|]. split; [done|].
        destruct (decide (pid' = pid)) as [->|Hd].
        - by rewrite lookup_insert_eq.
        - by rewrite lookup_insert_ne. }
      { destruct Hbad as [Hnone | (pid' & Hid' & Hpid' & Hmiss)]; [by left|].
        right. exists pid'. split; [done|]. split; [done|].
        rewrite lookup_insert_ne; [done|]. intros <-. congruence. }
      exists e, products'. split; [exact Hrun|]. split; [exact He|].
      intros productId. rewrite Hlook, ordered_quantity_cons.
      destruct (decide (productId = pid)) as [->|Hd].
      + rewrite lookup_insert_eq, Hp, Hid. rewrite bool_decide_eq_true_2 by done.
        cbn [fmap option_fmap option_map]. unfold p1. by rewrite less_stock_twice.
      + rewrite lookup_insert_ne by done. rewrite Hid.
        rewrite bool_decide_eq_false_2; [done|]. congruence. }
  destruct Hrun as (e & products' & Hrun & He & Hlook).
  rewrite Hrun.
  cbn [StoreService.r_reply StoreService.r_products StoreService.r_orders].
  split.
  { destruct He as [-> | ->]; [by left | by right]. }
  split; [|exact Hlook].
  exists order. split; [exact Hback|]. by rewrite Horder.
Qed.

Lemma refused_order_is_stored_all_the_same_witness :
  let good := [CartItem.mk (Some "p1") "maize meal" (Js.ofZ 100) "" (Js.ofZ 2)] in
  let bad := CartItem.mk (Some "p9") "cooking oil" (Js.ofZ 50) "" (Js.ofZ 1) in
  let r := StoreService.createOrder sample_users sample_products ∅ "o1" "u1"
             (good ++ bad :: []) "12 Vilakazi St" "card" in
  (StoreService.r_reply r = Failure ClientError \/
   StoreService.r_reply r = Failure (Error "Product not found")) /\
  (exists order,
     OrderRepository.getOrderById (StoreService.r_orders r) "o1" = Some order /\
     Order.items order = map CartItem.construct (good ++ bad :: []) /\
     Order.status order = "processing") /\
  forall productId,
    StoreService.r_products r !! productId
    = less_stock (ordered_quantity productId (map CartItem.construct good))
        <$> sample_products !! productId.
Proof.
  apply refused_order_is_stored_all_the_same.
  - discriminate.
  - repeat constructor. exists "p1". split; [reflexivity|]. split; [discriminate|].
    by eexists.
  - right. exists "p9". split; [reflexivity|]. split; [discriminate|]. reflexivity.
Defined.

(** ** Reading dates back *)

Lemma append_assoc (a b c : string) : (a +:+ b) +:+ c = a +:+ (b +:+ c).
Proof.
  induction a as [|x a IH]; [reflexivity|].
  change (String x a +:+ b) with (String x (a +:+ b)).
  change (String x (a +:+ b) +:+ c) with (String x ((a +:+ b) +:+ c)).
  change (String x a +:+ (b +:+ c)) with (String x (a +:+ (b +:+ c))).
  by rewrite IH.
Qed.

Lemma digit_value_digit (n : Z) :
  0 <= n <= 9 -> JsDate.digit_value (JsDate.digit n) = Some n.
Proof.
  intros Hn.
  assert (Hk : (Z.to_nat n <= 9)%nat) by lia.
  rewrite <- (Z2Nat.id n) by lia.
  revert Hk. generalize (Z.to_nat n). intros k Hk.
  do 10 (destruct k as [|k]; [reflexivity|]). lia.
Qed.

Lemma read_digits_add (w k : nat) (acc : Z) (s : string) :
  JsDate.read_digits (w + k) acc s
  = match JsDate.read_digits w acc s with
    | Some (v, rest) => JsDate.read_digits k v rest
    | None => None
    end.
Proof.
  revert acc s. induction w as [|w IH]; intros acc s; [reflexivity|].
  cbn [Nat.add JsDate.read_digits].
  destruct s as [|c rest]; [reflexivity|].
  destruct (JsDate.digit_value c) as [d|]; [apply IH | reflexivity].
Qed.

(** Reading back a zero-padded number. *)
Lemma read_digits_pad (w : nat) (n acc : Z) (rest : string) :
  0 <= n < 10 ^ Z.of_nat w ->
  JsDate.read_digits w acc (JsDate.pad w n +:+ rest) = Some (acc * 10 ^ Z.of_nat w + n, rest).
Proof.
  revert n acc rest. induction w as [|w IH]; intros n acc rest Hn.
  - cbn [JsDate.pad JsDate.read_digits]. change (Z.of_nat 0) with 0 in *.
    rewrite Z.pow_0_r in *. assert (n = 0) as -> by lia.
    by rewrite Z.mul_1_r, Z.add_0_r.
  - rewrite Nat2Z.inj_succ, Z.pow_succ_r in * by lia.
    cbn [JsDate.pad]. rewrite append_assoc.
    change (String (JsDate.digit (n mod 10)) "" +:+ rest)
      with (String (JsDate.digit (n mod 10)) rest).
    replace (S w) with (w + 1)%nat by lia.
    rewrite read_digits_add.
    rewrite IH by (Z.div_mod_to_equations; lia).
    cbn [JsDate.read_digits].
    rewrite digit_value_digit by (Z.div_mod_to_equations; lia).
    do 2 f_equal; Z.div_mod_to_equations; lia.
Qed.

Lemma read_digits_sign (n : nat) (acc : Z) (s : string) :
  JsDate.read_digits (S n) acc (String "-" s) = None /\
  JsDate.read_digits (S n) acc (String "+" s) = None.
Proof. split; reflexivity. Qed.

Lemma read_year_isoYear (y : Z) (rest : string) :
  -999999 <= y <= 999999 ->
  JsDate.read_year (JsDate.isoYear y +:+ rest) = Some (y, rest).
Proof.
  intros Hy. unfold JsDate.isoYear, JsDate.read_year.
  destruct ((0 <=? y) && (y <=? 9999)) eqn:Hsmall.
  - apply andb_prop in Hsmall as [H0 H1]. apply Z.leb_le in H0, H1.
    rewrite (read_digits_pad 4 y 0 rest) by (change (10 ^ Z.of_nat 4) with 10000; lia).
    do 2 f_equal; lia.
  - assert (Hbig : y < 0 \/ 9999 < y).
    { destruct (Z.leb_spec 0 y); destruct (Z.leb_spec y 9999); cbn in Hsmall; try lia;
        discriminate. }
    rewrite append_assoc.
    destruct (y <? 0) eqn:Hneg.
    + apply Z.ltb_lt in Hneg.
      change ("-" +:+ (JsDate.pad 6 (Z.abs y) +:+ rest))
        with (String "-"%char (JsDate.pad 6 (Z.abs y) +:+ rest)).
      rewrite (proj1 (read_digits_sign 3 0 _)). cbv beta iota.
      rewrite (read_digits_pad 6 (Z.abs y) 0 rest)
        by (change (10 ^ Z.of_nat 6) with 1000000; lia).
      cbn [mbind option_bind].
      replace (0 * 10 ^ Z.of_nat 6 + Z.abs y) with (- y) by lia.
      destruct (Z.eqb_spec (- y) 0); [lia|]. do 2 f_equal; lia.
    + apply Z.ltb_ge in Hneg.
      change ("+" +:+ (JsDate.pad 6 (Z.abs y) +:+ rest))
        with (String "+"%char (JsDate.pad 6 (Z.abs y) +:+ rest)).
      rewrite (proj2 (read_digits_sign 3 0 _)). cbv beta iota.
      rewrite (read_digits_pad 6 (Z.abs y) 0 rest)
        by (change (10 ^ Z.of_nat 6) with 1000000; lia).
      do 2 f_equal; lia.
Qed.

Lemma expect_append (c : ascii) (s : string) :
  JsDate.expect c (String c "" +:+ s) = Some s.
Proof.
  change (String c "" +:+ s) with (String c s). unfold JsDate.expect.
  by rewrite Ascii.eqb_refl.
Qed.

Lemma append_nil_r (s : string) : s +:+ "" = s.
Proof.
  induction s as [|c s IH]; [reflexivity|].
  change (String c s +:+ "") with (String c (s +:+ "")). by rewrite IH.
Qed.

Lemma bind_Some {A B : Type} (x : A) (f : A -> option B) : (Some x ≫= f) = f x.
Proof. reflexivity. Qed.

(** [Date.parse] on a printed date followed by [tail]. *)
Lemma parse_date_part (y m d : Z) (tail : string) :
  -999999 <= y <= 999999 -> 0 <= m <= 11 -> 1 <= d <= JsDate.daysInMonth y m ->
  JsDate.parse (JsDate.isoYear y +:+ "-" +:+ JsDate.pad 2 (m + 1) +:+ "-" +:+
                JsDate.pad 2 d +:+ tail)
  = match tail with
    | EmptyString => Some (JsDate.MakeDate (JsDate.days_from_civil y m d) 0)
    | String "T" rest =>
        time ← JsDate.read_time rest;
        Some (JsDate.MakeDate (JsDate.days_from_civil y m d) time)
    | _ => None
    end.
Proof.
  intros Hy Hm Hd. pose proof (daysInMonth_le_31 y m) as H31.
  unfold JsDate.parse.
  rewrite read_year_isoYear by done. rewrite bind_Some. cbv beta iota.
  rewrite expect_append, bind_Some.
  rewrite (read_digits_pad 2 (m + 1) 0) by (change (10 ^ Z.of_nat 2) with 100; lia).
  rewrite bind_Some. cbv beta iota.
  rewrite expect_append, bind_Some.
  rewrite (read_digits_pad 2 d 0) by (change (10 ^ Z.of_nat 2) with 100; lia).
  rewrite bind_Some. cbv beta iota.
  replace (0 * 10 ^ Z.of_nat 2 + (m + 1)) with (m + 1) by lia.
  replace (0 * 10 ^ Z.of_nat 2 + d) with d by lia.
  replace (m + 1 - 1) with m by lia.
  rewrite (MakeDay_in_range y m d Hm).
  destruct (Z.leb_spec 1 (m + 1)); [|lia].
  destruct (Z.leb_spec (m + 1) 12); [|lia].
  destruct (Z.leb_spec 1 d); [|lia].
  destruct (Z.leb_spec d 31); [|lia].
  reflexivity.
Qed.

Lemma time_fields (t : Z) :
  let time := JsDate.TimeWithinDay t in
  0 <= time < JsDate.msPerDay /\
  0 <= JsDate.HourFromTime time <= 23 /\
  0 <= JsDate.MinFromTime time <= 59 /\
  0 <= JsDate.SecFromTime time <= 59 /\
  0 <= JsDate.msFromTime time <= 999 /\
  JsDate.MakeTime (JsDate.HourFromTime time) (JsDate.MinFromTime time)
    (JsDate.SecFromTime time) (JsDate.msFromTime time) = time.
Proof.
  cbv zeta.
  unfold JsDate.TimeWithinDay, JsDate.HourFromTime, JsDate.MinFromTime, JsDate.SecFromTime,
    JsDate.msFromTime, JsDate.MakeTime, JsDate.msPerDay.
  Z.div_mod_to_equations. lia.
Qed.

(** Reading back the time part of an ISO string. *)
Lemma read_time_isoTime (t : Z) :
  JsDate.read_time (JsDate.isoTime t) = Some (JsDate.TimeWithinDay t).
Proof.
  destruct (time_fields t) as (Ht & Hh & Hmi & Hs & Hms & Hmake). cbv zeta in *.
  unfold JsDate.read_time, JsDate.isoTime.
  rewrite (read_digits_pad 2 _ 0) by (change (10 ^ Z.of_nat 2) with 100; lia).
  rewrite bind_Some. cbv beta iota.
  rewrite expect_append, bind_Some.
  rewrite (read_digits_pad 2 _ 0) by (change (10 ^ Z.of_nat 2) with 100; lia).
  rewrite bind_Some. cbv beta iota.
  rewrite expect_append, bind_Some.
  rewrite (read_digits_pad 2 _ 0) by (change (10 ^ Z.of_nat 2) with 100; lia).
  rewrite bind_Some. cbv beta iota.
  rewrite expect_append, bind_Some.
  rewrite (read_digits_pad 3 _ 0 "Z") by (change (10 ^ Z.of_nat 3) with 1000; lia).
  rewrite bind_Some. cbv beta iota.
  change (JsDate.expect "Z" "Z") with (Some ""). rewrite bind_Some.
  set (h := JsDate.HourFromTime _) in *. set (mi := JsDate.MinFromTime _) in *.
  set (sec := JsDate.SecFromTime _) in *. set (ms := JsDate.msFromTime _) in *.
  replace (0 * 10 ^ Z.of_nat 2 + h) with h by lia.
  replace (0 * 10 ^ Z.of_nat 2 + mi) with mi by lia.
  replace (0 * 10 ^ Z.of_nat 2 + sec) with sec by lia.
  replace (0 * 10 ^ Z.of_nat 3 + ms) with ms by lia.
  destruct (Z.leb_spec h 23); [|lia].
  destruct (Z.leb_spec mi 59); [|lia].
  destruct (Z.leb_spec sec 59); [|lia].
  cbn [andb]. by rewrite Hmake.
Qed.

(** The years of the time values a [Date] can hold. *)
Lemma year_of_time_value (t : Z) :
  -8640000000000000 <= t <= 8640000000000000 ->
  -999999 <= JsDate.YearFromTime t <= 999999.
Proof.
  intros Ht. unfold JsDate.YearFromTime, JsDate.civil_from_days, JsDate.civil_of_doe.
  set (z := JsDate.Day t).
  assert (Hz : -100000000 <= z <= 100000000).
  { subst z. unfold JsDate.Day, JsDate.msPerDay. Z.div_mod_to_equations. lia. }
  set (doe := (z + 719468) mod 146097).
  set (era := (z + 719468) / 146097).
  assert (Hdoe : 0 <= doe < 146097) by (subst doe; apply Z.mod_pos_bound; lia).
  assert (Hera : -700 <= era <= 700) by (subst era; Z.div_mod_to_equations; lia).
  destruct (civil_of_doe_range doe Hdoe) as (Hy & _).
  cbv zeta in Hy. cbn [fst snd].
  match goal with
  | |- context [if ?b then 1 else 0] => destruct b
  end; lia.
Qed.

Lemma date_fields_valid (t : Z) :
  0 <= JsDate.MonthFromTime t <= 11 /\
  1 <= JsDate.DateFromTime t <= JsDate.daysInMonth (JsDate.YearFromTime t) (JsDate.MonthFromTime t) /\
  JsDate.days_from_civil (JsDate.YearFromTime t) (JsDate.MonthFromTime t) (JsDate.DateFromTime t)
  = JsDate.Day t.
Proof.
  unfold JsDate.YearFromTime, JsDate.MonthFromTime, JsDate.DateFromTime.
  pose proof (civil_from_days_valid (JsDate.Day t)) as Hv.
  pose proof (days_from_civil_from_days (JsDate.Day t)) as Hb.
  destruct (JsDate.civil_from_days (JsDate.Day t)) as [[y m] d]. cbn [fst snd].
  tauto.
Qed.

(** A date-only text means midnight UTC of that date. *)
Lemma parse_isoDate (t : Z) :
  -8640000000000000 <= t <= 8640000000000000 ->
  JsDate.parse (JsDate.isoDate t) = Some (JsDate.Day t * JsDate.msPerDay).
Proof.
  intros Ht. pose proof (year_of_time_value t Ht) as Hy.
  destruct (date_fields_valid t) as (Hm & Hd & Hday).
  unfold JsDate.isoDate.
  rewrite <- (append_nil_r (JsDate.pad 2 (JsDate.DateFromTime t))).
  rewrite (parse_date_part _ _ _ "" Hy Hm Hd), Hday.
  unfold JsDate.MakeDate. f_equal. lia.
Qed.

(** [Date.parse] undoes [toISOString]. *)
Lemma parse_toISOString (t : Z) :
  -8640000000000000 <= t <= 8640000000000000 ->
  JsDate.parse (JsDate.toISOString t) = Some t.
Proof.
  intros Ht. pose proof (year_of_time_value t Ht) as Hy.
  destruct (date_fields_valid t) as (Hm & Hd & Hday).
  unfold JsDate.toISOString, JsDate.isoDate.
  rewrite !append_assoc.
  change ("T" +:+ JsDate.isoTime t) with (String "T"%char (JsDate.isoTime t)).
  rewrite (parse_date_part _ _ _ _ Hy Hm Hd), Hday.
  rewrite read_time_isoTime, bind_Some.
  unfold JsDate.MakeDate, JsDate.Day, JsDate.TimeWithinDay, JsDate.msPerDay.
  f_equal. Z.div_mod_to_equations. lia.
Qed.

(** X22: after a contribution at [now], the membership falls due at
    midnight UTC of the date one length of the current local month later:
    isContributionDue is false before that instant and true from it on.
    The instant lies less than a day before the contribution's time of day
    on that date, so a membership is never due within 27 days of a
    contribution and always due 31 days after it. *)
Theorem contribution_falls_due_a_month_on (tzOffset : Z) (m : StokvelMembership.t)
    (amount : Qc) (now t : Z) :
  -8640000000000000 <= now ->
  now + 31 * JsDate.msPerDay <= 8640000000000000 ->
  let m' := StokvelMembership.recordContribution tzOffset m amount now in
  let days := JsDate.daysInMonth (JsDate.getFullYear tzOffset now)
                (JsDate.getMonth tzOffset now) in
  let due := JsDate.Day (now + days * JsDate.msPerDay) * JsDate.msPerDay in
  (StokvelMembership.isContributionDue m' t = true <-> due <= t) /\
  now + (days - 1) * JsDate.msPerDay < due <= now + days * JsDate.msPerDay /\
  28 <= days <= 31 /\
  (t <= now + 27 * JsDate.msPerDay -> StokvelMembership.isContributionDue m' t = false) /\
  (now + 31 * JsDate.msPerDay <= t -> StokvelMembership.isContributionDue m' t = true).
Proof.
  intros Hlo Hhi. cbv zeta.
  pose proof (daysInMonth_ge_28 (JsDate.getFullYear tzOffset now)
                (JsDate.getMonth tzOffset now)) as H28.
  pose proof (daysInMonth_le_31 (JsDate.getFullYear tzOffset now)
                (JsDate.getMonth tzOffset now)) as H31.
  set (days := JsDate.daysInMonth _ _) in *.
  set (next := now + days * JsDate.msPerDay).
  assert (Hnext : -8640000000000000 <= next <= 8640000000000000).
  { subst next. unfold JsDate.msPerDay in *. lia. }
  assert (Hdue : forall t',
            StokvelMembership.isContributionDue
              (StokvelMembership.recordContribution tzOffset m amount now) t'
            = bool_decide (JsDate.Day next * JsDate.msPerDay <= t')).
  { intros t'. unfold StokvelMembership.isContributionDue.
    rewrite recordContribution_nextContributionDate, setMonth_next.
    fold days. fold next.
    pose proof (parse_isoDate next Hnext) as Hparse.
    destruct (JsDate.isoDate next) as [|c s] eqn:Hs; [discriminate|].
    by rewrite Hparse. }
  assert (Hbounds : now + (days - 1) * JsDate.msPerDay < JsDate.Day next * JsDate.msPerDay
                    <= now + days * JsDate.msPerDay).
  { subst next. unfold JsDate.Day, JsDate.msPerDay. Z.div_mod_to_equations. lia. }
  split; [|split; [exact Hbounds|split; [lia|split]]].
  - rewrite Hdue. apply bool_decide_eq_true.
  - intros Ht. rewrite Hdue. apply bool_decide_eq_false. unfold JsDate.msPerDay in *. lia.
  - intros Ht. rewrite Hdue. apply bool_decide_eq_true. unfold JsDate.msPerDay in *. lia.
Qed.

Lemma contribution_falls_due_a_month_on_witness :
  let m' := StokvelMembership.recordContribution SAST membership_sample (Js.ofZ 250)
              t_2025_01_31 in
  let days := JsDate.daysInMonth (JsDate.getFullYear SAST t_2025_01_31)
                (JsDate.getMonth SAST t_2025_01_31) in
  let due := JsDate.Day (t_2025_01_31 + days * JsDate.msPerDay) * JsDate.msPerDay in
  (StokvelMembership.isContributionDue m' t_2025_02_28_23h = true
   <-> due <= t_2025_02_28_23h) /\
  t_2025_01_31 + (days - 1) * JsDate.msPerDay < due <= t_2025_01_31 + days * JsDate.msPerDay /\
  28 <= days <= 31 /\
  (t_2025_02_28_23h <= t_2025_01_31 + 27 * JsDate.msPerDay ->
   StokvelMembership.isContributionDue m' t_2025_02_28_23h = false) /\
  (t_2025_01_31 + 31 * JsDate.msPerDay <= t_2025_02_28_23h ->
   StokvelMembership.isContributionDue m' t_2025_02_28_23h = true).
Proof.
  apply (contribution_falls_due_a_month_on SAST membership_sample (Js.ofZ 250)
           t_2025_01_31 t_2025_02_28_23h).
  - unfold t_2025_01_31. lia.
  - unfold t_2025_01_31, JsDate.msPerDay. lia.
Defined.

(** ** Joining a stokvel *)

Lemma getStokvelTypeConfig_cases (type : string) (cfg : StokvelService.typeConfig) :
  StokvelService.getStokvelTypeConfig type = Some cfg ->
  cfg = StokvelService.JANUARY \/ cfg = StokvelService.GROCERY \/ cfg = StokvelService.PLANNING.
Proof.
  unfold StokvelService.getStokvelTypeConfig.
  destruct (StokvelService.includes _ "january"); [intros [= <-]; tauto|].
  destruct (StokvelService.includes _ "grocery"); [intros [= <-]; tauto|].
  destruct (StokvelService.includes _ "planning"); [intros [= <-]; tauto|].
  discriminate.
Qed.

Lemma isoDate_nonempty (t : Z) : JsDate.isoDate t <> "".
Proof.
  unfold JsDate.isoDate. intros H.
  destruct (JsDate.isoYear (JsDate.YearFromTime t)) as [|c s]; discriminate.
Qed.

Lemma arrayUnion_fresh (xs : list StokvelMembership.t) (x : StokvelMembership.t) (key : string) :
  StokvelMembership.id x = Some key ->
  Forall (fun s => StokvelMembership.id s <> Some key) xs ->
  UserRepository.arrayUnion xs x = xs ++ [x].
Proof.
  intros Hx Hall. unfold UserRepository.arrayUnion.
  rewrite bool_decide_eq_false_2; [done|].
  intros Hin. rewrite Forall_forall in Hall. by apply (Hall x Hin).
Qed.

(** X23: a user who joins a stokvel of a recognised type gets a stokvel
    stored under the new id with the user as its only member, and a
    membership with that id appended to the user's memberships: balance 0,
    and the projected payout calculateProjectedPayout gives for the stokvel,
    ten monthly amounts.  Early withdrawal is allowed on the stokvel exactly
    when the type's configuration allows it.  A first contribution to the
    new membership then succeeds and leaves the amount as its balance. *)
Theorem joined_stokvel_takes_contributions
    (tzOffset : Z) (users : UserRepository.store) (stokvels : StokvelRepository.store)
    (contributions : ContributionRepository.store)
    (newId contributionId userId stokvelType paymentMethod : string)
    (monthlyAmount amount : Qc) (today now1 now2 now3 now4 now5 now6 : Z)
    (d : UserRepository.doc) (cfg : StokvelService.typeConfig) :
  users !! userId = Some d ->
  StokvelService.getStokvelTypeConfig stokvelType = Some cfg ->
  newId <> "" ->
  Forall (fun s => StokvelMembership.id s <> Some newId) (UserRepository.stokvels d) ->
  let j := StokvelService.joinStokvel tzOffset users stokvels newId userId stokvelType
             monthlyAmount paymentMethod today now1 now2 now3 now4 in
  exists stokvel membership d1,
    StokvelService.j_reply j = Success (stokvel, membership) /\
    Stokvel.id stokvel = Some newId /\
    Stokvel.members stokvel = [userId] /\
    StokvelService.j_stokvels j !! newId = Some (Stokvel.toFirestore stokvel) /\
    Stokvel.allowsEarlyWithdrawal stokvel = StokvelService.allowsEarlyWithdrawal cfg /\
    StokvelMembership.projectedPayout membership = Stokvel.calculateProjectedPayout stokvel /\
    Stokvel.calculateProjectedPayout stokvel = (monthlyAmount * Js.ofZ 10)%Qc /\
    StokvelMembership.id membership = Some newId /\
    StokvelMembership.balance membership = 0%Qc /\
    StokvelService.j_users j !! userId = Some d1 /\
    UserRepository.stokvels d1 = UserRepository.stokvels d ++ [membership] /\
    let c := StokvelService.makeContribution tzOffset (StokvelService.j_users j) contributions
               contributionId userId newId amount paymentMethod now5 now6 in
    exists m,
      StokvelService.c_reply c = Success (m, amount) /\
      StokvelMembership.balance m = amount /\
      StokvelMembership.contributionsCount m = 1.
Proof.
  intros Hd Hcfg Hne Hfresh. cbv zeta.
  unfold StokvelService.joinStokvel. rewrite Hcfg.
  unfold StokvelRepository.createStokvel.
  set (dates := StokvelService.calculateStokvelDates tzOffset cfg today now1 now2).
  assert (Hdur : StokvelService.durationMonths cfg = 10).
  { by destruct (getStokvelTypeConfig_cases _ _ Hcfg) as [-> | [-> | ->]]. }
  assert (Hname : StokvelService.tc_type cfg <> "" /\
                  Stokvel.allowsEarlyWithdrawal
                    (Stokvel.mk (Some newId) (StokvelService.tc_name cfg)
                       (StokvelService.tc_type cfg) "To be assigned"
                       (Some (StokvelService.startDate dates))
                       (Some (StokvelService.endDate dates)) (Js.ofZ 10) monthlyAmount
                       [userId] "active")
                  = StokvelService.allowsEarlyWithdrawal cfg).
  { by destruct (getStokvelTypeConfig_cases _ _ Hcfg) as [-> | [-> | ->]]. }
  destruct Hname as [_ Hallow].
  rewrite Hdur.
  set (membership :=
         StokvelMembership.mk (Some newId) (StokvelService.tc_name cfg)
           (StokvelService.tc_type cfg) 0%Qc monthlyAmount
           (Some (StokvelService.calculateNextContributionDate tzOffset now3)) 0 "active"
           (monthlyAmount * Js.ofZ 10)%Qc now4).
  unfold Stokvel.construct.
  cbn [Stokvel.id Stokvel.name Stokvel.type Stokvel.manager Stokvel.startDate Stokvel.endDate
       Stokvel.durationMonths Stokvel.monthlyContribution Stokvel.members Stokvel.status].
  change (if Qc_eq_dec (Js.ofZ 10) 0%Qc then Js.ofZ 10 else Js.ofZ 10) with (Js.ofZ 10).
  change (if decide ("active" = "") then "pending" else "active") with "active".
  assert (Hnext : StokvelService.calculateNextContributionDate tzOffset now3 <> "").
  { unfold StokvelService.calculateNextContributionDate.
    rewrite split_T_head_toISOString. apply isoDate_nonempty. }
  assert (Hconstruct :
            StokvelMembership.construct
              (StokvelMembership.mk (Some newId) (StokvelService.tc_name cfg)
                 (StokvelService.tc_type cfg) 0%Qc monthlyAmount
                 (Some (StokvelService.calculateNextContributionDate tzOffset now3)) 0
                 "active" (monthlyAmount * Js.ofZ 10)%Qc now4) = membership).
  { unfold StokvelMembership.construct, membership.
    cbn [StokvelMembership.id StokvelMembership.name StokvelMembership.type
         StokvelMembership.balance StokvelMembership.monthlyContribution
         StokvelMembership.nextContributionDate StokvelMembership.contributionsCount
         StokvelMembership.status StokvelMembership.projectedPayout
         StokvelMembership.joinedAt].
    destruct newId as [|c0 s0]; [done|].
    destruct (StokvelService.calculateNextContributionDate tzOffset now3) as [|c1 s1];
      [done|]. reflexivity. }
  rewrite Hconstruct.
  unfold UserRepository.addStokvelToUser.
  rewrite (update_found _ _ _ _ Hd).
  unfold StokvelMembership.toObject.
  rewrite (arrayUnion_fresh _ membership newId eq_refl Hfresh).
  cbn [StokvelService.j_reply StokvelService.j_users StokvelService.j_stokvels].
  eexists _, membership, _.
  split; [reflexivity|]. split; [reflexivity|]. split; [reflexivity|].
  split; [by rewrite lookup_insert_eq|].
  split; [exact Hallow|].
  split; [reflexivity|]. split; [reflexivity|]. split; [reflexivity|].
  split; [reflexivity|].
  split; [by rewrite lookup_insert_eq|].
  split; [reflexivity|].
  set (d1 := UserRepository.set_stokvels (UserRepository.stokvels d ++ [membership]) d).
  destruct (makeContribution_found tzOffset (<[userId := d1]> users) contributions
              contributionId userId newId amount paymentMethod now5 now6 d1
              (UserRepository.stokvels d) [] membership)
    as (m & d' & Hreply & Hbal & Hcount & _).
  - apply lookup_insert_eq.
  - reflexivity.
  - exact Hfresh.
  - reflexivity.
  - exists m.
    assert (Hzero : (StokvelMembership.balance membership + amount)%Qc = amount).
    { cbn [StokvelMembership.balance membership]. ring. }
    rewrite Hzero in Hreply, Hbal.
    split; [exact Hreply|]. split; [exact Hbal|]. exact Hcount.
Qed.

Lemma joined_stokvel_takes_contributions_witness :
  let j := StokvelService.joinStokvel SAST sample_users ∅ "S2" "u1" "Planning Ahead"
             (Js.ofZ 300) "card" t_2025_01_31 t_2025_01_31 t_2025_01_31 t_2025_01_31
             t_2025_01_31 in
  exists stokvel membership d1,
    StokvelService.j_reply j = Success (stokvel, membership) /\
    Stokvel.id stokvel = Some "S2" /\
    Stokvel.members stokvel = ["u1"] /\
    StokvelService.j_stokvels j !! "S2" = Some (Stokvel.toFirestore stokvel) /\
    Stokvel.allowsEarlyWithdrawal stokvel
      = StokvelService.allowsEarlyWithdrawal StokvelService.PLANNING /\
    StokvelMembership.projectedPayout membership = Stokvel.calculateProjectedPayout stokvel /\
    Stokvel.calculateProjectedPayout stokvel = (Js.ofZ 300 * Js.ofZ 10)%Qc /\
    StokvelMembership.id membership = Some "S2" /\
    StokvelMembership.balance membership = 0%Qc /\
    StokvelService.j_users j !! "u1" = Some d1 /\
    UserRepository.stokvels d1 = UserRepository.stokvels user_doc_sample ++ [membership] /\
    let c := StokvelService.makeContribution SAST (StokvelService.j_users j) ∅
               "c1" "u1" "S2" (Js.ofZ 300) "card" t_2025_11_02 t_2025_11_02 in
    exists m,
      StokvelService.c_reply c = Success (m, Js.ofZ 300) /\
      StokvelMembership.balance m = Js.ofZ 300 /\
      StokvelMembership.contributionsCount m = 1.
Proof.
  apply (joined_stokvel_takes_contributions SAST sample_users ∅ ∅ "S2" "c1" "u1"
           "Planning Ahead" "card" (Js.ofZ 300) (Js.ofZ 300) t_2025_01_31 t_2025_01_31
           t_2025_01_31 t_2025_01_31 t_2025_01_31 t_2025_11_02 t_2025_11_02
           user_doc_sample StokvelService.PLANNING).
  - reflexivity.
  - reflexivity.
  - discriminate.
  - repeat constructor. discriminate.
Defined.

Lemma lower_idempotent (c : ascii) :
  StokvelService.lower (StokvelService.lower c) = StokvelService.lower c.
Proof. destruct c as [[] [] [] [] [] [] [] []]; reflexivity. Qed.

Lemma toLowerCase_idempotent (s : string) :
  StokvelService.toLowerCase (StokvelService.toLowerCase s) = StokvelService.toLowerCase s.
Proof.
  induction s as [|c s IH]; [reflexivity|].
  cbn [StokvelService.toLowerCase]. by rewrite lower_idempotent, IH.
Qed.

(** X24: joinStokvel recognises a type by the lower-cased text, so the
    answer does not depend on the case of the letters, and the name and the
    type of each of the three configurations are recognised as that
    configuration.  A type that is not recognised is refused with nothing
    stored.  For a recognised type and a user with no document the reply is
    a failure and the user collection is unchanged, but the stokvel has been
    stored, active and with that user as its member. *)
Theorem joinStokvel_refusals
    (tzOffset : Z) (users : UserRepository.store) (stokvels : StokvelRepository.store)
    (newId userId stokvelType paymentMethod : string) (monthlyAmount : Qc)
    (today now1 now2 now3 now4 : Z) :
  let j := StokvelService.joinStokvel tzOffset users stokvels newId userId stokvelType
             monthlyAmount paymentMethod today now1 now2 now3 now4 in
  StokvelService.getStokvelTypeConfig (StokvelService.toLowerCase stokvelType)
    = StokvelService.getStokvelTypeConfig stokvelType /\
  Forall (fun cfg =>
            StokvelService.getStokvelTypeConfig (StokvelService.tc_name cfg) = Some cfg /\
            StokvelService.getStokvelTypeConfig (StokvelService.tc_type cfg) = Some cfg)
    [StokvelService.JANUARY; StokvelService.GROCERY; StokvelService.PLANNING] /\
  (StokvelService.getStokvelTypeConfig stokvelType = None ->
   j = StokvelService.mkJoined (Failure (Error "Invalid stokvel type")) users stokvels) /\
  (StokvelService.getStokvelTypeConfig stokvelType <> None ->
   users !! userId = None ->
   StokvelService.j_reply j = Failure ClientError /\
   StokvelService.j_users j = users /\
   exists doc,
     StokvelService.j_stokvels j !! newId = Some doc /\
     Stokvel.d_members doc = [userId] /\
     Stokvel.d_status doc = "active").
Proof.
  cbv zeta. split; [|split; [|split]].
  - unfold StokvelService.getStokvelTypeConfig. by rewrite toLowerCase_idempotent.
  - repeat constructor.
  - intros Hnone. unfold StokvelService.joinStokvel. by rewrite Hnone.
  - intros Hsome Huser. unfold StokvelService.joinStokvel.
    destruct (StokvelService.getStokvelTypeConfig stokvelType) as [cfg|]; [|done].
    unfold StokvelRepository.createStokvel, UserRepository.addStokvelToUser,
      UserRepository.update.
    rewrite Huser.
    cbn [StokvelService.j_reply StokvelService.j_users StokvelService.j_stokvels].
    split; [done|]. split; [done|].
    eexists. split; [apply lookup_insert_eq|]. split; reflexivity.
Qed.

(** ** When a stokvel is active *)

(** A stokvel that runs from the first of one month to the first of a
    later month of the year [y], seen at a time of that local year. *)
Lemma isActive_window (tzOffset y first last t : Z) (s : Stokvel.t) :
  ~ (0 <= y <= 99) -> 0 <= first <= last -> last <= 11 ->
  Stokvel.status s = "active" ->
  Stokvel.startDate s = Some (JsDate.construct tzOffset y first 1) ->
  Stokvel.endDate s = Some (JsDate.construct tzOffset y last 1) ->
  JsDate.getFullYear tzOffset t = y ->
  Stokvel.isActive s t = true <->
  first <= JsDate.getMonth tzOffset t < last \/ t = JsDate.construct tzOffset y last 1.
Proof.
  intros Hy Hfirst Hlast Hstatus Hstart Hend Hyear.
  unfold Stokvel.isActive. rewrite Hstatus, Hstart, Hend.
  rewrite bool_decide_eq_true_2 by done. cbn [andb].
  rewrite andb_true_iff, !bool_decide_eq_true.
  pose proof (construct_le_iff tzOffset y first t Hy ltac:(lia)) as Hs.
  pose proof (construct_le_iff tzOffset y last t Hy ltac:(lia)) as He.
  rewrite Hyear in Hs, He.
  split.
  - intros [H1 H2]. apply Hs in H1.
    destruct (Z.eq_dec t (JsDate.construct tzOffset y last 1)) as [Heq|Hne]; [by right|].
    left. split; [lia|].
    destruct (Z.lt_ge_cases (JsDate.getMonth tzOffset t) last) as [|Hge]; [done|exfalso].
    assert (JsDate.construct tzOffset y last 1 <= t) by (apply He; lia). lia.
  - intros [[H1 H2] | Heq].
    + split; [apply Hs; lia|].
      destruct (Z.le_gt_cases t (JsDate.construct tzOffset y last 1)) as [|Hgt]; [done|exfalso].
      assert (JsDate.construct tzOffset y last 1 <= t) as Hle by lia.
      apply He in Hle. lia.
    + subst t. split; [|lia].
      apply Hs.
      assert (Hm : JsDate.getMonth tzOffset (JsDate.construct tzOffset y last 1) = last).
      { pose proof (local_fields_construct tzOffset y last 1 Hy ltac:(lia)) as Hf.
        pose proof (daysInMonth_ge_28 y last).
        unfold local_fields in Hf. specialize (Hf ltac:(lia)). by injection Hf. }
      lia.
Qed.

(** [Math.ceil] of a count of days, in integer arithmetic. *)
Lemma ceil_div_days (a : Z) :
  Js.ceil (Js.ofZ a / Js.ofZ (1000 * 60 * 60 * 24))%Qc = - ((- a) / 86400000).
Proof.
  unfold Js.ceil, Qceiling. f_equal.
  transitivity (Qfloor ((- a) # 86400000)).
  - apply Qfloor_comp.
    unfold Js.ofZ, Qcdiv, Qcmult, Qcinv, Q2Qc, this.
    rewrite !Qred_correct.
    change (1000 * 60 * 60 * 24) with 86400000.
    unfold Qeq, Qopp, Qmult, Qinv, inject_Z; cbn. lia.
  - reflexivity.
Qed.

(** X25: a January stokvel runs from 1 February to 1 December of the year
    in which it is joined, a Grocery stokvel from 1 January to 1 October.
    Seen at a time of that local year, the stokvel a member has just joined
    is active exactly in the months February to November, or January to
    September, and at the closing midnight itself.  Joined in any other
    month it is not active then, and from the closing month on
    getDaysUntilPayout is zero or negative. *)
Theorem fixed_stokvel_is_active_in_its_months_only
    (tzOffset : Z) (users : UserRepository.store) (stokvels : StokvelRepository.store)
    (newId userId stokvelType paymentMethod : string) (monthlyAmount : Qc)
    (today now1 now2 now3 now4 t : Z) (d : UserRepository.doc)
    (cfg : StokvelService.typeConfig) :
  users !! userId = Some d ->
  StokvelService.getStokvelTypeConfig stokvelType = Some cfg ->
  cfg = StokvelService.JANUARY \/ cfg = StokvelService.GROCERY ->
  ~ (0 <= JsDate.getFullYear tzOffset today <= 99) ->
  JsDate.getFullYear tzOffset t = JsDate.getFullYear tzOffset today ->
  let j := StokvelService.joinStokvel tzOffset users stokvels newId userId stokvelType
             monthlyAmount paymentMethod today now1 now2 now3 now4 in
  let year := JsDate.getFullYear tzOffset today in
  let first := if decide (StokvelService.tc_type cfg = "January") then 1 else 0 in
  let last := if decide (StokvelService.tc_type cfg = "January") then 11 else 9 in
  exists stokvel membership days,
    StokvelService.j_reply j = Success (stokvel, membership) /\
    StokvelMembership.status membership = "active" /\
    (Stokvel.isActive stokvel t = true <->
     first <= JsDate.getMonth tzOffset t < last \/
     t = JsDate.construct tzOffset year last 1) /\
    Stokvel.getDaysUntilPayout stokvel t = Some days /\
    (days <= 0 <-> last <= JsDate.getMonth tzOffset t).
Proof.
  intros Hd Hcfg Hfixed Hyear Ht. cbv zeta.
  unfold StokvelService.joinStokvel. rewrite Hcfg.
  unfold StokvelRepository.createStokvel, UserRepository.addStokvelToUser.
  rewrite (update_found _ _ _ _ Hd).
  cbn [StokvelService.j_reply].
  set (year := JsDate.getFullYear tzOffset today) in *.
  set (first := if decide (StokvelService.tc_type cfg = "January") then 1 else 0).
  set (last := if decide (StokvelService.tc_type cfg = "January") then 11 else 9).
  assert (Hdates : StokvelService.calculateStokvelDates tzOffset cfg today now1 now2
                   = StokvelService.mkDates (JsDate.construct tzOffset year first 1)
                       (JsDate.construct tzOffset year last 1)).
  { destruct Hfixed as [-> | ->]; reflexivity. }
  assert (Hrange : 0 <= first <= last /\ last <= 11).
  { unfold first, last. destruct Hfixed as [-> | ->]; repeat case_decide; cbn in *; (lia || congruence). }
  rewrite Hdates. cbn [StokvelService.startDate StokvelService.endDate].
  unfold Stokvel.construct.
  cbn [Stokvel.id Stokvel.name Stokvel.type Stokvel.manager Stokvel.startDate Stokvel.endDate
       Stokvel.durationMonths Stokvel.monthlyContribution Stokvel.members Stokvel.status].
  change (if decide ("active" = "") then "pending" else "active") with "active".
  eexists _, _, _.
  split; [reflexivity|].
  split; [reflexivity|].
  split.
  { apply (isActive_window tzOffset year first last t); try done; lia. }
  unfold Stokvel.getDaysUntilPayout. cbn [Stokvel.endDate].
  split; [reflexivity|].
  rewrite ceil_div_days.
  pose proof (construct_le_iff tzOffset year last t Hyear ltac:(lia)) as He.
  rewrite Ht in He.
  split.
  - intros Hle.
    assert (JsDate.construct tzOffset year last 1 <= t)
      by (revert Hle; Z.div_mod_to_equations; lia).
    apply He in H. lia.
  - intros Hle.
    assert (JsDate.construct tzOffset year last 1 <= t) by (apply He; lia).
    Z.div_mod_to_equations. lia.
Qed.

Lemma fixed_stokvel_is_active_in_its_months_only_witness :
  let j := StokvelService.joinStokvel SAST sample_users ∅ "S2" "u1" "Grocery Stokvel"
             (Js.ofZ 300) "card" t_2025_11_02 t_2025_11_02 t_2025_11_02 t_2025_11_02
             t_2025_11_02 in
  let year := JsDate.getFullYear SAST t_2025_11_02 in
  let first := if decide (StokvelService.tc_type StokvelService.GROCERY = "January")
               then 1 else 0 in
  let last := if decide (StokvelService.tc_type StokvelService.GROCERY = "January")
              then 11 else 9 in
  exists stokvel membership days,
    StokvelService.j_reply j = Success (stokvel, membership) /\
    StokvelMembership.status membership = "active" /\
    (Stokvel.isActive stokvel t_2025_11_02 = true <->
     first <= JsDate.getMonth SAST t_2025_11_02 < last \/
     t_2025_11_02 = JsDate.construct SAST year last 1) /\
    Stokvel.getDaysUntilPayout stokvel t_2025_11_02 = Some days /\
    (days <= 0 <-> last <= JsDate.getMonth SAST t_2025_11_02).
Proof.
  apply (fixed_stokvel_is_active_in_its_months_only SAST sample_users ∅ "S2" "u1"
           "Grocery Stokvel" "card" (Js.ofZ 300) t_2025_11_02 t_2025_11_02 t_2025_11_02
           t_2025_11_02 t_2025_11_02 t_2025_11_02 user_doc_sample StokvelService.GROCERY).
  - reflexivity.
  - reflexivity.
  - by right.
  - vm_compute. intros [_ H]. by apply H.
  - reflexivity.
Defined.

(** X26: a Planning stokvel is active from the clock reading that is its
    start until a whole number of days, 303 to 306, after the clock reading
    its end is made from; at that second reading getDaysUntilPayout is that
    number of days.  Early withdrawal is allowed on it. *)
Theorem planning_stokvel_is_active_for_ten_months
    (tzOffset : Z) (users : UserRepository.store) (stokvels : StokvelRepository.store)
    (newId userId stokvelType paymentMethod : string) (monthlyAmount : Qc)
    (today now1 now2 now3 now4 t : Z) (d : UserRepository.doc) :
  users !! userId = Some d ->
  StokvelService.getStokvelTypeConfig stokvelType = Some StokvelService.PLANNING ->
  let j := StokvelService.joinStokvel tzOffset users stokvels newId userId stokvelType
             monthlyAmount paymentMethod today now1 now2 now3 now4 in
  exists stokvel membership days,
    StokvelService.j_reply j = Success (stokvel, membership) /\
    Stokvel.allowsEarlyWithdrawal stokvel = true /\
    303 <= days <= 306 /\
    (Stokvel.isActive stokvel t = true <-> now1 <= t <= now2 + days * JsDate.msPerDay) /\
    Stokvel.getDaysUntilPayout stokvel now2 = Some days.
Proof.
  intros Hd Hcfg. cbv zeta.
  unfold StokvelService.joinStokvel. rewrite Hcfg.
  unfold StokvelRepository.createStokvel, UserRepository.addStokvelToUser.
  rewrite (update_found _ _ _ _ Hd).
  cbn [StokvelService.j_reply].
  assert (Hdates : exists days,
            303 <= days <= 306 /\
            StokvelService.calculateStokvelDates tzOffset StokvelService.PLANNING today now1 now2
            = StokvelService.mkDates now1 (now2 + days * JsDate.msPerDay)).
  { unfold StokvelService.calculateStokvelDates.
    rewrite !decide_False by done. rewrite setMonth_shift.
    eexists. split; [|reflexivity].
    apply first_of_tenth_month, getMonth_range. }
  destruct Hdates as (days & Hdays & ->).
  cbn [StokvelService.startDate StokvelService.endDate].
  unfold Stokvel.construct.
  cbn [Stokvel.id Stokvel.name Stokvel.type Stokvel.manager Stokvel.startDate Stokvel.endDate
       Stokvel.durationMonths Stokvel.monthlyContribution Stokvel.members Stokvel.status].
  change (if decide ("active" = "") then "pending" else "active") with "active".
  eexists _, _, days.
  split; [reflexivity|].
  split; [reflexivity|].
  split; [exact Hdays|].
  split.
  - unfold Stokvel.isActive. cbn [Stokvel.status Stokvel.startDate Stokvel.endDate].
    rewrite bool_decide_eq_true_2 by done. cbn [andb].
    rewrite andb_true_iff, !bool_decide_eq_true. tauto.
  - unfold Stokvel.getDaysUntilPayout. cbn [Stokvel.endDate].
    rewrite ceil_div_days. f_equal.
    unfold JsDate.msPerDay. Z.div_mod_to_equations. lia.
Qed.

Lemma planning_stokvel_is_active_for_ten_months_witness :
  let j := StokvelService.joinStokvel SAST sample_users ∅ "S2" "u1" "Planning Ahead"
             (Js.ofZ 300) "card" t_2025_11_02 t_2025_11_02 t_2025_11_02 t_2025_11_02
             t_2025_11_02 in
  exists stokvel membership days,
    StokvelService.j_reply j = Success (stokvel, membership) /\
    Stokvel.allowsEarlyWithdrawal stokvel = true /\
    303 <= days <= 306 /\
    (Stokvel.isActive stokvel t_2025_11_02 = true
     <-> t_2025_11_02 <= t_2025_11_02 <= t_2025_11_02 + days * JsDate.msPerDay) /\
    Stokvel.getDaysUntilPayout stokvel t_2025_11_02 = Some days.
Proof.
  apply (planning_stokvel_is_active_for_ten_months SAST sample_users ∅ "S2" "u1"
           "Planning Ahead" "card" (Js.ofZ 300) t_2025_11_02 t_2025_11_02 t_2025_11_02
           t_2025_11_02 t_2025_11_02 t_2025_11_02 user_doc_sample).
  - reflexivity.
  - reflexivity.
Defined.

(** ** Reading a payment back *)

Lemma or_str_idempotent (x d : string) :
  d <> "" -> LoanRepository.or_str (LoanRepository.or_str x d) d = LoanRepository.or_str x d.
Proof.
  intros Hd. unfold LoanRepository.or_str.
  destruct (decide (x = "")) as [->|Hx].
  - by destruct (decide (d = "")).
  - by destruct (decide (x = "")).
Qed.

(** The document a payment leaves reads back as the loan the payment
    returned. *)
Lemma payment_reads_back (loanId : string) (data : Loan.t) (amount : Qc) :
  let loan := Loan.recordPayment (LoanRepository.fromFirestore loanId data) amount in
  LoanRepository.fromFirestore loanId (LoanRepository.update_payment loan data) = loan.
Proof.
  cbv zeta.
  set (loan0 := LoanRepository.fromFirestore loanId data).
  assert (Hstatus0 : LoanRepository.or_str (Loan.status loan0) "pending" = Loan.status loan0).
  { unfold loan0, LoanRepository.fromFirestore. cbn [Loan.status].
    by apply or_str_idempotent. }
  destruct (Qclt_le_dec 0%Qc (Loan.totalRepayment loan0 - (Loan.amountPaid loan0 + amount))%Qc)
    as [Howing|Hpaid].
  - rewrite (recordPayment_owing loan0 amount Howing).
    unfold LoanRepository.fromFirestore at 1, LoanRepository.update_payment.
    cbn [Loan.id Loan.userId Loan.amount Loan.term Loan.purpose Loan.status
         Loan.applicationDate Loan.approvalDate Loan.disbursementDate Loan.interestRate
         Loan.initiationFee Loan.serviceFee Loan.totalRepayment Loan.monthlyRepayment
         Loan.amountPaid Loan.remainingBalance Loan.set_status Loan.set_remainingBalance
         Loan.set_amountPaid].
    rewrite Hstatus0. reflexivity.
  - rewrite (recordPayment_paid loan0 amount Hpaid).
    unfold LoanRepository.fromFirestore at 1, LoanRepository.update_payment.
    cbn [Loan.id Loan.userId Loan.amount Loan.term Loan.purpose Loan.status
         Loan.applicationDate Loan.approvalDate Loan.disbursementDate Loan.interestRate
         Loan.initiationFee Loan.serviceFee Loan.totalRepayment Loan.monthlyRepayment
         Loan.amountPaid Loan.remainingBalance Loan.set_status Loan.set_remainingBalance
         Loan.set_amountPaid].
    reflexivity.
Qed.

Lemma repository_recordPayment_found (db : LoanRepository.store) (loanId : string)
    (data : Loan.t) (amount : Qc) :
  db !! loanId = Some data ->
  LoanRepository.recordPayment db loanId amount
  = (Returned (Loan.recordPayment (LoanRepository.fromFirestore loanId data) amount),
     <[loanId := LoanRepository.update_payment
                   (Loan.recordPayment (LoanRepository.fromFirestore loanId data) amount)
                   data]> db).
Proof.
  intros Hd. unfold LoanRepository.recordPayment, LoanRepository.getLoanById.
  rewrite Hd. cbn [fmap option_fmap option_map].
  by rewrite (alter_alt_Some _ _ _ _ Hd).
Qed.

(** X27: the loan that LoanRepository.recordPayment returns is the loan
    that getLoanById then reads back, so the next payment through the
    repository starts from it; no other document changes.  For an id with
    no document the call is refused with 'Loan not found' and the
    collection stays as it was. *)
Theorem next_payment_starts_from_the_stored_loan (db : LoanRepository.store)
    (loanId : string) (amount next : Qc) :
  let r := LoanRepository.recordPayment db loanId amount in
  match fst r with
  | Returned loan =>
      LoanRepository.getLoanById (snd r) loanId = Some loan /\
      fst (LoanRepository.recordPayment (snd r) loanId next)
      = Returned (Loan.recordPayment loan next) /\
      (forall other : string, other <> loanId -> snd r !! other = db !! other)
  | Threw message =>
      message = "Loan not found" /\ snd r = db /\ db !! loanId = None
  end.
Proof.
  cbv zeta.
  destruct (db !! loanId) as [data|] eqn:Hd.
  - rewrite (repository_recordPayment_found _ _ _ _ Hd). cbn [fst snd].
    pose proof (payment_reads_back loanId data amount) as Hback. cbv zeta in Hback.
    split; [|split].
    + unfold LoanRepository.getLoanById. rewrite lookup_insert_eq.
      cbn [fmap option_fmap option_map]. by rewrite Hback.
    + rewrite (repository_recordPayment_found _ _ _ _ (lookup_insert_eq _ _ _)).
      cbn [fst]. by rewrite Hback.
    + intros other Hother. by rewrite lookup_insert_ne.
  - unfold LoanRepository.recordPayment, LoanRepository.getLoanById.
    rewrite Hd. cbn [fst snd]. done.
Qed.

(** ** Claims after activation *)

Lemma toISOString_nonempty (t : Z) : JsDate.toISOString t <> "".
Proof.
  unfold JsDate.toISOString. intros H.
  pose proof (isoDate_nonempty t) as Hd.
  destruct (JsDate.isoDate t) as [|c s]; [done|discriminate].
Qed.

Lemma or_null_nonempty (s : string) : s <> "" -> UserRepository.or_null (Some s) = Some s.
Proof. intros Hs. by destruct s. Qed.

(** The waiting period is over when the distance between the two instants
    exceeds one 30-day month less than the period. *)
Lemma waiting_period_over (m : FuneralCoverMembership.t) (now w : Z) :
  w <= FuneralCoverMembership.getMonthsSinceStart m now <->
  (w - 1) * FuneralCoverMembership.msPerMonth
  < Z.abs (now - FuneralCoverMembership.startDate m).
Proof.
  pose proof (proj1 (getMonthsSinceStart_least m now
                       (FuneralCoverMembership.getMonthsSinceStart m now)) eq_refl) as Hk.
  unfold FuneralCoverMembership.msPerMonth in *.
  change (1000 * 60 * 60 * 24 * 30) with 2592000000 in *.
  split; intros H; nia.
Qed.

(** What [activateCover] leaves for a user it accepts. *)
Lemma activateCover_found (db : UserRepository.store)
    (userId planId paymentMethod : string) (familyDetails : option string)
    (additionalBenefits : list string) (now : Z) (d : UserRepository.doc)
    (plan : FuneralCoverPlan.plan) :
  db !! userId = Some d ->
  FuneralCoverPlan.getPlan planId = Some plan ->
  planId = "basic" \/ FuneralService.missing familyDetails = false ->
  snd (FuneralService.activateCover db userId planId paymentMethod familyDetails
         additionalBenefits now)
  = <[userId := UserRepository.set_storeDiscount
                  (tier (UserRepository.savingsTotal d) true)
                  (UserRepository.set_cover (Some planId) (Some (JsDate.toISOString now))
                     (Some paymentMethod) (UserRepository.or_null familyDetails) d)]> db.
Proof.
  intros Hd Hplan Hdetails.
  unfold FuneralService.activateCover. rewrite Hplan.
  rewrite (needs_details_false _ _ Hdetails).
  unfold UserRepository.updateFuneralCover.
  rewrite (update_found _ _ _ _ Hd).
  unfold UserRepository.getUserById. rewrite lookup_insert_eq.
  cbn [fmap option_fmap option_map].
  erewrite update_found by apply lookup_insert_eq.
  by rewrite insert_insert_eq.
Qed.

(** X28: a user whose cover activateCover started at [t0] and who submits a
    claim at a later time [t1] is accepted exactly when the cause has a
    waiting period and more than that period less one 30-day month has
    passed; a missing cause counts as natural death.  For accidental death
    this means more than 150 days, and a claim before that is refused with a
    message that says 0 months are required.  Without cover on record the
    claim is refused with 'No active funeral cover'. *)
Theorem claim_after_activation_waits
    (inherited_text : string -> string) (db : UserRepository.store)
    (userId planId paymentMethod : string) (familyDetails : option string)
    (additionalBenefits : list string) (t0 now1 t1 : Z) (deathType : option string)
    (d : UserRepository.doc) (plan : FuneralCoverPlan.plan) :
  db !! userId = Some d ->
  FuneralCoverPlan.getPlan planId = Some plan ->
  planId = "basic" \/ FuneralService.missing familyDetails = false ->
  -8640000000000000 <= t0 <= 8640000000000000 ->
  t0 <= t1 ->
  let db1 := snd (FuneralService.activateCover db userId planId paymentMethod familyDetails
                    additionalBenefits t0) in
  let r := FuneralService.submitClaim inherited_text db1 userId deathType now1 t1 in
  let cause := default "NATURAL_DEATH" (UserRepository.or_null deathType) in
  (r = Success "Claim submitted successfully. You will be contacted within 48 hours." <->
   exists w, FuneralCoverMembership.waitingPeriod cause = Some w /\
             (w - 1) * FuneralCoverMembership.msPerMonth < t1 - t0) /\
  (cause = "ACCIDENTAL_DEATH" ->
   (r = Success "Claim submitted successfully. You will be contacted within 48 hours." <->
    150 * JsDate.msPerDay < t1 - t0) /\
   (t1 - t0 <= 150 * JsDate.msPerDay ->
    r = Failure (Error "Waiting period not met. 0 months required for ACCIDENTAL_DEATH."))) /\
  (UserRepository.funeralCover d = false ->
   FuneralService.submitClaim inherited_text db userId deathType now1 t1
   = Failure (Error "No active funeral cover")).
Proof.
  intros Hd Hplan Hdetails Hrange Hlater. cbv zeta.
  rewrite (activateCover_found _ _ _ _ _ _ _ _ _ Hd Hplan Hdetails).
  set (cause := default "NATURAL_DEATH" (UserRepository.or_null deathType)).
  assert (Hclaim :
            FuneralService.submitClaim inherited_text
              (<[userId := UserRepository.set_storeDiscount
                             (tier (UserRepository.savingsTotal d) true)
                             (UserRepository.set_cover (Some planId)
                                (Some (JsDate.toISOString t0)) (Some paymentMethod)
                                (UserRepository.or_null familyDetails) d)]> db)
              userId deathType now1 t1
            = if negb (FuneralCoverMembership.hasWaitingPeriodPassed
                         (FuneralCoverMembership.mk userId
                            (default "" (UserRepository.or_null (Some planId))) true t0 ""
                            [] 0%Qc) cause t1)
              then Failure (Error ("Waiting period not met. " +:+
                                   FuneralService.months_text inherited_text cause +:+
                                   " months required for " +:+ cause +:+ "."))
              else Success "Claim submitted successfully. You will be contacted within 48 hours.").
  { unfold FuneralService.submitClaim, UserRepository.getUserById.
    rewrite lookup_insert_eq.
    cbn [fmap option_fmap option_map UserRepository.fromFirestore
         UserRepository.u_funeralCover UserRepository.u_funeralCoverType
         UserRepository.u_funeralCoverSince UserRepository.funeralCover
         UserRepository.funeralCoverType UserRepository.funeralCoverSince
         UserRepository.set_storeDiscount UserRepository.set_cover negb].
    rewrite (or_null_nonempty _ (toISOString_nonempty t0)).
    rewrite (parse_toISOString t0 Hrange).
    fold cause.
    destruct (FuneralCoverMembership.hasWaitingPeriodPassed _ cause t1); [done|].
    cbn [negb]. unfold caught.
    destruct (decide (_ = "")) as [Hempty|]; [discriminate Hempty|done]. }
  rewrite Hclaim. clear Hclaim.
  set (m := FuneralCoverMembership.mk userId _ true t0 "" [] 0%Qc).
  assert (Hpassed : forall w,
            FuneralCoverMembership.waitingPeriod cause = Some w ->
            FuneralCoverMembership.hasWaitingPeriodPassed m cause t1 = true
            <-> (w - 1) * FuneralCoverMembership.msPerMonth < t1 - t0).
  { intros w Hw. unfold FuneralCoverMembership.hasWaitingPeriodPassed. rewrite Hw.
    rewrite bool_decide_eq_true, waiting_period_over.
    cbn [FuneralCoverMembership.startDate m].
    rewrite Z.abs_eq by lia. done. }
  split; [|split].
  - destruct (FuneralCoverMembership.waitingPeriod cause) as [w|] eqn:Hw.
    + specialize (Hpassed w eq_refl).
      destruct (FuneralCoverMembership.hasWaitingPeriodPassed m cause t1) eqn:Hp; cbn [negb].
      * split; [|done]. intros _. exists w. split; [done|]. by apply Hpassed.
      * split; [discriminate|]. intros (w' & [= <-] & Hlt).
        apply Hpassed in Hlt. discriminate.
    + assert (Hp : FuneralCoverMembership.hasWaitingPeriodPassed m cause t1 = false).
      { unfold FuneralCoverMembership.hasWaitingPeriodPassed. by rewrite Hw. }
      rewrite Hp. cbn [negb]. split; [discriminate|]. by intros (w' & [=] & _).
  - intros Hcause. rewrite Hcause in *.
    specialize (Hpassed 6 eq_refl).
    assert (Hdays : (6 - 1) * FuneralCoverMembership.msPerMonth = 150 * JsDate.msPerDay)
      by reflexivity.
    rewrite Hdays in Hpassed.
    destruct (FuneralCoverMembership.hasWaitingPeriodPassed m "ACCIDENTAL_DEATH" t1) eqn:Hp;
      cbn [negb].
    + split; [split; [intros _; by apply Hpassed|done]|].
      intros Hle. assert (150 * JsDate.msPerDay < t1 - t0) by (by apply Hpassed). lia.
    + split; [split; [discriminate|]|].
      * intros Hlt. apply Hpassed in Hlt. discriminate.
      * intros _. reflexivity.
  - intros Hcover. unfold FuneralService.submitClaim, UserRepository.getUserById.
    rewrite Hd. cbn [fmap option_fmap option_map UserRepository.fromFirestore
                     UserRepository.u_funeralCover].
    by rewrite Hcover.
Qed.

Lemma claim_after_activation_waits_witness :
  let text := fun key : string => "function " +:+ key +:+ "() { [native code] }" in
  let db1 := snd (FuneralService.activateCover sample_users "u1" "basic" "debit" None []
                    t_2025_01_31) in
  let r := FuneralService.submitClaim text db1 "u1" (Some "ACCIDENTAL_DEATH") t_2025_11_02
             t_2025_11_02 in
  let cause := default "NATURAL_DEATH" (UserRepository.or_null (Some "ACCIDENTAL_DEATH")) in
  (r = Success "Claim submitted successfully. You will be contacted within 48 hours." <->
   exists w, FuneralCoverMembership.waitingPeriod cause = Some w /\
             (w - 1) * FuneralCoverMembership.msPerMonth < t_2025_11_02 - t_2025_01_31) /\
  (cause = "ACCIDENTAL_DEATH" ->
   (r = Success "Claim submitted successfully. You will be contacted within 48 hours." <->
    150 * JsDate.msPerDay < t_2025_11_02 - t_2025_01_31) /\
   (t_2025_11_02 - t_2025_01_31 <= 150 * JsDate.msPerDay ->
    r = Failure (Error "Waiting period not met. 0 months required for ACCIDENTAL_DEATH."))) /\
  (UserRepository.funeralCover user_doc_sample = false ->
   FuneralService.submitClaim text sample_users "u1" (Some "ACCIDENTAL_DEATH") t_2025_11_02
     t_2025_11_02
   = Failure (Error "No active funeral cover")).
Proof.
  apply (claim_after_activation_waits
           (fun key : string => "function " +:+ key +:+ "() { [native code] }")
           sample_users "u1" "basic" "debit" None [] t_2025_01_31 t_2025_11_02 t_2025_11_02
           (Some "ACCIDENTAL_DEATH") user_doc_sample FuneralCoverPlan.BASIC).
  - reflexivity.
  - reflexivity.
  - by left.
  - unfold t_2025_01_31. lia.
  - unfold t_2025_01_31, t_2025_11_02. lia.
Defined.
